(** * SQLE MySQL driver: audit pipeline, affected-rows estimator, rule SQLE00063

    A shallow embedding of
      - [sqle/driver/mysql/util/util.go]        (GetAffectedRowNum, checkSql),
      - the MySQL driver implementation          (Audit, audit, onlineddlWithGhost),
      - [sqle/driver/mysql/rule/ai/rule_00063.go] (RuleSQLE00063),
    followed by the properties established about them.

    Conventions.  A Go function returning [(T, error)] is a function into
    [result T]: [Ok v] stands for [(v, nil)], [Err e] for [(zero, e)] and
    [Panic] for a run-time panic (index out of range, nil dereference).
    Calls to collaborators that live outside the modelled files (the SQL
    parser, the live database, gh-ost, the rule registry) are taken as
    parameters; the calls that matter for the properties are recorded in a
    trace.  Logging has no influence on any returned value and is left out. *)

From Stdlib Require Import ZArith List String Ascii Bool Lia DecimalString.
Import ListNotations.

Set Warnings "-register-all".

Open Scope string_scope.
Open Scope Z_scope.

(* ================================================================== *)
(** ** Go values                                                        *)
(* ================================================================== *)

Module Go.

(** [int64] arithmetic wraps around. *)
Definition wrap64 (z : Z) : Z := (z + 2 ^ 63) mod 2 ^ 64 - 2 ^ 63.
Definition add64 (a b : Z) : Z := wrap64 (a + b).
Definition in_int64 (z : Z) : Prop := - 2 ^ 63 <= z < 2 ^ 63.

(** Go [error] values.  The constructors follow the places where the
    modelled code builds an error. *)
Inductive error : Type :=
  | ErrUnsupportedSqlType                               (* util.ErrUnsupportedSqlType *)
  | ErrNew (msg : string)                               (* errors.New(msg), collaborator errors *)
  | ErrWrap (cause : error) (msg : string)              (* errors.Wrap(cause, msg) *)
  | ErrGetSelectNode (originSql : string)               (* "get select node from %v failed" *)
  | ErrCheckSql (affectedRowSql originSql : string) (cause : error)
  | ErrExecutionPlan (affectedRowSql : string) (cause : error)
  | ErrAffectedRows (affectedRowSql : string) (cause : error)
  | ErrSyntax (fn input : string)                       (* strconv.ErrSyntax *)
  | ErrRange (fn input : string).                       (* strconv.ErrRange *)

Inductive result (A : Type) : Type :=
  | Ok (a : A)
  | Err (e : error)
  | Panic.
Arguments Ok {A} a.
Arguments Err {A} e.
Arguments Panic {A}.

Definition is_err {A} (r : result A) : bool :=
  match r with Err _ => true | _ => false end.

Definition isSome {A} (o : option A) : bool :=
  match o with Some _ => true | None => false end.

(** *** package strings / strconv / fmt *)

Definition byte_of (c : ascii) : Z := Z.of_N (N_of_ascii c).

Fixpoint mem_byte (c : ascii) (cutset : string) : bool :=
  match cutset with
  | EmptyString => false
  | String d rest => Ascii.eqb c d || mem_byte c rest
  end.

(** [strings.TrimRight(s, cutset)] for an ASCII cutset. *)
Fixpoint TrimRight (s cutset : string) : string :=
  match s with
  | EmptyString => EmptyString
  | String a rest =>
      match TrimRight rest cutset with
      | EmptyString => if mem_byte a cutset then EmptyString else String a EmptyString
      | rest' => String a rest'
      end
  end.

(** [strings.Join(elems, sep)]. *)
Fixpoint Join (elems : list string) (sep : string) : string :=
  match elems with
  | [] => ""
  | [e] => e
  | e :: rest => e ++ sep ++ Join rest sep
  end.

Definition lower_byte (c : ascii) : ascii :=
  let n := byte_of c in
  if (65 <=? n) && (n <=? 90) then ascii_of_N (Z.to_N (n + 32)) else c.

(** [strings.ToLower] on the ASCII letters. *)
Fixpoint ToLower (s : string) : string :=
  match s with
  | EmptyString => EmptyString
  | String a rest => String (lower_byte a) (ToLower rest)
  end.

Definition upper_byte (c : ascii) : ascii :=
  let n := byte_of c in
  if (97 <=? n) && (n <=? 122) then ascii_of_N (Z.to_N (n - 32)) else c.

(** [strings.ToUpper] on the ASCII letters. *)
Fixpoint ToUpper (s : string) : string :=
  match s with
  | EmptyString => EmptyString
  | String a rest => String (upper_byte a) (ToUpper rest)
  end.

Definition digit_of (c : ascii) : option Z :=
  let n := byte_of c in
  if (48 <=? n) && (n <=? 57) then Some (n - 48) else None.

Fixpoint parseDigits (s : string) (acc : Z) : option Z :=
  match s with
  | EmptyString => Some acc
  | String c rest =>
      match digit_of c with
      | Some d => parseDigits rest (10 * acc + d)
      | None => None
      end
  end.

(** [strconv.ParseInt(s, 10, 64)]: an optional sign, then one or more
    decimal digits, within the range of [int64]. *)
Definition ParseInt (s : string) : result Z :=
  match s with
  | EmptyString => Err (ErrSyntax "ParseInt" s)
  | String c rest =>
      let neg := Ascii.eqb c "-"%char in
      let body := if neg || Ascii.eqb c "+"%char then rest else s in
      match body with
      | EmptyString => Err (ErrSyntax "ParseInt" s)
      | _ =>
          match parseDigits body 0 with
          | None => Err (ErrSyntax "ParseInt" s)
          | Some un =>
              if neg
              then if un <=? 2 ^ 63 then Ok (- un) else Err (ErrRange "ParseInt" s)
              else if un <? 2 ^ 63 then Ok un else Err (ErrRange "ParseInt" s)
          end
      end
  end.

(** *** package unicode/utf8 and [strings.EqualFold] *)

Definition RuneError : Z := 65533.
Definition RuneSelf : Z := 128.

Definition between (lo hi b : Z) : bool := (lo <=? b) && (b <=? hi).

(** The runes of a string, as [for _, r := range s] yields them: an
    ill-formed sequence gives [RuneError] and advances by one byte. *)
Fixpoint runes (s : string) : list Z :=
  match s with
  | EmptyString => []
  | String c0 rest =>
      let b0 := byte_of c0 in
      if b0 <? RuneSelf then b0 :: runes rest else
      match rest with
      | EmptyString => [RuneError]
      | String c1 rest1 =>
          let b1 := byte_of c1 in
          if between 194 223 b0 then
            if between 128 191 b1
            then ((b0 - 192) * 64 + (b1 - 128)) :: runes rest1
            else RuneError :: runes rest
          else if between 224 239 b0 then
            let lo := if b0 =? 224 then 160 else 128 in
            let hi := if b0 =? 237 then 159 else 191 in
            match rest1 with
            | EmptyString => RuneError :: runes rest
            | String c2 rest2 =>
                let b2 := byte_of c2 in
                if between lo hi b1 && between 128 191 b2
                then ((b0 - 224) * 4096 + (b1 - 128) * 64 + (b2 - 128)) :: runes rest2
                else RuneError :: runes rest
            end
          else if between 240 244 b0 then
            let lo := if b0 =? 240 then 144 else 128 in
            let hi := if b0 =? 244 then 143 else 191 in
            match rest1 with
            | String c2 (String c3 rest3) =>
                let b2 := byte_of c2 in
                let b3 := byte_of c3 in
                if between lo hi b1 && between 128 191 b2 && between 128 191 b3
                then ((b0 - 240) * 262144 + (b1 - 128) * 4096
                      + (b2 - 128) * 64 + (b3 - 128)) :: runes rest3
                else RuneError :: runes rest
            | _ => RuneError :: runes rest
            end
          else RuneError :: runes rest
      end
  end.

(** One step of [strings.EqualFold] on the runes [sr] and [tr]; [reaches]
    stands for the walk along [unicode.SimpleFold]. *)
Definition equalFoldRune (reaches : Z -> Z -> bool) (sr tr : Z) : bool :=
  if tr =? sr then true else
  let lo := Z.min sr tr in
  let hi := Z.max sr tr in
  if hi <? RuneSelf
  then between 65 90 lo && (hi =? lo + 32)
  else reaches lo hi.

Fixpoint equalFoldRunes (reaches : Z -> Z -> bool) (s t : list Z) : bool :=
  match s, t with
  | [], [] => true
  | sr :: s', tr :: t' => equalFoldRune reaches sr tr && equalFoldRunes reaches s' t'
  | _, _ => false
  end.

Definition EqualFold (reaches : Z -> Z -> bool) (s t : string) : bool :=
  equalFoldRunes reaches (runes s) (runes t).


(** *** helpers for statements about strings *)

(** [k] semicolons. *)
Fixpoint semicolons (k : nat) : string :=
  match k with
  | O => EmptyString
  | S k' => String ";"%char (semicolons k')
  end.

(** The last byte of a string, if it has one. *)
Fixpoint lastByte (s : string) : option ascii :=
  match s with
  | EmptyString => None
  | String a EmptyString => Some a
  | String _ rest => lastByte rest
  end.

(** [strings.Replace(s, old, new, -1)] for a one-byte [old]. *)
Fixpoint ReplaceByte (s : string) (old : ascii) (new : string) : string :=
  match s with
  | EmptyString => EmptyString
  | String c rest =>
      if Ascii.eqb c old then new ++ ReplaceByte rest old new
      else String c (ReplaceByte rest old new)
  end.

(** [strings.HasPrefix(s, prefix)] *)
Fixpoint HasPrefix (s prefix : string) : bool :=
  match prefix, s with
  | EmptyString, _ => true
  | String p prefix', String c s' => Ascii.eqb c p && HasPrefix s' prefix'
  | String _ _, EmptyString => false
  end.

(** [errors.Is(err, target)] for a sentinel [target]: the chain of causes
    of [errors.Wrap] is walked; an error built by [fmt.Errorf] with the verb
    for values only keeps the text of its cause and ends the chain. *)
Fixpoint Is_ErrUnsupportedSqlType (err : error) : bool :=
  match err with
  | ErrUnsupportedSqlType => true
  | ErrWrap cause _ => Is_ErrUnsupportedSqlType cause
  | _ => false
  end.

End Go.
Import Go.

(* ================================================================== *)
(** ** The part of the parser's syntax tree that the code inspects      *)
(* ================================================================== *)

(** One module per Go struct, so that [SelectStmt.Where stmt] reads like the
    source's [stmt.Where].  A nil pointer or nil slice is [None]. *)

Module ast.

Definition AggFuncCount : string := "count".

Inductive Datum : Type :=
  | KindNull
  | KindInt64 (i : Z)
  | KindString (s : string).

Inductive ExprNode : Type :=
  | ValueExpr (datum : Datum)
  | ColumnNameExpr (name : string)
  | AggregateFuncExpr (F : string) (Args : list ExprNode)
  | BinaryOperationExpr (op : string) (l r : ExprNode).

Module SelectField.
Record t := mk { WildCard : bool; Expr : option ExprNode; AsName : string }.
End SelectField.

Module FieldList.
Record t := mk { Fields : list SelectField.t }.
End FieldList.

Module TableName.
Record t := mk { Schema : string; Name : string }.
End TableName.

(** What a FROM clause refers to: base tables and derived tables. *)
Inductive ResultSetSource : Type :=
  | SourceTable (tn : TableName.t)
  | SourceSubquery (text : string).

Module TableSource.
Record t := mk { Source : ResultSetSource; AsName : string }.
End TableSource.

Module TableRefsClause.
Record t := mk { TableRefs : list TableSource.t }.
End TableRefsClause.

Module ByItem.
Record t := mk { Expr : ExprNode; Desc : bool }.
End ByItem.

Module OrderByClause.
Record t := mk { Items : list ByItem.t }.
End OrderByClause.

Module GroupByClause.
Record t := mk { Items : list ByItem.t }.
End GroupByClause.

Module HavingClause.
Record t := mk { Expr : ExprNode }.
End HavingClause.

Module Limit.
Record t := mk { Count : ExprNode; Offset : option ExprNode }.
End Limit.

Module SelectStmtOpts.
Record t := mk { Distinct : bool; SQLCache : bool }.
  (** [new(ast.SelectStmtOpts)] *)
Definition new : t := mk false false.
End SelectStmtOpts.

Module SelectStmt.
Record t := mk {
  SelectStmtOpts : option SelectStmtOpts.t;
  Fields : option FieldList.t;
  From : option TableRefsClause.t;
  Where : option ExprNode;
  GroupBy : option GroupByClause.t;
  Having : option HavingClause.t;
  OrderBy : option OrderByClause.t;
  Limit : option Limit.t
}.
  (** [new(ast.SelectStmt)] *)
Definition new : t := mk None None None None None None None None.
End SelectStmt.

Module UnionStmt.
Record t := mk { Selects : list SelectStmt.t }.
End UnionStmt.

(** The dynamic type behind [InsertStmt.Select] (a [ResultSetNode]). *)
Inductive ResultSetNode : Type :=
  | RSelect (s : SelectStmt.t)
  | RUnion (u : UnionStmt.t)
  | ROther (text : string).

Module Assignment.
Record t := mk { Column : string; Expr : ExprNode }.
End Assignment.

Module InsertStmt.
Record t := mk {
  Table : option TableRefsClause.t;
  Lists : option (list (list ExprNode));
  Select : option ResultSetNode
}.
End InsertStmt.

Module UpdateStmt.
Record t := mk {
  TableRefs : option TableRefsClause.t;
  List : list Assignment.t;
  Where : option ExprNode;
  Order : option OrderByClause.t;
  Limit : option Limit.t
}.
End UpdateStmt.

Module DeleteStmt.
Record t := mk {
  TableRefs : option TableRefsClause.t;
  Where : option ExprNode;
  Order : option OrderByClause.t;
  Limit : option Limit.t
}.
End DeleteStmt.

(** DDL: what rule SQLE00063 and the gh-ost decision look at. *)
Inductive ConstraintType : Type :=
  | ConstraintNoConstraint
  | ConstraintPrimaryKey
  | ConstraintKey
  | ConstraintIndex
  | ConstraintUniq
  | ConstraintUniqKey
  | ConstraintUniqIndex
  | ConstraintForeignKey
  | ConstraintFulltext
  | ConstraintCheck.

Definition ConstraintType_eqb (a b : ConstraintType) : bool :=
  match a, b with
  | ConstraintNoConstraint, ConstraintNoConstraint
  | ConstraintPrimaryKey, ConstraintPrimaryKey
  | ConstraintKey, ConstraintKey
  | ConstraintIndex, ConstraintIndex
  | ConstraintUniq, ConstraintUniq
  | ConstraintUniqKey, ConstraintUniqKey
  | ConstraintUniqIndex, ConstraintUniqIndex
  | ConstraintForeignKey, ConstraintForeignKey
  | ConstraintFulltext, ConstraintFulltext
  | ConstraintCheck, ConstraintCheck => true
  | _, _ => false
  end.

Module ColumnName.
Record t := mk { Name : string }.
End ColumnName.

Module IndexPartSpecification.
Record t := mk { Column : ColumnName.t; Length : Z }.
End IndexPartSpecification.

Module Constraint.
Record t := mk {
  Tp : ConstraintType;
  Name : string;
  Keys : list IndexPartSpecification.t
}.
End Constraint.

Inductive AlterTableType : Type :=
  | AlterTableOption
  | AlterTableAddColumns
  | AlterTableAddConstraint
  | AlterTableDropColumn
  | AlterTableDropIndex
  | AlterTableModifyColumn
  | AlterTableRenameTable
  | AlterTableRenameIndex.

Module AlterTableSpec.
Record t := mk {
  Tp : AlterTableType;
  Constraint : option Constraint.t;
  FromKey : string;
  ToKey : string
}.
End AlterTableSpec.

Module AlterTableStmt.
Record t := mk { Table : TableName.t; Specs : list AlterTableSpec.t }.
End AlterTableStmt.

Inductive IndexKeyType : Type :=
  | IndexKeyTypeNone
  | IndexKeyTypeUnique
  | IndexKeyTypeSpatial
  | IndexKeyTypeFullText.

Module CreateIndexStmt.
Record t := mk {
  IndexName : string;
  Table : TableName.t;
  IndexPartSpecifications : list IndexPartSpecification.t;
  KeyType : IndexKeyType
}.
End CreateIndexStmt.

Module CreateTableStmt.
Record t := mk { Table : TableName.t; Constraints : list Constraint.t }.
End CreateTableStmt.

(** [ast.Node]: the dynamic type of a parsed statement. *)
Inductive Node : Type :=
  | NSelect (stmt : SelectStmt.t)
  | NUnion (stmt : UnionStmt.t)
  | NInsert (stmt : InsertStmt.t)
  | NUpdate (stmt : UpdateStmt.t)
  | NDelete (stmt : DeleteStmt.t)
  | NAlterTable (stmt : AlterTableStmt.t)
  | NCreateIndex (stmt : CreateIndexStmt.t)
  | NCreateTable (stmt : CreateTableStmt.t)
  | NOther (text : string).

End ast.

(* ================================================================== *)
(** ** package executor (boundary)                                      *)
(* ================================================================== *)

Module executor.

(** The access type of a full table scan in an EXPLAIN row; the constant
    is declared in package executor, util.go names its value ("type ALL"). *)
Definition ExplainRecordAccessTypeAll : string := "ALL".

Module ExplainRecord.
Record t := mk { Type_ : string; Rows : Z }.
End ExplainRecord.

Module NullString.
Record t := mk { String_ : string; Valid : bool }.
End NullString.

(** [*executor.Executor], seen through [conn.Db.QueryWithContext]: the
    rows of the answer, or the error of the live database. *)
Module Executor.
Record t := mk {
  QueryWithContext : string -> result (list (list NullString.t))
}.
End Executor.

End executor.

(* ================================================================== *)
(** ** package util: the affected-rows estimator (util.go)              *)
(* ================================================================== *)

Module util.
Import ast executor.

(** The parser library as the estimator uses it. *)
Module Parser.
Record t := mk {
  ParseOneSql : string -> result Node;
  (** [node.Restore(format.NewRestoreCtx(format.DefaultRestoreFlags, _))] *)
  Restore : SelectStmt.t -> result string;
  (** [restoreToSqlWithFlag(format.DefaultRestoreFlags, unionStmt)] *)
  restoreToSqlWithFlag : UnionStmt.t -> result string
}.
End Parser.

(** What the estimator asks of its collaborators, in order. *)
Inductive Event : Type :=
  | EvParseOneSql (sql : string)
  | EvRestore (node : SelectStmt.t)
  | EvRestoreUnion (node : UnionStmt.t)
  | EvExplain (sql : string)
  | EvQuery (sql : string).

Definition is_live (ev : Event) : bool :=
  match ev with
  | EvExplain _ | EvQuery _ => true
  | _ => false
  end.

(** A computation: the calls made so far, and how it ended. *)
Definition M (A : Type) : Type := (list Event * result A)%type.

Definition ret {A} (a : A) : M A := ([], Ok a).
Definition fail {A} (e : error) : M A := ([], Err e).
Definition panic {A} : M A := ([], Panic).
Definition call {A} (ev : Event) (r : result A) : M A := ([ev], r).

Definition bind {A B} (m : M A) (k : A -> M B) : M B :=
  match m with
  | (tr, Ok a) => let '(tr', r) := k a in ((tr ++ tr')%list, r)
  | (tr, Err e) => (tr, Err e)
  | (tr, Panic) => (tr, Panic)
  end.

(** [if err != nil { return 0, wrap(err) }] *)
Definition wrapErr {A} (wrap : error -> error) (m : M A) : M A :=
  match m with
  | (tr, Err e) => (tr, Err (wrap e))
  | other => other
  end.

Declare Scope go_scope.
Delimit Scope go_scope with go.
Notation "x <- m ;; k" := (bind m (fun x => k))
  (at level 100, m at next level, right associativity) : go_scope.
Notation "m ;;; k" := (bind m (fun _ => k))
  (at level 100, right associativity) : go_scope.
Open Scope go_scope.

Definition trace {A} (m : M A) : list Event := fst m.
Definition outcome {A} (m : M A) : result A := snd m.

(** [getCountFieldList]: the select list [COUNT(1)]. *)
Definition getCountFieldList : FieldList.t :=
  FieldList.mk
    [ SelectField.mk false
        (Some (AggregateFuncExpr AggFuncCount [ValueExpr (KindInt64 1)])) "" ].

Definition newSelectWithCount : SelectStmt.t :=
  let newSelect := SelectStmt.new in
  let a := SelectStmtOpts.mk (SelectStmtOpts.Distinct SelectStmtOpts.new) true in
  SelectStmt.mk (Some a) (Some getCountFieldList)
    (SelectStmt.From newSelect) (SelectStmt.Where newSelect)
    (SelectStmt.GroupBy newSelect) (SelectStmt.Having newSelect)
    (SelectStmt.OrderBy newSelect) (SelectStmt.Limit newSelect).

(** [if x != nil { dst = x }] *)
Definition assign_if_set {A} (x dst : option A) : option A :=
  match x with
  | Some _ => x
  | None => dst
  end.

Definition with_clauses (newSelect : SelectStmt.t)
    (from : option TableRefsClause.t) (where_ : option ExprNode)
    (order : option OrderByClause.t) (limit : option Limit.t) : SelectStmt.t :=
  SelectStmt.mk
    (SelectStmt.SelectStmtOpts newSelect)
    (SelectStmt.Fields newSelect)
    (assign_if_set from (SelectStmt.From newSelect))
    (assign_if_set where_ (SelectStmt.Where newSelect))
    (SelectStmt.GroupBy newSelect)
    (SelectStmt.Having newSelect)
    (assign_if_set order (SelectStmt.OrderBy newSelect))
    (assign_if_set limit (SelectStmt.Limit newSelect)).

Definition getSelectNodeFromDelete (stmt : DeleteStmt.t) : SelectStmt.t :=
  with_clauses newSelectWithCount
    (DeleteStmt.TableRefs stmt) (DeleteStmt.Where stmt)
    (DeleteStmt.Order stmt) (DeleteStmt.Limit stmt).

Definition getSelectNodeFromUpdate (stmt : UpdateStmt.t) : SelectStmt.t :=
  with_clauses newSelectWithCount
    (UpdateStmt.TableRefs stmt) (UpdateStmt.Where stmt)
    (UpdateStmt.Order stmt) (UpdateStmt.Limit stmt).

Definition getSelectNodeFromSelect (stmt : SelectStmt.t) : SelectStmt.t :=
  with_clauses newSelectWithCount
    (SelectStmt.From stmt) (SelectStmt.Where stmt)
    (SelectStmt.OrderBy stmt) (SelectStmt.Limit stmt).

(** Modelled from the spec: the visitor type [SelectFieldExtractor] is
    declared in a file of package util that is not among the sources.  Its
    flag [IsSelectOnlyIncludeCountFunc] is set when the visited statement
    is a SELECT whose "select list is exactly a single count aggregate". *)
Definition IsSelectOnlyIncludeCountFunc (node : Node) : bool :=
  match node with
  | NSelect stmt =>
      match SelectStmt.Fields stmt with
      | Some fl =>
          match FieldList.Fields fl with
          | [field] =>
              match SelectField.Expr field with
              | Some (AggregateFuncExpr F _) => String.eqb (ToLower F) AggFuncCount
              | _ => false
              end
          | _ => false
          end
      | None => false
      end
  | _ => false
  end.

Section Estimator.
Variable P : Parser.t.

Definition checkSql (affectRowSql : string) : M unit :=
  node <- call (EvParseOneSql affectRowSql) (Parser.ParseOneSql P affectRowSql) ;;
  if negb (IsSelectOnlyIncludeCountFunc node)
  then fail (ErrNew "affectRowSql error")
  else ret tt.

(** The state of the [switch] at its end: either the function has
    already returned a count, or it goes on with these locals. *)
Inductive Classified : Type :=
  | Returned (n : Z)
  | Locals (newNode : option SelectStmt.t) (cannotConvert : bool) (originSql : string).

(** Lines 39-75: the type switch on the parsed statement. *)
Definition classify (node : Node) (originSql : string) : M Classified :=
  match node with
  | NSelect stmt =>
      let isGroupByAndHavingBothExist :=
        isSome (SelectStmt.GroupBy stmt) && isSome (SelectStmt.Having stmt) in
      let cannotConvert :=
        if isSome (SelectStmt.GroupBy stmt) || isGroupByAndHavingBothExist
           || isSome (SelectStmt.Limit stmt)
        then true else false in
      ret (Locals (Some (getSelectNodeFromSelect stmt)) cannotConvert originSql)
  | NInsert stmt =>
      let isCommonInsert :=
        isSome (InsertStmt.Lists stmt) && negb (isSome (InsertStmt.Select stmt)) in
      let isSelectInsert :=
        isSome (InsertStmt.Select stmt) && negb (isSome (InsertStmt.Lists stmt)) in
      if isSelectInsert then
        match InsertStmt.Select stmt with
        | Some (RSelect selectStmt) =>
            ret (Locals (Some (getSelectNodeFromSelect selectStmt)) false originSql)
        | Some (RUnion unionStmt) =>
            originSql' <- call (EvRestoreUnion unionStmt)
                               (Parser.restoreToSqlWithFlag P unionStmt) ;;
            ret (Locals None true originSql')
        | _ => ret (Locals None false originSql)
        end
      else if isCommonInsert then
        match InsertStmt.Lists stmt with
        | Some lists => ret (Returned (Z.of_nat (List.length lists)))
        | None => ret (Returned 0)
        end
      else fail ErrUnsupportedSqlType
  | NUpdate stmt => ret (Locals (Some (getSelectNodeFromUpdate stmt)) false originSql)
  | NDelete stmt => ret (Locals (Some (getSelectNodeFromDelete stmt)) false originSql)
  | _ => fail ErrUnsupportedSqlType
  end.

(** [fmt.Sprintf("select count(*) from (%s) as t", trimSuffix)] *)
Definition wrapAsDerivedTable (trimSuffix : string) : string :=
  "select count(*) from (" ++ trimSuffix ++ ") as t".

(** Lines 80-97: the text of the counting statement. *)
Definition buildAffectedRowSql (newNode : option SelectStmt.t)
    (cannotConvert : bool) (originSql : string) : M string :=
  if cannotConvert then
    let trimSuffix := TrimRight originSql ";" in
    ret (wrapAsDerivedTable trimSuffix)
  else
    match newNode with
    | None => fail (ErrGetSelectNode originSql)
    | Some n => call (EvRestore n) (Parser.Restore P n)
    end.

(** Lines 119-132: one pass over the plan rows. *)
Record PlanScan := mkPlanScan {
  notUseIndex : bool;
  affetcCount : Z;
  estimatedRows : Z
}.

Definition scanRecord (st : PlanScan) (record : ExplainRecord.t) : PlanScan :=
  mkPlanScan
    (if String.eqb (ExplainRecord.Type_ record) ExplainRecordAccessTypeAll
     then true else notUseIndex st)
    (ExplainRecord.Rows record)
    (add64 (estimatedRows st) (ExplainRecord.Rows record)).

Definition scanRecords (epRecords : list ExplainRecord.t) : PlanScan :=
  fold_left scanRecord epRecords (mkPlanScan false 0 0).

(** Lines 139-160: the live count and the decoding of its answer. *)
Definition liveCount (conn : Executor.t) (affectedRowSql : string) : M Z :=
  row <- wrapErr (ErrAffectedRows affectedRowSql)
           (call (EvQuery affectedRowSql)
                 (Executor.QueryWithContext conn affectedRowSql)) ;;
  match row with
  | [] => ret 0
  | row0 :: _ =>
      match row0 with
      | [] => panic
      | cell :: _ => ([], ParseInt (NullString.String_ cell))
      end
  end.

(** Lines 25-97: parse, classify, build the counting statement.  The
    answer is the count already returned by the [switch], or the pair of
    [originSql] (replaced by the restored union in that branch) and
    [affectedRowSql]. *)
Definition rewriteToCount (originSql : string) : M (Z + string * string) :=
  node <- call (EvParseOneSql originSql) (Parser.ParseOneSql P originSql) ;;
  c <- classify node originSql ;;
  match c with
  | Returned n => ret (inl n)
  | Locals newNode cannotConvert originSql =>
      affectedRowSql <- buildAffectedRowSql newNode cannotConvert originSql ;;
      ret (inr (originSql, affectedRowSql))
  end.

(** Lines 99-160: validate, consult the plan, count live if it is cheap. *)
Definition estimate (originSql affectedRowSql : string) (conn : Executor.t)
    (explainRecordFunc : string -> result (list ExplainRecord.t)) : M Z :=
  wrapErr (ErrCheckSql affectedRowSql originSql) (checkSql affectedRowSql) ;;;
  epRecords <- wrapErr (ErrExecutionPlan affectedRowSql)
                 (call (EvExplain affectedRowSql)
                       (explainRecordFunc affectedRowSql)) ;;
  let scan := scanRecords epRecords in
  if notUseIndex scan || (100000 <? estimatedRows scan)
  then ret (affetcCount scan)
  else liveCount conn affectedRowSql.

Definition GetAffectedRowNum (originSql : string) (conn : Executor.t)
    (explainRecordFunc : string -> result (list ExplainRecord.t)) : M Z :=
  r <- rewriteToCount originSql ;;
  match r with
  | inl n => ret n
  | inr (originSql, affectedRowSql) =>
      estimate originSql affectedRowSql conn explainRecordFunc
  end.

End Estimator.

(** The statement an event carries, for the events that carry one. *)
Definition event_sql (ev : Event) : string :=
  match ev with
  | EvParseOneSql sql | EvExplain sql | EvQuery sql => sql
  | _ => ""
  end.

(** Summaries of a plan, stated on the list of its rows. *)
Definition isFullScan (record : ExplainRecord.t) : bool :=
  String.eqb (ExplainRecord.Type_ record) ExplainRecordAccessTypeAll.

Definition anyFullScan (epRecords : list ExplainRecord.t) : bool :=
  existsb isFullScan epRecords.

Definition sumRows (epRecords : list ExplainRecord.t) : Z :=
  fold_right (fun record acc => ExplainRecord.Rows record + acc) 0 epRecords.

Definition lastRows (epRecords : list ExplainRecord.t) : Z :=
  last (map ExplainRecord.Rows epRecords) 0.

(** Whether a statement the estimator accepts carries a GROUP BY or a LIMIT
    clause (for INSERT ... SELECT, in its SELECT). *)
Definition hasGroupByOrLimit (node : Node) : bool :=
  match node with
  | NSelect stmt => isSome (SelectStmt.GroupBy stmt) || isSome (SelectStmt.Limit stmt)
  | NUpdate stmt => isSome (UpdateStmt.Limit stmt)
  | NDelete stmt => isSome (DeleteStmt.Limit stmt)
  | NInsert stmt =>
      match InsertStmt.Select stmt with
      | Some (RSelect sel) =>
          isSome (SelectStmt.GroupBy sel) || isSome (SelectStmt.Limit sel)
      | _ => false
      end
  | _ => false
  end.

(** The rewrite policy read literally: whatever the kind of the statement,
    a GROUP BY or a LIMIT makes the rewrite wrap the original text. *)
Definition wraps_whenever_grouped_or_limited : Prop :=
  forall (P : Parser.t) (originSql : string) (node : Node) (o sql : string),
    Parser.ParseOneSql P originSql = Ok node ->
    outcome (rewriteToCount P originSql) = Ok (inr (o, sql)) ->
    hasGroupByOrLimit node = true ->
    sql = wrapAsDerivedTable (TrimRight originSql ";").

(** The fresh counting SELECT: [COUNT(1)] over the given clauses only. *)
Definition countOver (from : option TableRefsClause.t) (where_ : option ExprNode)
    (order : option OrderByClause.t) (limit : option Limit.t) : SelectStmt.t :=
  SelectStmt.mk (Some (SelectStmtOpts.mk false true)) (Some getCountFieldList)
    from where_ None None order limit.

(** The answer of [rewriteToCount] when it restores a fresh SELECT. *)
Definition restored (P : Parser.t) (originSql : string) (fresh : SelectStmt.t)
  : M (Z + string * string) :=
  ([EvParseOneSql originSql; EvRestore fresh],
   match Parser.Restore P fresh with
   | Ok sql => Ok (inr (originSql, sql))
   | Err e => Err e
   | Panic => Panic
   end).

(** The live calls of a trace, in order. *)
Definition liveCalls (tr : list Event) : list Event := filter is_live tr.

(** The statements the type switch of [GetAffectedRowNum] goes on with. *)
Definition supported (node : Node) : bool :=
  match node with
  | NSelect _ | NUpdate _ | NDelete _ => true
  | NInsert stmt =>
      xorb (isSome (InsertStmt.Lists stmt)) (isSome (InsertStmt.Select stmt))
  | _ => false
  end.

(** *** IsIndex *)

Section IsIndex.
(** [key.Column.Name.L]: the lower-case form that the parser keeps beside
    a name. *)
Variable L : string -> string.

Definition keyL (key : IndexPartSpecification.t) : string :=
  L (ColumnName.Name (IndexPartSpecification.Column key)).

(** [columnMap] is a Go map used as a set: the list of its keys, each once. *)
Definition inColumnMap (columnMap : list string) (name : string) : bool :=
  existsb (String.eqb name) columnMap.

(** Lines 347-354: the inner loop, which stops at the first key that is
    not in the map. *)
Fixpoint matchCount (columnMap : list string) (keys : list IndexPartSpecification.t)
  : nat :=
  match keys with
  | [] => O
  | key :: rest =>
      if inColumnMap columnMap (keyL key)
      then S (matchCount columnMap rest)
      else O
  end.

(** Lines 342-358: the loop over the constraints. *)
Fixpoint IsIndex_loop (columnMap : list string) (constraints : list Constraint.t)
  : bool :=
  match constraints with
  | [] => false
  | constraint :: rest =>
      if Nat.ltb (List.length (Constraint.Keys constraint)) (List.length columnMap)
      then IsIndex_loop columnMap rest
      else if Nat.eqb (matchCount columnMap (Constraint.Keys constraint))
                      (List.length columnMap)
           then true
           else IsIndex_loop columnMap rest
  end.

Definition IsIndex (columnMap : list string) (constraints : list Constraint.t)
  : bool :=
  if Nat.eqb (List.length columnMap) 0 then false
  else IsIndex_loop columnMap constraints.

(** The columns are the leading key columns of the constraint. *)
Definition leadingColumns (columnMap : list string) (constraint : Constraint.t)
  : Prop :=
  (List.length columnMap <= List.length (Constraint.Keys constraint))%nat
  /\ forall name,
       In name columnMap
       <-> In name (firstn (List.length columnMap)
                      (map keyL (Constraint.Keys constraint))).

End IsIndex.

End util.

(* ================================================================== *)
(** ** package driver/v2 (boundary): rules and audit results            *)
(* ================================================================== *)

Module driverV2.

Inductive RuleLevel : Type :=
| RuleLevelNull
| RuleLevelNormal
| RuleLevelNotice
| RuleLevelWarn
| RuleLevelError.

Module Rule.
Record t := mk { Name : string; Level : RuleLevel }.
End Rule.

(** The rendered text of a finding, by the place that produces it. *)
Inductive Message : Type :=
| CheckInvalidErrorFormat                        (* plocale.CheckInvalidErrorFormat, ParseDDLError *)
| GhostDryRunError (minSize : Z) (err : error)   (* plocale.GhostDryRunError *)
| GhostDryRunNotice (minSize : Z)                (* plocale.GhostDryRunNotice *)
| OSCCommandLine (cmd : string)
| AdviceReason (reason : string)
| HandlerMessage (text : string)                 (* LocalizeAll(handler.Message) *)
| RuleMessage (ruleName : string).               (* rulepkg.AddResult *)

(** Modelled from the spec: the types AuditResult and AuditResults, with
    NewAuditResults, Add, AddResultWithError and HasResult, are declared in
    package driver/v2, which is not among the sources.  The spec (Data
    model, "Audit Result Set") has an "ordered sequence of (severity, rule
    name, rendered message) findings" that "preserve the order rules were
    evaluated", and 'a flag "has result" = non-empty'.  A finding added with
    an error keeps that error. *)
Module AuditResult.
Record t := mk {
  Level : RuleLevel;
  RuleName : string;
  Message_ : Message;
  ExecutionError : option error
}.
End AuditResult.

Module AuditResults.
Record t := mk { Results : list AuditResult.t }.
End AuditResults.

Definition NewAuditResults : AuditResults.t := AuditResults.mk [].

Definition Add (rs : AuditResults.t) (level : RuleLevel) (ruleName : string)
    (msg : Message) : AuditResults.t :=
  AuditResults.mk
    (AuditResults.Results rs ++ [AuditResult.mk level ruleName msg None])%list.

Definition AddResultWithError (rs : AuditResults.t) (level : RuleLevel)
    (ruleName : string) (errorInfo : error) (msg : Message) : AuditResults.t :=
  AuditResults.mk
    (AuditResults.Results rs
     ++ [AuditResult.mk level ruleName msg (Some errorInfo)])%list.

Definition HasResult (rs : AuditResults.t) : bool :=
  match AuditResults.Results rs with
  | [] => false
  | _ :: _ => true
  end.

End driverV2.

(* ================================================================== *)
(** ** package rule (boundary): the registry of rule handlers           *)
(* ================================================================== *)

Module rulepkg.
Import ast driverV2.

(** [*rulepkg.RuleHandlerInput]; [Ctx] and [Res] are shared pointers. *)
Module RuleHandlerInput.
Record t (Context : Type) := mk {
  Ctx : Context;
  Rule : Rule.t;
  Res : AuditResults.t;
  Node : ast.Node
}.
Arguments mk {Context}.
Arguments Ctx {Context}.
Arguments Rule {Context}.
Arguments Res {Context}.
Arguments Node {Context}.
End RuleHandlerInput.

(** Modelled from the spec: the handlers themselves are registered in
    package rule, which is not among the sources.  By the spec (Rule
    Registry and Dispatch Engine) "a rule handler may append zero or more
    findings to the shared result set"; so a call of a handler leaves
    behind the session context as it left it, the findings it appended to
    [input.Res] (as rule_00063.go does through [rulepkg.AddResult]), and the
    error it returned. *)
Module HandlerOutcome.
Record t (Context : Type) := mk {
  Ctx : Context;
  Added : list AuditResult.t;
  Err_ : option error
}.
Arguments mk {Context}.
Arguments Ctx {Context}.
Arguments Added {Context}.
Arguments Err_ {Context}.
End HandlerOutcome.

Module RuleHandler.
Record t (Context : Type) := mk {
  Message_ : string;
  Func : option (RuleHandlerInput.t Context -> HandlerOutcome.t Context);
  IsAllowOfflineRule : Node -> bool;
  OnlyAuditNotExecutedSQL : bool;
  IsDisableExecutedSQLRule : Node -> bool
}.
Arguments mk {Context}.
Arguments Message_ {Context}.
Arguments Func {Context}.
Arguments IsAllowOfflineRule {Context}.
Arguments OnlyAuditNotExecutedSQL {Context}.
Arguments IsDisableExecutedSQLRule {Context}.
End RuleHandler.

(** Modelled from the spec: [rulepkg.AddResult(input.Res, input.Rule,
    ruleName)] is declared in package rule, which is not among the sources.
    By the spec "each rule finding includes the rule's configured severity
    (caller-overridable per rule) and a rendered, parameterized message":
    one finding at the level of the rule as configured for this audit. *)
Definition AddResult (rule : Rule.t) (ruleName : string) : AuditResult.t :=
  AuditResult.mk (Rule.Level rule) ruleName (RuleMessage ruleName) None.

End rulepkg.

(* ================================================================== *)
(** ** package mysql: the driver (MysqlDriverImpl)                      *)
(* ================================================================== *)

Module mysql.
Import ast driverV2 rulepkg.

(** [Config]; its [indexSelectivityMinValue], a float64 that is only handed
    on to the index advisor, is left out. *)
Module Config.
Record t := mk {
  DMLRollbackMaxRows : Z;
  DDLOSCMinSize : Z;
  DDLGhostMinSize : Z;
  optimizeIndexEnabled : bool;
  dmlExplainPreCheckEnable : bool;
  compositeIndexMaxColumn : Z;
  isExecutedSQL : bool
}.
End Config.

(** What the driver does that an observer can count: the statements handed
    to [audit], the rule handlers invoked (with the error they returned),
    and the runs of gh-ost. *)
Inductive Event : Type :=
| EvAudit (sql : string)
| EvHandler (rule : Rule.t) (err : option error)
| EvGhost (schema query : string) (dryRun : bool).

(** The fields of MysqlDriverImpl that auditing reads or writes, and the
    record of the calls made so far. *)
Module MysqlDriverImpl.
Record t (Context : Type) := mk {
  Ctx : Context;
  cnf : Config.t;
  rules : list Rule.t;
  result : AuditResults.t;
  HasInvalidSql : bool;
  isOfflineAudit : bool;
  calls : list Event
}.
Arguments mk {Context}.
Arguments Ctx {Context}.
Arguments cnf {Context}.
Arguments rules {Context}.
Arguments result {Context}.
Arguments HasInvalidSql {Context}.
Arguments isOfflineAudit {Context}.
Arguments calls {Context}.
End MysqlDriverImpl.

(** The collaborators of the driver: the parser, the session context, the
    rule registry, gh-ost, and the methods of the driver that are declared
    in other files.  Each is given the footprint its use in [audit] shows:
    the session context, the result set, or neither. *)
Module World.
Record t := mk {
  Context : Type;
  TableSize : Type;
  (** [int64(tableSize)] *)
  int64_of_size : TableSize -> Z;
  (** [util.ParseSql] *)
  ParseSql : string -> result (list Node);
  (** [i.CheckInvalid], [i.CheckInvalidOffline], [i.CheckExplain] *)
  CheckInvalid : Context -> AuditResults.t -> Node -> Context * AuditResults.t * option error;
  CheckInvalidOffline : Context -> AuditResults.t -> Node -> Context * AuditResults.t * option error;
  CheckExplain : Context -> AuditResults.t -> Node -> Context * AuditResults.t * option error;
  (** [session.IsParseShowCreateTableContentErr] *)
  IsParseShowCreateTableContentErr : error -> bool;
  (** package rule *)
  ConfigDDLGhostMinSize : string;
  ConfigDDLOSCMinSize : string;
  ConfigOptimizeIndexEnabled : string;
  GetRuleHandlerFromAllRules : string -> option (RuleHandler.t Context);
  (** [optimize(i.log, i.Ctx, node, params)]: the reasons of its advices *)
  optimize : Context -> Node -> Z -> Context * list string;
  (** [i.Ctx.GetTableSize], [i.Ctx.GetSchemaName], [i.Ctx.UpdateContext] *)
  GetTableSize : Context -> TableName.t -> Context * result TableSize;
  GetSchemaName : Context -> TableName.t -> string;
  UpdateContext : Context -> Node -> Context;
  (** [onlineddl.NewExecutor(...)] followed by [executor.Execute(ctx, dryRun)] *)
  ghostExecute : string -> string -> bool -> option error;
  (** [i.generateOSCCommandLine]: the command line, nil when there is none *)
  generateOSCCommandLine : Context -> Config.t -> Node -> Context * result (option string)
}.
End World.

Section Driver.
Variable W : World.t.

Definition Driver : Type := MysqlDriverImpl.t (World.Context W).

(** A method of the driver: it may change the receiver, and it returns a
    value, an error, or panics. *)
Definition D (A : Type) : Type := Driver -> Driver * result A.

Definition dret {A} (a : A) : D A := fun i => (i, Ok a).
Definition dfail {A} (e : error) : D A := fun i => (i, Err e).
Definition dpanic {A} : D A := fun i => (i, Panic).
Definition lift {A} (r : result A) : D A := fun i => (i, r).
Definition gets {A} (f : Driver -> A) : D A := fun i => (i, Ok (f i)).
Definition modify (f : Driver -> Driver) : D unit := fun i => (f i, Ok tt).

Definition dbind {A B} (m : D A) (k : A -> D B) : D B :=
  fun i =>
    match m i with
    | (i', Ok a) => k a i'
    | (i', Err e) => (i', Err e)
    | (i', Panic) => (i', Panic)
    end.

(** [if err != nil { return nil, wrap(err) }] *)
Definition dwrapErr {A} (wrap : error -> error) (m : D A) : D A :=
  fun i =>
    match m i with
    | (i', Err e) => (i', Err (wrap e))
    | other => other
    end.

(** [v, err := m()], with [err] inspected by the caller. *)
Definition attempt {A} (m : D A) : D (A + error) :=
  fun i =>
    match m i with
    | (i', Ok a) => (i', Ok (inl a))
    | (i', Err e) => (i', Ok (inr e))
    | (i', Panic) => (i', Panic)
    end.

Declare Scope drv_scope.
Delimit Scope drv_scope with drv.
Notation "x <- m ;; k" := (dbind m (fun x => k))
  (at level 100, m at next level, right associativity) : drv_scope.
Notation "m ;;; k" := (dbind m (fun _ => k))
  (at level 100, right associativity) : drv_scope.
Open Scope drv_scope.

Definition setCtx (ctx : World.Context W) (i : Driver) : Driver :=
  MysqlDriverImpl.mk ctx (MysqlDriverImpl.cnf i) (MysqlDriverImpl.rules i)
    (MysqlDriverImpl.result i) (MysqlDriverImpl.HasInvalidSql i)
    (MysqlDriverImpl.isOfflineAudit i) (MysqlDriverImpl.calls i).

Definition setResult (rs : AuditResults.t) (i : Driver) : Driver :=
  MysqlDriverImpl.mk (MysqlDriverImpl.Ctx i) (MysqlDriverImpl.cnf i)
    (MysqlDriverImpl.rules i) rs (MysqlDriverImpl.HasInvalidSql i)
    (MysqlDriverImpl.isOfflineAudit i) (MysqlDriverImpl.calls i).

Definition setHasInvalidSql (b : bool) (i : Driver) : Driver :=
  MysqlDriverImpl.mk (MysqlDriverImpl.Ctx i) (MysqlDriverImpl.cnf i)
    (MysqlDriverImpl.rules i) (MysqlDriverImpl.result i) b
    (MysqlDriverImpl.isOfflineAudit i) (MysqlDriverImpl.calls i).

Definition record (ev : Event) (i : Driver) : Driver :=
  MysqlDriverImpl.mk (MysqlDriverImpl.Ctx i) (MysqlDriverImpl.cnf i)
    (MysqlDriverImpl.rules i) (MysqlDriverImpl.result i)
    (MysqlDriverImpl.HasInvalidSql i) (MysqlDriverImpl.isOfflineAudit i)
    (MysqlDriverImpl.calls i ++ [ev])%list.

(** [i.result.Add(level, ruleName, msg)] *)
Definition addResult (level : RuleLevel) (ruleName : string) (msg : Message)
  : D unit :=
  modify (fun i => setResult (Add (MysqlDriverImpl.result i) level ruleName msg) i).

Definition IsOfflineAudit : D bool := gets MysqlDriverImpl.isOfflineAudit.

Definition IsExecutedSQL : D bool :=
  gets (fun i => Config.isExecutedSQL (MysqlDriverImpl.cnf i)).

(** [i.ParseSql]: the statements of the text, or the parser's error. *)
Definition ParseSql (sql : string) : D (list Node) := lift (World.ParseSql W sql).

(** [nodes[0]] *)
Definition first (nodes : list Node) : D Node :=
  match nodes with
  | [] => dpanic
  | node :: _ => dret node
  end.

(** A method that works on the session context and the result set. *)
Definition check
    (f : World.Context W -> AuditResults.t -> Node
         -> World.Context W * AuditResults.t * option error)
    (node : Node) : D (option error) :=
  fun i =>
    let '(ctx, rs, err) := f (MysqlDriverImpl.Ctx i) (MysqlDriverImpl.result i) node in
    (setResult rs (setCtx ctx i), Ok err).

Definition executeByGhost (query : string) (isDryRun : bool) : D unit :=
  node <- dwrapErr (fun e => ErrWrap e "parse SQL") (ParseSql query) ;;
  node0 <- first node ;;
  match node0 with
  | NAlterTable stmt =>
      schema <- gets (fun i => World.GetSchemaName W (MysqlDriverImpl.Ctx i)
                                 (AlterTableStmt.Table stmt)) ;;
      let actionStr := if isDryRun then "dry-run" else "run" in
      modify (record (EvGhost schema query isDryRun)) ;;;
      match World.ghostExecute W schema query isDryRun with
      | Some err => dfail (ErrWrap err (actionStr ++ " gh-ost"))
      | None => dret tt
      end
  | _ => dfail (ErrNew "type assertion failed, unable to convert to expected type")
  end.

Definition onlineddlWithGhost (query : string) : D bool :=
  minSize <- gets (fun i => Config.DDLGhostMinSize (MysqlDriverImpl.cnf i)) ;;
  if minSize =? -1 then dret false else
  node <- dwrapErr (fun e => ErrWrap e "parse SQL") (ParseSql query) ;;
  node0 <- first node ;;
  match node0 with
  | NAlterTable stmt =>
      tableSize <-
        dwrapErr (fun e => ErrWrap e "get table size")
          (fun i =>
             let '(ctx, r) := World.GetTableSize W (MysqlDriverImpl.Ctx i)
                                (AlterTableStmt.Table stmt) in
             (setCtx ctx i, r)) ;;
      dret (minSize <? World.int64_of_size W tableSize)
  | _ => dret false
  end.

(** The conditions under which the loop of [audit] skips a rule. *)
Definition runs (i : Driver) (node : Node) (rule : Rule.t) : bool :=
  match World.GetRuleHandlerFromAllRules W (Rule.Name rule) with
  | None => false
  | Some handler =>
      isSome (RuleHandler.Func handler)
      && negb (MysqlDriverImpl.isOfflineAudit i
               && negb (RuleHandler.IsAllowOfflineRule handler node))
      && negb (Config.isExecutedSQL (MysqlDriverImpl.cnf i)
               && (RuleHandler.OnlyAuditNotExecutedSQL handler
                   || RuleHandler.IsDisableExecutedSQLRule handler node))
  end.

(** Lines 374-404: the body of the loop over [i.rules]. *)
Definition dispatchRule (node : Node) (ghostRule : option Rule.t) (rule : Rule.t)
  : D (option Rule.t) :=
  let ghostRule :=
    if String.eqb (Rule.Name rule) (World.ConfigDDLGhostMinSize W)
    then Some rule else ghostRule in
  match World.GetRuleHandlerFromAllRules W (Rule.Name rule) with
  | None => dret ghostRule
  | Some handler =>
      match RuleHandler.Func handler with
      | None => dret ghostRule
      | Some func =>
          offline <- IsOfflineAudit ;;
          if offline && negb (RuleHandler.IsAllowOfflineRule handler node)
          then dret ghostRule else
          executed <- IsExecutedSQL ;;
          if executed && (RuleHandler.OnlyAuditNotExecutedSQL handler
                          || RuleHandler.IsDisableExecutedSQLRule handler node)
          then dret ghostRule else
          out <- gets (fun i =>
                   func (RuleHandlerInput.mk (MysqlDriverImpl.Ctx i) rule
                           (MysqlDriverImpl.result i) node)) ;;
          modify (fun i =>
            record (EvHandler rule (HandlerOutcome.Err_ out))
              (setResult
                 (AuditResults.mk
                    (AuditResults.Results (MysqlDriverImpl.result i)
                     ++ HandlerOutcome.Added out)%list)
                 (setCtx (HandlerOutcome.Ctx out) i))) ;;;
          match HandlerOutcome.Err_ out with
          | Some err =>
              modify (fun i =>
                setResult
                  (AddResultWithError (MysqlDriverImpl.result i)
                     (Rule.Level rule) (Rule.Name rule) err
                     (HandlerMessage (RuleHandler.Message_ handler))) i)
          | None => dret tt
          end ;;;
          dret ghostRule
      end
  end.

Fixpoint ruleLoop (node : Node) (ghostRule : option Rule.t) (rules : list Rule.t)
  : D (option Rule.t) :=
  match rules with
  | [] => dret ghostRule
  | rule :: rest =>
      ghostRule' <- dispatchRule node ghostRule rule ;;
      ruleLoop node ghostRule' rest
  end.

(** Lines 372-405: rule dispatch; the answer is the local [ghostRule]. *)
Definition ruleDispatch (node : Node) : D (option Rule.t) :=
  rules <- gets MysqlDriverImpl.rules ;;
  ruleLoop node None rules.

(** Lines 339-370: parse and pre-validate; the answer is [nodes[0]]. *)
Definition preValidate (sql : string) : D Node :=
  modify (setResult NewAuditResults) ;;;
  modify (record (EvAudit sql)) ;;;
  nodes <- ParseSql sql ;;
  node0 <- first nodes ;;
  offline <- IsOfflineAudit ;;
  executed <- IsExecutedSQL ;;
  err <- (if offline || executed
          then check (World.CheckInvalidOffline W) node0
          else check (World.CheckInvalid W) node0) ;;
  match err with
  | Some e =>
      if World.IsParseShowCreateTableContentErr W e
      then addResult RuleLevelWarn "pre_check_err" CheckInvalidErrorFormat
      else dfail e
  | None => dret tt
  end ;;;
  hasResult <- gets (fun i => HasResult (MysqlDriverImpl.result i)) ;;
  preCheck <- gets (fun i => Config.dmlExplainPreCheckEnable (MysqlDriverImpl.cnf i)) ;;
  (if negb hasResult && preCheck then
     err <- check (World.CheckExplain W) node0 ;;
     match err with
     | Some e => dfail e
     | None => dret tt
     end
   else dret tt) ;;;
  hasResult <- gets (fun i => HasResult (MysqlDriverImpl.result i)) ;;
  (if hasResult then modify (setHasInvalidSql true) else dret tt) ;;;
  dret node0.

(** Lines 407-428: the index advisor. *)
Definition optimizePass (node : Node) : D unit :=
  enabled <- gets (fun i => Config.optimizeIndexEnabled (MysqlDriverImpl.cnf i)) ;;
  if enabled then
    results <- (fun i =>
      let '(ctx, advices) :=
        World.optimize W (MysqlDriverImpl.Ctx i) node
          (Config.compositeIndexMaxColumn (MysqlDriverImpl.cnf i)) in
      (setCtx ctx i, Ok advices)) ;;
    modify (fun i =>
      fold_left
        (fun i reason =>
           setResult (Add (MysqlDriverImpl.result i) RuleLevelNotice
                        (World.ConfigOptimizeIndexEnabled W) (AdviceReason reason)) i)
        results i)
  else dret tt.

(** Lines 430-442: the dry run of gh-ost. *)
Definition ghostDryRun (sql : string) (ghostRule : option Rule.t) : D unit :=
  useGhost <- dwrapErr (fun e => ErrWrap e "check whether use ghost or not")
                (onlineddlWithGhost sql) ;;
  if useGhost then
    r <- attempt (executeByGhost sql true) ;;
    minSize <- gets (fun i => Config.DDLGhostMinSize (MysqlDriverImpl.cnf i)) ;;
    match ghostRule with
    | None => dpanic
    | Some rule =>
        match r with
        | inr err => addResult RuleLevelError (Rule.Name rule) (GhostDryRunError minSize err)
        | inl _ => addResult (Rule.Level rule) (Rule.Name rule) (GhostDryRunNotice minSize)
        end
    end
  else dret tt.

(** Lines 444-459: the pt-osc command line, the update of the session
    context, and the return of [i.result]. *)
Definition finish (node : Node) : D AuditResults.t :=
  oscCommandLine <-
    (fun i =>
       let '(ctx, r) := World.generateOSCCommandLine W (MysqlDriverImpl.Ctx i)
                          (MysqlDriverImpl.cnf i) node in
       match r with
       | Err e =>
           if World.IsParseShowCreateTableContentErr W e
           then (setCtx ctx i, Ok None)
           else (setCtx ctx i, Err e)
       | other => (setCtx ctx i, other)
       end) ;;
  match oscCommandLine with
  | Some cmd => addResult RuleLevelNotice (World.ConfigDDLOSCMinSize W) (OSCCommandLine cmd)
  | None => dret tt
  end ;;;
  executed <- IsExecutedSQL ;;
  (if negb executed
   then modify (fun i => setCtx (World.UpdateContext W (MysqlDriverImpl.Ctx i) node) i)
   else dret tt) ;;;
  gets MysqlDriverImpl.result.

Definition audit (sql : string) : D AuditResults.t :=
  node0 <- preValidate sql ;;
  ghostRule <- ruleDispatch node0 ;;
  optimizePass node0 ;;;
  ghostDryRun sql ghostRule ;;;
  finish node0.

(** What [Audit] hands back: the Go pair of results (nil is [None]) and
    error, unless the call panics. *)
Inductive Returned : Type :=
| Return (results : option (list AuditResults.t)) (err : option error)
| Panicked.

(** Lines 327-335: the loop over the statements. *)
Fixpoint auditEach (sqls : list string) (results : list AuditResults.t)
    (i : Driver) : Driver * Returned :=
  match sqls with
  | [] => (i, Return (Some results) None)
  | sql :: rest =>
      match audit sql i with
      | (i', Ok result) => auditEach rest (results ++ [result])%list i'
      | (i', Err err) => (i', Return None (Some err))
      | (i', Panic) => (i', Panicked)
      end
  end.

Definition Audit (sqls : list string) (i : Driver) : Driver * Returned :=
  if existsb (String.eqb "") sqls
  then (i, Return None (Some (ErrNew "has empty sql")))
  else auditEach sqls [] i.

(** The statements handed to [audit], in order. *)
Definition audited (tr : list Event) : list string :=
  flat_map (fun ev => match ev with EvAudit sql => [sql] | _ => [] end) tr.

(** The rule handlers invoked, in order. *)
Definition invoked (tr : list Event) : list Rule.t :=
  flat_map (fun ev => match ev with EvHandler rule _ => [rule] | _ => [] end) tr.

(** The value of the local [ghostRule] after the loop over [rules]. *)
Definition lastGhostRule (rules : list Rule.t) (ghostRule : option Rule.t)
  : option Rule.t :=
  fold_left
    (fun acc rule =>
       if String.eqb (Rule.Name rule) (World.ConfigDDLGhostMinSize W)
       then Some rule else acc)
    rules ghostRule.

(** The finding that [audit] adds when the handler of [rule] returns [err]. *)
Definition failureFinding (rule : Rule.t) (handler : RuleHandler.t (World.Context W))
    (err : error) : AuditResult.t :=
  AuditResult.mk (Rule.Level rule) (Rule.Name rule)
    (HandlerMessage (RuleHandler.Message_ handler)) (Some err).

(** What one turn of the loop does, whatever the handler answers. *)
Definition turn_spec (node : Node) (i : Driver) (rules : list Rule.t)
    (r : Driver * result (option Rule.t)) : Prop :=
  exists (g' : option Rule.t) (evs : list Event) (added : list AuditResult.t),
    snd r = Ok g'
    /\ MysqlDriverImpl.calls (fst r) = (MysqlDriverImpl.calls i ++ evs)%list
    /\ AuditResults.Results (MysqlDriverImpl.result (fst r))
       = (AuditResults.Results (MysqlDriverImpl.result i) ++ added)%list
    /\ MysqlDriverImpl.cnf (fst r) = MysqlDriverImpl.cnf i
    /\ MysqlDriverImpl.isOfflineAudit (fst r) = MysqlDriverImpl.isOfflineAudit i
    /\ invoked evs = filter (runs i node) rules
    /\ (forall (rule : Rule.t) (e : error),
          In (EvHandler rule (Some e)) evs ->
          exists handler,
            World.GetRuleHandlerFromAllRules W (Rule.Name rule) = Some handler
            /\ In (failureFinding rule handler e) added).

(** A method that hands no statement to [audit]. *)
Definition silent {A} (m : D A) : Prop :=
  forall i, audited (MysqlDriverImpl.calls (fst (m i)))
            = audited (MysqlDriverImpl.calls i).

(** Whether the answer of [generateOSCCommandLine] makes [audit] return
    an error (or panic) in its last stage. *)
Definition oscAborts (r : result (option string)) : bool :=
  match r with
  | Ok _ => false
  | Err e => negb (World.IsParseShowCreateTableContentErr W e)
  | Panic => true
  end.

(** The dry-run property read literally: an audit in which gh-ost was run
    dry returns a result. *)
Definition dry_run_audit_always_returns : Prop :=
  forall (sql schema : string) (i : Driver),
    MysqlDriverImpl.calls i = [] ->
    In (EvGhost schema sql true) (MysqlDriverImpl.calls (fst (audit sql i))) ->
    exists rs, snd (audit sql i) = Ok rs.

(** The batch semantics read literally: when the audit of a statement
    fails, the results of the statements before it come back with the
    error. *)
Definition partial_results_on_failure : Prop :=
  forall (pre post : list string) (s : string) (i i1 i2 : Driver)
         (rs : list AuditResults.t) (e : error),
    ~ In "" (pre ++ s :: post)%list ->
    Audit pre i = (i1, Return (Some rs) None) ->
    audit s i1 = (i2, Err e) ->
    snd (Audit (pre ++ s :: post)%list i) = Return (Some rs) (Some e).

(** A method whose effect on the driver stays within [R]. *)
Definition preserves (R : Driver -> Driver -> Prop) {A} (m : D A) : Prop :=
  forall i, R i (fst (m i)).

(** What an audit leaves alone: the configuration, the rules, the offline
    flag; and [HasInvalidSql], once set, stays set. *)
Definition stable (i j : Driver) : Prop :=
  MysqlDriverImpl.cnf j = MysqlDriverImpl.cnf i
  /\ MysqlDriverImpl.rules j = MysqlDriverImpl.rules i
  /\ MysqlDriverImpl.isOfflineAudit j = MysqlDriverImpl.isOfflineAudit i
  /\ (MysqlDriverImpl.HasInvalidSql i = true -> MysqlDriverImpl.HasInvalidSql j = true).

(** The runs of gh-ost, in order. *)
Definition ghosts (tr : list Event) : list Event :=
  filter (fun ev => match ev with EvGhost _ _ _ => true | _ => false end) tr.

(** No run of gh-ost, and the same configuration. *)
Definition ghostless (i j : Driver) : Prop :=
  MysqlDriverImpl.cnf j = MysqlDriverImpl.cnf i
  /\ ghosts (MysqlDriverImpl.calls j) = ghosts (MysqlDriverImpl.calls i).

(** No rule handler invoked, and the same configuration, rules and offline
    flag. *)
Definition handlerless (i j : Driver) : Prop :=
  MysqlDriverImpl.cnf j = MysqlDriverImpl.cnf i
  /\ MysqlDriverImpl.rules j = MysqlDriverImpl.rules i
  /\ MysqlDriverImpl.isOfflineAudit j = MysqlDriverImpl.isOfflineAudit i
  /\ invoked (MysqlDriverImpl.calls j) = invoked (MysqlDriverImpl.calls i).

(** What passing the skip conditions of the loop means for a rule. *)
Definition eligible (i : Driver) (node : Node) (rule : Rule.t) : Prop :=
  exists handler func,
    World.GetRuleHandlerFromAllRules W (Rule.Name rule) = Some handler
    /\ RuleHandler.Func handler = Some func
    /\ (MysqlDriverImpl.isOfflineAudit i = true ->
        RuleHandler.IsAllowOfflineRule handler node = true)
    /\ (Config.isExecutedSQL (MysqlDriverImpl.cnf i) = true ->
        RuleHandler.OnlyAuditNotExecutedSQL handler = false
        /\ RuleHandler.IsDisableExecutedSQLRule handler node = false).

(** [i.CheckInvalidOffline] or [i.CheckInvalid], as [audit] chooses. *)
Definition checkInvalidOf (i : Driver) :=
  if MysqlDriverImpl.isOfflineAudit i
     || Config.isExecutedSQL (MysqlDriverImpl.cnf i)
  then World.CheckInvalidOffline W
  else World.CheckInvalid W.

End Driver.

(** *** applyConfig *)

(** [driverV2.Rule] with the values that [applyConfig] reads from its
    parameters; package params is not among the sources. *)
Module ConfiguredRule.
Record t := mk {
  Rule_ : Rule.t;
  (** [rule.Params.GetParam(rulepkg.DefaultSingleParamKeyName).Int()] *)
  SingleParamInt : Z;
  (** [rule.Params.GetParam(rulepkg.DefaultMultiParamsSecondKeyName).Int()] *)
  SecondParamInt : Z
}.
End ConfiguredRule.

(** [driverV2.Config]: the data source (its database name, nil for an
    audit without instance) and the rules. *)
Module DriverConfig.
Record t := mk {
  DSN : option string;
  Rules : list ConfiguredRule.t
}.
End DriverConfig.

Section Configure.
Variable W : World.t.
(** [rulepkg.ConfigDMLExplainPreCheckEnable], [rulepkg.ConfigSQLIsExecuted] *)
Variable ConfigDMLExplainPreCheckEnable : string.
Variable ConfigSQLIsExecuted : string.

(** Lines 106-126: the body of the loop over [cfg.Rules]. *)
Definition applyRule (cnf : Config.t) (rule : ConfiguredRule.t) : Config.t :=
  let name := Rule.Name (ConfiguredRule.Rule_ rule) in
  let cnf :=
    if String.eqb name (World.ConfigDDLOSCMinSize W)
    then Config.mk (Config.DMLRollbackMaxRows cnf) (ConfiguredRule.SingleParamInt rule)
           (Config.DDLGhostMinSize cnf) (Config.optimizeIndexEnabled cnf)
           (Config.dmlExplainPreCheckEnable cnf) (Config.compositeIndexMaxColumn cnf)
           (Config.isExecutedSQL cnf)
    else cnf in
  let cnf :=
    if String.eqb name (World.ConfigDDLGhostMinSize W)
    then Config.mk (Config.DMLRollbackMaxRows cnf) (Config.DDLOSCMinSize cnf)
           (ConfiguredRule.SingleParamInt rule) (Config.optimizeIndexEnabled cnf)
           (Config.dmlExplainPreCheckEnable cnf) (Config.compositeIndexMaxColumn cnf)
           (Config.isExecutedSQL cnf)
    else cnf in
  let cnf :=
    if String.eqb name (World.ConfigOptimizeIndexEnabled W)
    then Config.mk (Config.DMLRollbackMaxRows cnf) (Config.DDLOSCMinSize cnf)
           (Config.DDLGhostMinSize cnf) true
           (Config.dmlExplainPreCheckEnable cnf) (ConfiguredRule.SecondParamInt rule)
           (Config.isExecutedSQL cnf)
    else cnf in
  let cnf :=
    if String.eqb name ConfigDMLExplainPreCheckEnable
    then Config.mk (Config.DMLRollbackMaxRows cnf) (Config.DDLOSCMinSize cnf)
           (Config.DDLGhostMinSize cnf) (Config.optimizeIndexEnabled cnf)
           true (Config.compositeIndexMaxColumn cnf) (Config.isExecutedSQL cnf)
    else cnf in
  if String.eqb name ConfigSQLIsExecuted
  then Config.mk (Config.DMLRollbackMaxRows cnf) (Config.DDLOSCMinSize cnf)
         (Config.DDLGhostMinSize cnf) (Config.optimizeIndexEnabled cnf)
         (Config.dmlExplainPreCheckEnable cnf) (Config.compositeIndexMaxColumn cnf)
         true
  else cnf.

(** [&Config{DDLOSCMinSize: -1, DDLGhostMinSize: -1}] *)
Definition initialConfig : Config.t := Config.mk 0 (-1) (-1) false false 0 false.

Definition applyConfig (cfg : DriverConfig.t) (inspect : Driver W) : Driver W :=
  MysqlDriverImpl.mk
    (MysqlDriverImpl.Ctx inspect)
    (fold_left applyRule (DriverConfig.Rules cfg) initialConfig)
    (map ConfiguredRule.Rule_ (DriverConfig.Rules cfg))
    NewAuditResults
    (MysqlDriverImpl.HasInvalidSql inspect)
    (match DriverConfig.DSN cfg with None => true | Some _ => false end)
    (MysqlDriverImpl.calls inspect).

(** The last of the configured rules with the given name. *)
Definition lastNamed (name : string) (rules : list ConfiguredRule.t)
    (found : option ConfiguredRule.t) : option ConfiguredRule.t :=
  fold_left
    (fun acc rule =>
       if String.eqb (Rule.Name (ConfiguredRule.Rule_ rule)) name
       then Some rule else acc)
    rules found.

(** The threshold that the last rule named [ConfigDDLGhostMinSize] gives. *)
Definition thresholdOf (found : option ConfiguredRule.t) : Z :=
  match found with
  | Some rule => ConfiguredRule.SingleParamInt rule
  | None => -1
  end.

End Configure.

(** *** The connection: Exec, ExecBatch, Tx, Ping, Schemas, Close,
        EstimateSQLAffectRows *)

(** What the driver asks of package executor and of its connection, in
    order; [EvEstimate] carries a call that [util.GetAffectedRowNum] makes. *)
Inductive DbEvent (Conn : Type) : Type :=
| EvNewExecutor (schema : string)
| EvClose (conn : Conn)
| EvExec (conn : Conn) (query : string)
| EvTransact (conn : Conn) (queries : list string)
| EvPing (conn : Conn)
| EvShowDatabases (conn : Conn)
| EvEstimate (ev : util.Event).
Arguments EvNewExecutor {Conn}.
Arguments EvClose {Conn}.
Arguments EvExec {Conn}.
Arguments EvTransact {Conn}.
Arguments EvPing {Conn}.
Arguments EvShowDatabases {Conn}.
Arguments EvEstimate {Conn}.

(** A Go result pair [(v, err)], unless the call panics. *)
Inductive Answer (A E : Type) : Type :=
| Gives (v : A) (err : option E)
| Panics.
Arguments Gives {A E}.
Arguments Panics {A E}.

(** [fmt.Errorf("exec sql failed: \n%s \n%v", sql, err)] *)
Inductive BatchError : Type :=
| ExecSqlFailed (sql : string) (err : error).

(** [*driverV2.EstimatedAffectRows]; [ErrMessage] is the text of the error
    kept here, the empty text is [None]. *)
Module EstimatedAffectRows.
Record t := mk { Count : Z; ErrMessage : option error }.
End EstimatedAffectRows.

(** Package executor and the database server behind it.  [Conn] is a
    non-nil [*executor.Executor], [Result] a [_driver.Result]; the answers
    may depend on what was asked before. *)
Module Database.
Record t (Context Conn Result : Type) := mk {
  (** [i.Ctx.CurrentSchema()] *)
  CurrentSchema : Context -> string;
  (** [executor.NewExecutor(i.log, i.inst, schema)] *)
  NewExecutor : list (DbEvent Conn) -> string -> Conn + error;
  (** [conn.Db.Exec(query)], [conn.Db.Transact(queries...)], [conn.Db.Ping()],
      [conn.ShowDatabases(true)] *)
  Exec : list (DbEvent Conn) -> Conn -> string -> option Result * option error;
  Transact : list (DbEvent Conn) -> Conn -> list string
             -> option (list Result) * option error;
  Ping : list (DbEvent Conn) -> Conn -> option error;
  ShowDatabases : list (DbEvent Conn) -> Conn -> option (list string) * option error;
  (** [_driver.ResultNoRows] *)
  ResultNoRows : Result;
  (** the connection as [util.GetAffectedRowNum] uses it *)
  QueryWithContext : list (DbEvent Conn) -> Conn -> string
                     -> result (list (list executor.NullString.t));
  (** [i.Ctx.GetExecutionPlan] *)
  GetExecutionPlan : Context -> string
                     -> Context * result (list executor.ExplainRecord.t);
  (** the parser library as package util uses it *)
  Parser_ : util.Parser.t
}.
Arguments mk {Context Conn Result}.
Arguments CurrentSchema {Context Conn Result}.
Arguments NewExecutor {Context Conn Result}.
Arguments Exec {Context Conn Result}.
Arguments Transact {Context Conn Result}.
Arguments Ping {Context Conn Result}.
Arguments ShowDatabases {Context Conn Result}.
Arguments ResultNoRows {Context Conn Result}.
Arguments QueryWithContext {Context Conn Result}.
Arguments GetExecutionPlan {Context Conn Result}.
Arguments Parser_ {Context Conn Result}.
End Database.

(** MysqlDriverImpl with the fields of its connection: [dbConn] (nil is
    [None]) and [isConnected]; and the record of what was asked of the
    database. *)
Module Instance.
Record t (Context Conn : Type) := mk {
  impl : MysqlDriverImpl.t Context;
  isConnected : bool;
  dbConn : option Conn;
  asked : list (DbEvent Conn)
}.
Arguments mk {Context Conn}.
Arguments impl {Context Conn}.
Arguments isConnected {Context Conn}.
Arguments dbConn {Context Conn}.
Arguments asked {Context Conn}.
End Instance.

Section Connection.
Variable W : World.t.
Variables Conn Result : Type.
Variable DB : Database.t (World.Context W) Conn Result.

Definition St : Type := Instance.t (World.Context W) Conn.

Definition ask (ev : DbEvent Conn) (s : St) : St :=
  Instance.mk (Instance.impl s) (Instance.isConnected s) (Instance.dbConn s)
    (Instance.asked s ++ [ev])%list.

Definition setImpl (i : Driver W) (s : St) : St :=
  Instance.mk i (Instance.isConnected s) (Instance.dbConn s) (Instance.asked s).

(** Lines 553-563.  With the error, [conn] is what NewExecutor returned
    beside it; no caller reads it. *)
Definition getDbConn (s : St) : St * (option Conn * option error) :=
  if Instance.isConnected s then (s, (Instance.dbConn s, None)) else
  let schema :=
    Database.CurrentSchema DB (MysqlDriverImpl.Ctx (Instance.impl s)) in
  match Database.NewExecutor DB (Instance.asked s) schema with
  | inl conn =>
      (Instance.mk (Instance.impl s) true (Some conn)
         (Instance.asked s ++ [EvNewExecutor schema])%list,
       (Some conn, None))
  | inr err => (ask (EvNewExecutor schema) s, (None, Some err))
  end.

(** Lines 574-579; [i.dbConn.Db.Close()] on a nil [dbConn] panics. *)
Definition closeDbConn (s : St) : St * result unit :=
  if Instance.isConnected s then
    match Instance.dbConn s with
    | Some conn =>
        (Instance.mk (Instance.impl s) false (Some conn)
           (Instance.asked s ++ [EvClose conn])%list,
         Ok tt)
    | None => (s, Panic)
    end
  else (s, Ok tt).

Definition Close (s : St) : St * result unit := closeDbConn s.

(** Lines 184-206. *)
Definition Exec (query : string) (s : St) : St * Answer (option Result) error :=
  if MysqlDriverImpl.isOfflineAudit (Instance.impl s) then (s, Gives None None) else
  let '(i1, useGhost) := onlineddlWithGhost W query (Instance.impl s) in
  match useGhost with
  | Err err =>
      (setImpl i1 s, Gives None (Some (ErrWrap err "check whether use ghost or not")))
  | Panic => (setImpl i1 s, Panics)
  | Ok true =>
      let '(i2, dry) := executeByGhost W query true i1 in
      match dry with
      | Err err => (setImpl i2 s, Gives None (Some err))
      | Panic => (setImpl i2 s, Panics)
      | Ok _ =>
          let '(i3, run) := executeByGhost W query false i2 in
          (setImpl i3 s,
           match run with
           | Ok _ => Gives (Some (Database.ResultNoRows DB)) None
           | Err err => Gives None (Some err)
           | Panic => Panics
           end)
      end
  | Ok false =>
      match getDbConn (setImpl i1 s) with
      | (s2, (_, Some err)) => (s2, Gives None (Some err))
      | (s2, (None, None)) => (s2, Panics)
      | (s2, (Some conn, None)) =>
          let '(v, err) := Database.Exec DB (Instance.asked s2) conn query in
          (ask (EvExec conn query) s2, Gives v err)
      end
  end.

(** Lines 208-218: the loop, with [results] as it stands. *)
Fixpoint ExecBatch_loop (queries : list string) (results : list (option Result))
    (s : St) : St * Answer (list (option Result)) BatchError :=
  match queries with
  | [] => (s, Gives results None)
  | sql :: rest =>
      match Exec sql s with
      | (s', Gives result None) => ExecBatch_loop rest (results ++ [result])%list s'
      | (s', Gives result (Some err)) =>
          (s', Gives (results ++ [result])%list (Some (ExecSqlFailed sql err)))
      | (s', Panics) => (s', Panics)
      end
  end.

Definition ExecBatch (queries : list string) (s : St)
  : St * Answer (list (option Result)) BatchError :=
  ExecBatch_loop queries [] s.

(** Lines 243-252. *)
Definition Tx (queries : list string) (s : St)
  : St * Answer (option (list Result)) error :=
  if MysqlDriverImpl.isOfflineAudit (Instance.impl s) then (s, Gives None None) else
  match getDbConn s with
  | (s1, (_, Some err)) => (s1, Gives None (Some err))
  | (s1, (None, None)) => (s1, Panics)
  | (s1, (Some conn, None)) =>
      let '(v, err) := Database.Transact DB (Instance.asked s1) conn queries in
      (ask (EvTransact conn queries) s1, Gives v err)
  end.

(** Lines 470-480. *)
Definition Ping (s : St) : St * Answer unit error :=
  if MysqlDriverImpl.isOfflineAudit (Instance.impl s) then (s, Gives tt None) else
  match getDbConn s with
  | (s1, (_, Some err)) => (s1, Gives tt (Some err))
  | (s1, (None, None)) => (s1, Panics)
  | (s1, (Some conn, None)) =>
      (ask (EvPing conn) s1, Gives tt (Database.Ping DB (Instance.asked s1) conn))
  end.

(** Lines 482-491. *)
Definition Schemas (s : St) : St * Answer (option (list string)) error :=
  if MysqlDriverImpl.isOfflineAudit (Instance.impl s) then (s, Gives None None) else
  match getDbConn s with
  | (s1, (_, Some err)) => (s1, Gives None (Some err))
  | (s1, (None, None)) => (s1, Panics)
  | (s1, (Some conn, None)) =>
      let '(v, err) := Database.ShowDatabases DB (Instance.asked s1) conn in
      (ask (EvShowDatabases conn) s1, Gives v err)
  end.

(** The connection handed to [util.GetAffectedRowNum]; on a nil connection
    [conn.Db.QueryWithContext] panics. *)
Definition executorOf (asked : list (DbEvent Conn)) (conn : option Conn)
  : executor.Executor.t :=
  executor.Executor.mk
    (fun sql =>
       match conn with
       | Some c => Database.QueryWithContext DB asked c sql
       | None => Panic
       end).

(** The session context after the calls of [i.Ctx.GetExecutionPlan] that a
    trace of the estimator holds. *)
Definition planContext (ctx : World.Context W) (tr : list util.Event)
  : World.Context W :=
  fold_left
    (fun ctx ev =>
       match ev with
       | util.EvExplain sql => fst (Database.GetExecutionPlan DB ctx sql)
       | _ => ctx
       end)
    tr ctx.

(** Lines 493-514.  [fmt.Errorf("get affected row num failed: %w", err)]
    has the text and the cause of [errors.Wrap(err, "get affected row num
    failed")]. *)
Definition EstimateSQLAffectRows (sql : string) (s : St)
  : St * Answer (option EstimatedAffectRows.t) error :=
  if MysqlDriverImpl.isOfflineAudit (Instance.impl s) then (s, Gives None None) else
  match getDbConn s with
  | (s1, (_, Some err)) => (s1, Gives None (Some err))
  | (s1, (conn, None)) =>
      let ctx := MysqlDriverImpl.Ctx (Instance.impl s1) in
      let '(tr, r) :=
        util.GetAffectedRowNum (Database.Parser_ DB) sql
          (executorOf (Instance.asked s1) conn)
          (fun q => snd (Database.GetExecutionPlan DB ctx q)) in
      let s2 :=
        Instance.mk (setCtx W (planContext ctx tr) (Instance.impl s1))
          (Instance.isConnected s1) (Instance.dbConn s1)
          (Instance.asked s1 ++ map EvEstimate tr)%list in
      match r with
      | Ok num => (s2, Gives (Some (EstimatedAffectRows.mk num None)) None)
      | Err err =>
          if Is_ErrUnsupportedSqlType err
          then (s2, Gives (Some (EstimatedAffectRows.mk 0 (Some err))) None)
          else (s2, Gives None (Some (ErrWrap err "get affected row num failed")))
      | Panic => (s2, Panics)
      end
  end.

(** The attempts to connect that a record holds. *)
Definition connects (asked : list (DbEvent Conn)) : nat :=
  List.length
    (filter (fun ev => match ev with EvNewExecutor _ => true | _ => false end) asked).

(** The live calls of the estimator that a record holds. *)
Definition liveEstimates (asked : list (DbEvent Conn)) : list util.Event :=
  flat_map
    (fun ev => match ev with EvEstimate e => util.liveCalls [e] | _ => [] end)
    asked.

End Connection.

(** *** NewInspect, NewInspectWithExecutor *)

Section Construct.
Variable W : World.t.
Variables Conn Result : Type.
Variable DB : Database.t (World.Context W) Conn Result.
Variable ConfigDMLExplainPreCheckEnable : string.
Variable ConfigSQLIsExecuted : string.
(** [session.NewContext(nil, session.WithExecutor(conn))], and
    [session.NewContext(nil)] for [None] *)
Variable NewContext : option Conn -> World.Context W.
(** [inspect.Ctx.SetCurrentSchema(name)] *)
Variable SetCurrentSchema : World.Context W -> string -> World.Context W.

(** [&MysqlDriverImpl{}] with its session context set; the fields that
    applyConfig assigns next hold placeholders. *)
Definition blank (ctx : World.Context W) : Driver W :=
  MysqlDriverImpl.mk ctx (Config.mk 0 0 0 false false 0 false) [] NewAuditResults
    false false [].

(** Lines 80-88; [asked] is what was asked of the executor so far.  With a
    nil [cfg.DSN], [cfg.DSN.DatabaseName] panics. *)
Definition initializeInspectWithConn (conn : Conn) (cfg : DriverConfig.t)
    (asked : list (DbEvent Conn)) : result (St W Conn) :=
  match DriverConfig.DSN cfg with
  | None => Panic
  | Some databaseName =>
      Ok (Instance.mk
            (applyConfig W ConfigDMLExplainPreCheckEnable ConfigSQLIsExecuted cfg
               (blank (SetCurrentSchema (NewContext (Some conn)) databaseName)))
            true (Some conn) asked)
  end.

(** Lines 90-94. *)
Definition initializeInspectWithoutConn (cfg : DriverConfig.t) : St W Conn :=
  Instance.mk
    (applyConfig W ConfigDMLExplainPreCheckEnable ConfigSQLIsExecuted cfg
       (blank (NewContext None)))
    false None [].

(** Lines 53-62. *)
Definition NewInspectWithExecutor (cfg : DriverConfig.t) (conn : option Conn)
  : result (St W Conn) :=
  match conn with
  | Some c => initializeInspectWithConn c cfg []
  | None => Ok (initializeInspectWithoutConn cfg)
  end.

(** Lines 64-78. *)
Definition NewInspect (cfg : DriverConfig.t) : result (St W Conn) :=
  match DriverConfig.DSN cfg with
  | Some databaseName =>
      match Database.NewExecutor DB [] databaseName with
      | inl conn => initializeInspectWithConn conn cfg [EvNewExecutor databaseName]
      | inr err => Err (ErrWrap err "new executor in inspect")
      end
  | None => Ok (initializeInspectWithoutConn cfg)
  end.

End Construct.

(** *** getTableName, getTableNameWithQuote, SetRules *)

Section Names.
Variable W : World.t.

(** Lines 582-588. *)
Definition getTableName (ctx : World.Context W) (stmt : TableName.t) : string :=
  let schema := World.GetSchemaName W ctx stmt in
  if String.eqb schema "" then TableName.Name stmt
  else schema ++ "." ++ TableName.Name stmt.

(** Lines 591-594. *)
Definition getTableNameWithQuote (ctx : World.Context W) (stmt : TableName.t)
  : string :=
  let name := ReplaceByte (getTableName ctx stmt) "."%char "`.`" in
  "`" ++ name ++ "`".

(** A text without a dot. *)
Definition dotless (s : string) : bool := negb (mem_byte "."%char s).

(** Lines 129-131. *)
Definition SetRules (rules : list Rule.t) (i : Driver W) : Driver W :=
  MysqlDriverImpl.mk (MysqlDriverImpl.Ctx i) (MysqlDriverImpl.cnf i) rules
    (MysqlDriverImpl.result i) (MysqlDriverImpl.HasInvalidSql i)
    (MysqlDriverImpl.isOfflineAudit i) (MysqlDriverImpl.calls i).

End Names.

End mysql.

(* ================================================================== *)
(** ** package ai: rule SQLE00063 (rule_00063.go)                       *)
(* ================================================================== *)

Module ai.
Import ast driverV2 rulepkg.

Definition SQLE00063 : string := "SQLE00063".

(** What the rule takes from package ai/util and from the Unicode tables. *)
Module Env.
Record t (Context : Type) := mk {
  (** [util.GetCreateTableStmt(input.Ctx, table)] *)
  GetCreateTableStmt : Context -> TableName.t -> Context * (CreateTableStmt.t + error);
  (** [util.GetTableConstraints(constraints, types...)] *)
  GetTableConstraints : list Constraint.t -> list ConstraintType -> list Constraint.t;
  (** for runes [sr < tr], not both ASCII: whether iterating
      [unicode.SimpleFold] from [sr] reaches [tr] *)
  simpleFoldReaches : Z -> Z -> bool
}.
Arguments mk {Context}.
Arguments GetCreateTableStmt {Context}.
Arguments GetTableConstraints {Context}.
Arguments simpleFoldReaches {Context}.
End Env.

Section Rule.
Variable Context : Type.
Variable env : Env.t Context.

(** [for _, key := range keys { indexedCols = append(indexedCols, key.Column.Name.String()) }] *)
Definition indexedColsOf (keys : list IndexPartSpecification.t) : list string :=
  map (fun key => ColumnName.Name (IndexPartSpecification.Column key)) keys.

(** The anonymous helper [isIndexNameViolate]. *)
Definition isIndexNameViolate (indexName tableName : string) (cols : list string)
  : bool :=
  if negb (EqualFold (Env.simpleFoldReaches env) indexName
             ("IDX_UK_" ++ tableName ++ "_" ++ Join cols "_"))
  then true else false.

(** Lines 118-130: the loop over the unique constraints of the table.
    [Some finding]: the rule added [finding] and returned. *)
Fixpoint renameIndexLoop (rule : Rule.t) (tableName oldIdxname newIdxname : string)
    (constraintUniqs : list Constraint.t) : option AuditResult.t :=
  match constraintUniqs with
  | [] => None
  | constraint :: rest =>
      if EqualFold (Env.simpleFoldReaches env) oldIdxname oldIdxname then
        let indexedCols := indexedColsOf (Constraint.Keys constraint) in
        if isIndexNameViolate newIdxname tableName indexedCols
        then Some (AddResult rule SQLE00063)
        else renameIndexLoop rule tableName oldIdxname newIdxname rest
      else renameIndexLoop rule tableName oldIdxname newIdxname rest
  end.

(** Lines 93-131: the body of the loop over [stmt.Specs].  The answer is
    the session context and, when the rule returns from inside the body,
    the findings it has added. *)
Definition checkSpec (ctx : Context) (rule : Rule.t) (table : TableName.t)
    (spec : AlterTableSpec.t) : Context * option (list AuditResult.t) :=
  let tableName := TableName.Name table in
  match AlterTableSpec.Tp spec with
  | AlterTableAddConstraint =>
      match AlterTableSpec.Constraint spec with
      | Some constraint =>
          if ConstraintType_eqb (Constraint.Tp constraint) ConstraintUniq then
            let indexName := Constraint.Name constraint in
            let indexedCols := indexedColsOf (Constraint.Keys constraint) in
            if isIndexNameViolate indexName tableName indexedCols
            then (ctx, Some [AddResult rule SQLE00063])
            else (ctx, None)
          else (ctx, None)
      | None => (ctx, None)
      end
  | AlterTableRenameIndex =>
      let '(ctx, r) := Env.GetCreateTableStmt env ctx table in
      match r with
      | inr err => (ctx, Some [])
      | inl createTable =>
          let constraintUniqs :=
            Env.GetTableConstraints env (CreateTableStmt.Constraints createTable)
              [ConstraintUniq] in
          match constraintUniqs with
          | [] => (ctx, Some [])
          | _ =>
              let oldIdxname := AlterTableSpec.FromKey spec in
              let newIdxname := AlterTableSpec.ToKey spec in
              match renameIndexLoop rule tableName oldIdxname newIdxname
                      constraintUniqs with
              | Some finding => (ctx, Some [finding])
              | None => (ctx, None)
              end
          end
      end
  | _ => (ctx, None)
  end.

Fixpoint specsLoop (ctx : Context) (rule : Rule.t) (table : TableName.t)
    (specs : list AlterTableSpec.t) : Context * list AuditResult.t :=
  match specs with
  | [] => (ctx, [])
  | spec :: rest =>
      match checkSpec ctx rule table spec with
      | (ctx', Some added) => (ctx', added)
      | (ctx', None) => specsLoop ctx' rule table rest
      end
  end.

(** Lines 152-162: the first unique constraint with a wrong name. *)
Fixpoint createTableLoop (rule : Rule.t) (tableName : string)
    (constraints : list Constraint.t) : list AuditResult.t :=
  match constraints with
  | [] => []
  | constraint :: rest =>
      if isIndexNameViolate (Constraint.Name constraint) tableName
           (indexedColsOf (Constraint.Keys constraint))
      then [AddResult rule SQLE00063]
      else createTableLoop rule tableName rest
  end.

Definition RuleSQLE00063 (input : RuleHandlerInput.t Context)
  : HandlerOutcome.t Context :=
  let ctx := RuleHandlerInput.Ctx input in
  let rule := RuleHandlerInput.Rule input in
  match RuleHandlerInput.Node input with
  | NAlterTable stmt =>
      let '(ctx', added) :=
        specsLoop ctx rule (AlterTableStmt.Table stmt) (AlterTableStmt.Specs stmt) in
      HandlerOutcome.mk ctx' added None
  | NCreateIndex stmt =>
      match CreateIndexStmt.KeyType stmt with
      | IndexKeyTypeUnique =>
          let tableName := TableName.Name (CreateIndexStmt.Table stmt) in
          let indexName := CreateIndexStmt.IndexName stmt in
          let indexedCols := indexedColsOf (CreateIndexStmt.IndexPartSpecifications stmt) in
          if isIndexNameViolate indexName tableName indexedCols
          then HandlerOutcome.mk ctx [AddResult rule SQLE00063] None
          else HandlerOutcome.mk ctx [] None
      | _ => HandlerOutcome.mk ctx [] None
      end
  | NCreateTable stmt =>
      let tableName := TableName.Name (CreateTableStmt.Table stmt) in
      let constraints :=
        Env.GetTableConstraints env (CreateTableStmt.Constraints stmt) [ConstraintUniq] in
      HandlerOutcome.mk ctx (createTableLoop rule tableName constraints) None
  | _ => HandlerOutcome.mk ctx [] None
  end.

(** The new name of a renamed index does not fit a unique constraint. *)
Definition misfits (tableName newIdxname : string) (constraint : Constraint.t)
  : bool :=
  isIndexNameViolate newIdxname tableName (indexedColsOf (Constraint.Keys constraint)).

(** The name the rule expects for a unique index. *)
Definition expectedName (tableName : string) (cols : list string) : string :=
  "IDX_UK_" ++ tableName ++ "_" ++ Join cols "_".

(** A unique constraint whose name the rule rejects. *)
Definition misnamed (tableName : string) (constraint : Constraint.t) : bool :=
  isIndexNameViolate (Constraint.Name constraint) tableName
    (indexedColsOf (Constraint.Keys constraint)).

(** An ADD CONSTRAINT of a unique constraint whose name the rule rejects. *)
Definition misnamedAdd (tableName : string) (spec : AlterTableSpec.t) : bool :=
  match AlterTableSpec.Tp spec, AlterTableSpec.Constraint spec with
  | AlterTableAddConstraint, Some constraint =>
      ConstraintType_eqb (Constraint.Tp constraint) ConstraintUniq
      && misnamed tableName constraint
  | _, _ => false
  end.

Definition isRenameIndex (spec : AlterTableSpec.t) : bool :=
  match AlterTableSpec.Tp spec with
  | AlterTableRenameIndex => true
  | _ => false
  end.

End Rule.

(** *** rule SQLE00041 (rule_00041.go) *)

Definition SQLE00041 : string := "SQLE00041".

(** How the loop over the parts of an ALTER TABLE ends (lines 92-104): the
    rule has added its finding and returned, [spec.Constraint.Tp] was read
    on a nil [spec.Constraint], or the loop is through with this
    [renameto_map]. *)
Inductive Scan : Type :=
| Reported
| NilConstraint
| Renames (renameto_map : list (string * string)).

Section Rule41.
Variable Context : Type.
Variable env : Env.t Context.
(** [util.IsAlterTableCommand(spec, tp)] of package ai/util *)
Variable IsAlterTableCommand : AlterTableSpec.t -> AlterTableType -> bool.
(** [rulepkg.DefaultSingleParamKeyName] *)
Variable DefaultSingleParamKeyName : string.

(** [renameto_map[old]]: the map is the list of its assignments, the
    latest first, so that a later assignment to a key hides an earlier one. *)
Definition renamedTo (renameto_map : list (string * string)) (old : string)
  : option string :=
  match find (fun entry => String.eqb (fst entry) old) renameto_map with
  | Some entry => Some (snd entry)
  | None => None
  end.

(** [tp == ast.ConstraintUniq || tp == ast.ConstraintUniqIndex] *)
Definition isUniq (tp : ConstraintType) : bool :=
  ConstraintType_eqb tp ConstraintUniq || ConstraintType_eqb tp ConstraintUniqIndex.

(** Lines 92-104. *)
Fixpoint scanSpecs (requiredPrefix : string) (specs : list AlterTableSpec.t)
    (renameto_map : list (string * string)) : Scan :=
  match specs with
  | [] => Renames renameto_map
  | spec :: rest =>
      let renamed :=
        if IsAlterTableCommand spec AlterTableRenameIndex
        then (AlterTableSpec.FromKey spec, AlterTableSpec.ToKey spec) :: renameto_map
        else renameto_map in
      if IsAlterTableCommand spec AlterTableAddConstraint then
        match AlterTableSpec.Constraint spec with
        | None => NilConstraint
        | Some constraint =>
            if isUniq (Constraint.Tp constraint) then
              if negb (HasPrefix (Constraint.Name constraint) requiredPrefix)
              then Reported
              else scanSpecs requiredPrefix rest renameto_map
            else scanSpecs requiredPrefix rest renamed
        end
      else scanSpecs requiredPrefix rest renamed
  end.

(** Lines 116-123: whether the loop over the unique constraints of the
    table adds the finding. *)
Fixpoint renamedLoop (requiredPrefix : string) (renameto_map : list (string * string))
    (constraints : list Constraint.t) : bool :=
  match constraints with
  | [] => false
  | constraint :: rest =>
      match renamedTo renameto_map (Constraint.Name constraint) with
      | Some newIndexName =>
          if negb (HasPrefix newIndexName requiredPrefix) then true
          else renamedLoop requiredPrefix renameto_map rest
      | None => renamedLoop requiredPrefix renameto_map rest
      end
  end.

(** Lines 128-135: whether the loop over the constraints of a CREATE TABLE
    adds the finding. *)
Fixpoint createTableLoop41 (requiredPrefix : string) (constraints : list Constraint.t)
  : bool :=
  match constraints with
  | [] => false
  | constraint :: rest =>
      if isUniq (Constraint.Tp constraint) then
        if negb (HasPrefix (Constraint.Name constraint) requiredPrefix) then true
        else createTableLoop41 requiredPrefix rest
      else createTableLoop41 requiredPrefix rest
  end.

(** Lines 79-147.  [param] is the answer of
    [input.Rule.Params.GetParam(rulepkg.DefaultSingleParamKeyName)], as its
    [String()], nil being [None]; the answer of the rule is [None] when it
    panics. *)
Definition RuleSQLE00041 (param : option string) (input : RuleHandlerInput.t Context)
  : option (HandlerOutcome.t Context) :=
  let ctx := RuleHandlerInput.Ctx input in
  let rule := RuleHandlerInput.Rule input in
  let reported ctx := Some (HandlerOutcome.mk ctx [AddResult rule SQLE00041] None) in
  let passed ctx := Some (HandlerOutcome.mk ctx [] None) in
  match param with
  | None =>
      Some (HandlerOutcome.mk ctx []
              (Some (ErrNew ("param " ++ DefaultSingleParamKeyName ++ " not found"))))
  | Some requiredPrefix =>
      match RuleHandlerInput.Node input with
      | NAlterTable stmt =>
          match scanSpecs requiredPrefix (AlterTableStmt.Specs stmt) [] with
          | Reported => reported ctx
          | NilConstraint => None
          | Renames [] => passed ctx
          | Renames renameto_map =>
              let '(ctx', r) :=
                Env.GetCreateTableStmt env ctx (AlterTableStmt.Table stmt) in
              match r with
              | inr err => Some (HandlerOutcome.mk ctx' [] (Some err))
              | inl createTableStmt =>
                  let constraints :=
                    Env.GetTableConstraints env
                      (CreateTableStmt.Constraints createTableStmt)
                      [ConstraintUniqIndex; ConstraintUniq] in
                  if renamedLoop requiredPrefix renameto_map constraints
                  then reported ctx' else passed ctx'
              end
          end
      | NCreateTable stmt =>
          if createTableLoop41 requiredPrefix (CreateTableStmt.Constraints stmt)
          then reported ctx else passed ctx
      | NCreateIndex stmt =>
          match CreateIndexStmt.KeyType stmt with
          | IndexKeyTypeNone =>
              if negb (HasPrefix (CreateIndexStmt.IndexName stmt) requiredPrefix)
              then reported ctx else passed ctx
          | _ => passed ctx
          end
      | _ => passed ctx
      end
  end.

(** A unique constraint whose name lacks the prefix. *)
Definition unprefixed (requiredPrefix : string) (constraint : Constraint.t) : bool :=
  isUniq (Constraint.Tp constraint)
  && negb (HasPrefix (Constraint.Name constraint) requiredPrefix).

(** The renames of the RENAME INDEX parts, the latest first. *)
Definition renamesOf (specs : list AlterTableSpec.t) : list (string * string) :=
  rev (map (fun spec => (AlterTableSpec.FromKey spec, AlterTableSpec.ToKey spec)) specs).

(** A constraint that is renamed to a name without the prefix. *)
Definition badlyRenamed (requiredPrefix : string) (renameto_map : list (string * string))
    (constraint : Constraint.t) : bool :=
  match renamedTo renameto_map (Constraint.Name constraint) with
  | Some newIndexName => negb (HasPrefix newIndexName requiredPrefix)
  | None => false
  end.

End Rule41.

End ai.

(* ================================================================== *)
(** ** A sample environment for the examples                            *)
(* ================================================================== *)

(** The parser and the database are collaborators; the examples below run
    the code against this stand-in: a parser that knows the statements of
    the examples (parsed by hand into the tree the real parser builds for
    them), a restorer for the clauses modelled above, and canned plans. *)

Module Sample.
Import ast executor util.

Definition restoreDatum (d : Datum) : string :=
  match d with
  | KindNull => "NULL"
  | KindInt64 i => NilZero.string_of_int (Z.to_int i)
  | KindString s => "'" ++ s ++ "'"
  end.

Fixpoint restoreExpr (e : ExprNode) : string :=
  match e with
  | ValueExpr d => restoreDatum d
  | ColumnNameExpr n => "`" ++ n ++ "`"
  | AggregateFuncExpr F Args =>
      ToUpper F ++ "(" ++ Join (map restoreExpr Args) ", " ++ ")"
  | BinaryOperationExpr op l r => restoreExpr l ++ op ++ restoreExpr r
  end.

Definition restoreField (f : SelectField.t) : string :=
  match SelectField.Expr f with
  | Some e => restoreExpr e
  | None => "*"
  end.

Definition restoreSource (ts : TableSource.t) : string :=
  match TableSource.Source ts with
  | SourceTable tn => "`" ++ TableName.Name tn ++ "`"
  | SourceSubquery text => "(" ++ text ++ ") AS `" ++ TableSource.AsName ts ++ "`"
  end.

Definition restoreByItem (b : ByItem.t) : string :=
  restoreExpr (ByItem.Expr b) ++ (if ByItem.Desc b then " DESC" else "").

Definition restoreLimit (l : Limit.t) : string :=
  match Limit.Offset l with
  | Some o => restoreExpr o ++ "," ++ restoreExpr (Limit.Count l)
  | None => restoreExpr (Limit.Count l)
  end.

Definition clause {A} (kw : string) (f : A -> string) (o : option A) : string :=
  match o with
  | Some a => " " ++ kw ++ " " ++ f a
  | None => ""
  end.

Definition restoreSelect (s : SelectStmt.t) : string :=
  "SELECT "
  ++ match SelectStmt.Fields s with
     | Some fl => Join (map restoreField (FieldList.Fields fl)) ", "
     | None => ""
     end
  ++ clause "FROM" (fun c => Join (map restoreSource (TableRefsClause.TableRefs c)) ", ")
       (SelectStmt.From s)
  ++ clause "WHERE" restoreExpr (SelectStmt.Where s)
  ++ clause "GROUP BY" (fun c => Join (map restoreByItem (GroupByClause.Items c)) ", ")
       (SelectStmt.GroupBy s)
  ++ clause "HAVING" (fun c => restoreExpr (HavingClause.Expr c)) (SelectStmt.Having s)
  ++ clause "ORDER BY" (fun c => Join (map restoreByItem (OrderByClause.Items c)) ", ")
       (SelectStmt.OrderBy s)
  ++ clause "LIMIT" restoreLimit (SelectStmt.Limit s).

Definition restoreUnion (u : UnionStmt.t) : string :=
  Join (map restoreSelect (UnionStmt.Selects u)) " UNION ".

Definition tbl (name : string) : TableRefsClause.t :=
  TableRefsClause.mk [TableSource.mk (SourceTable (TableName.mk "" name)) ""].

Definition int (i : Z) : ExprNode := ValueExpr (KindInt64 i).

Definition star : FieldList.t := FieldList.mk [SelectField.mk true None ""].

Definition col (name : string) : FieldList.t :=
  FieldList.mk [SelectField.mk false (Some (ColumnNameExpr name)) ""].

(** A counting statement as the real parser returns it: the star form and
    [COUNT(1)] both come back as the aggregate [count] over the constant 1. *)
Definition counting (from : TableRefsClause.t) (where_ : option ExprNode)
    (limit : option Limit.t) : Node :=
  NSelect (SelectStmt.mk (Some (SelectStmtOpts.mk false true))
             (Some getCountFieldList) (Some from) where_ None None None limit).

Definition derived (text : string) : TableRefsClause.t :=
  TableRefsClause.mk [TableSource.mk (SourceSubquery text) "t"].

Definition x_eq_1 : ExprNode := BinaryOperationExpr "=" (ColumnNameExpr "x") (int 1).

Definition insert3 : string := "INSERT INTO t(c) VALUES (1),(2),(3)".
Definition insert3_node : Node :=
  NInsert (InsertStmt.mk (Some (tbl "t")) (Some [[int 1]; [int 2]; [int 3]]) None).

Definition update_limit : string := "UPDATE t SET x=1 LIMIT 5".
Definition update_limit_stmt : UpdateStmt.t :=
  UpdateStmt.mk (Some (tbl "t")) [Assignment.mk "x" (int 1)] None None
    (Some (Limit.mk (int 5) None)).

Definition delete_where : string := "DELETE FROM t WHERE x=1".
Definition delete_where_stmt : DeleteStmt.t :=
  DeleteStmt.mk (Some (tbl "t")) (Some x_eq_1) None None.

Definition select_where : string := "SELECT * FROM t WHERE x=1".
Definition select_where_stmt : SelectStmt.t :=
  SelectStmt.mk (Some (SelectStmtOpts.mk false true)) (Some star) (Some (tbl "t"))
    (Some x_eq_1) None None None None.

Definition select_all : string := "SELECT * FROM t".
Definition select_all_stmt : SelectStmt.t :=
  SelectStmt.mk (Some (SelectStmtOpts.mk false true)) (Some star) (Some (tbl "t"))
    None None None None None.

Definition select_limit : string := "SELECT a FROM t LIMIT 10,10;".
Definition select_limit_stmt : SelectStmt.t :=
  SelectStmt.mk (Some (SelectStmtOpts.mk false true)) (Some (col "a")) (Some (tbl "t"))
    None None None None (Some (Limit.mk (int 10) (Some (int 10)))).

(** A trailing line comment swallows the closing parenthesis of the
    wrapper, so the wrapped text does not parse. *)
Definition select_comment : string := "SELECT a FROM t LIMIT 1 -- first".
Definition select_comment_stmt : SelectStmt.t :=
  SelectStmt.mk (Some (SelectStmtOpts.mk false true)) (Some (col "a")) (Some (tbl "t"))
    None None None None (Some (Limit.mk (int 1) None)).

Definition known : list (string * Node) :=
  [ (insert3, insert3_node);
    (update_limit, NUpdate update_limit_stmt);
    (delete_where, NDelete delete_where_stmt);
    (select_where, NSelect select_where_stmt);
    (select_all, NSelect select_all_stmt);
    (select_limit, NSelect select_limit_stmt);
    (select_comment, NSelect select_comment_stmt);
    ("SELECT COUNT(1) FROM `t` LIMIT 5",
       counting (tbl "t") None (Some (Limit.mk (int 5) None)));
    ("SELECT COUNT(1) FROM `t` WHERE `x`=1", counting (tbl "t") (Some x_eq_1) None);
    ("SELECT COUNT(1) FROM `t`", counting (tbl "t") None None);
    ("select count(*) from (SELECT a FROM t LIMIT 10,10) as t",
       counting (derived "SELECT a FROM t LIMIT 10,10") None None) ].

Fixpoint lookup {A} (key : string) (table : list (string * A)) : option A :=
  match table with
  | [] => None
  | (k, v) :: rest => if String.eqb key k then Some v else lookup key rest
  end.

Definition ParseOneSql (sql : string) : result Node :=
  match lookup sql known with
  | Some node => Ok node
  | None => Err (ErrNew "You have an error in your SQL syntax")
  end.

Definition parser : Parser.t :=
  Parser.mk ParseOneSql (fun s => Ok (restoreSelect s)) (fun u => Ok (restoreUnion u)).

Definition plan (type : string) (rows : Z) : ExplainRecord.t :=
  ExplainRecord.mk type rows.

(** A database that answers every count with one row holding [answer]. *)
Definition answering (answer : string) : Executor.t :=
  Executor.mk (fun _ => Ok [[NullString.mk answer true]]).

(** A database whose answer to the count has no row. *)
Definition empty_answer : Executor.t := Executor.mk (fun _ => Ok []).

Definition explain_with (recs : list ExplainRecord.t)
    (sql : string) : result (list ExplainRecord.t) := Ok recs.

End Sample.

(** A session for the examples: no schema state ([unit]), table sizes as
    integers, a registry of three handlers, and a gh-ost and a pt-osc whose
    outcome is chosen by the example. *)

Module SampleAudit.
Import ast driverV2 rulepkg mysql.

Definition alter_big : string := "ALTER TABLE big ADD COLUMN c INT".
Definition alter_big_stmt : AlterTableStmt.t :=
  AlterTableStmt.mk (TableName.mk "" "big")
    [AlterTableSpec.mk AlterTableAddColumns None "" ""].

Definition alter_small : string := "ALTER TABLE small ADD COLUMN c INT".
Definition alter_small_stmt : AlterTableStmt.t :=
  AlterTableStmt.mk (TableName.mk "" "small")
    [AlterTableSpec.mk AlterTableAddColumns None "" ""].

Definition rename_index : string := "ALTER TABLE T RENAME INDEX uk_b TO IDX_UK_T_B".
Definition rename_index_spec : AlterTableSpec.t :=
  AlterTableSpec.mk AlterTableRenameIndex None "uk_b" "IDX_UK_T_B".
Definition rename_index_stmt : AlterTableStmt.t :=
  AlterTableStmt.mk (TableName.mk "" "T") [rename_index_spec].

Definition known : list (string * list Node) :=
  [ (alter_big, [NAlterTable alter_big_stmt]);
    (alter_small, [NAlterTable alter_small_stmt]);
    (rename_index, [NAlterTable rename_index_stmt]);
    (Sample.select_all, [NSelect Sample.select_all_stmt]) ].

Definition ParseSql (sql : string) : result (list Node) :=
  match Sample.lookup sql known with
  | Some nodes => Ok nodes
  | None => Err (ErrNew "You have an error in your SQL syntax")
  end.

Definition passes (ctx : unit) (rs : AuditResults.t) (node : Node)
  : unit * AuditResults.t * option error := (ctx, rs, None).

Definition key (column : string) : IndexPartSpecification.t :=
  IndexPartSpecification.mk (ColumnName.mk column) (-1).

(** CREATE TABLE T (a INT, b INT, UNIQUE KEY IDX_UK_T_A (a), UNIQUE KEY uk_b (b), KEY k (a, b)) *)
Definition table_T : CreateTableStmt.t :=
  CreateTableStmt.mk (TableName.mk "" "T")
    [ Constraint.mk ConstraintUniq "IDX_UK_T_A" [key "a"];
      Constraint.mk ConstraintUniq "uk_b" [key "b"];
      Constraint.mk ConstraintIndex "k" [key "a"; key "b"] ].

Definition GetTableConstraints (constraints : list Constraint.t)
    (types : list ConstraintType) : list Constraint.t :=
  filter (fun c => existsb (ConstraintType_eqb (Constraint.Tp c)) types) constraints.

Definition aiEnv : ai.Env.t unit :=
  ai.Env.mk
    (fun ctx table =>
       if String.eqb (TableName.Name table) "T"
       then (ctx, inl table_T)
       else (ctx, inr (ErrNew "table not exist")))
    GetTableConstraints
    (fun _ _ => false).

Definition always_fails : RuleHandler.t unit :=
  RuleHandler.mk "the rule could not be evaluated"
    (Some (fun input =>
             HandlerOutcome.mk (RuleHandlerInput.Ctx input) [] (Some (ErrNew "boom"))))
    (fun _ => true) false (fun _ => false).

Definition flags_select : RuleHandler.t unit :=
  RuleHandler.mk "avoid SELECT *"
    (Some (fun input =>
             match RuleHandlerInput.Node input with
             | NSelect _ =>
                 HandlerOutcome.mk (RuleHandlerInput.Ctx input)
                   [AddResult (RuleHandlerInput.Rule input) "flags_select"] None
             | _ => HandlerOutcome.mk (RuleHandlerInput.Ctx input) [] None
             end))
    (fun _ => true) false (fun _ => false).

Definition unique_index_name : RuleHandler.t unit :=
  RuleHandler.mk "unique index names follow IDX_UK_TABLENAME_COLNAME"
    (Some (ai.RuleSQLE00063 unit aiEnv)) (fun _ => false) false (fun _ => false).

Definition registry : list (string * RuleHandler.t unit) :=
  [ ("always_fails", always_fails);
    ("flags_select", flags_select);
    (ai.SQLE00063, unique_index_name);
    ("ddl_ghost_min_size", RuleHandler.mk "" None (fun _ => true) false (fun _ => false)) ].

Definition sizes : list (string * Z) := [("big", 100); ("small", 10); ("T", 1)].

Definition world (ghost : option error) (osc : result (option string)) : World.t :=
  World.mk unit Z (fun size => size)
    ParseSql passes passes passes
    (fun _ => false)
    "ddl_ghost_min_size" "ddl_osc_min_size" "optimize_index_enabled"
    (fun name => Sample.lookup name registry)
    (fun ctx _ _ => (ctx, []))
    (fun ctx table =>
       match Sample.lookup (TableName.Name table) sizes with
       | Some size => (ctx, Ok size)
       | None => (ctx, Err (ErrNew "table not exist"))
       end)
    (fun _ _ => "db")
    (fun ctx _ => ctx)
    (fun _ _ _ => ghost)
    (fun ctx _ _ => (ctx, osc)).

Definition ghostRule : Rule.t := Rule.mk "ddl_ghost_min_size" RuleLevelNormal.

Definition rules : list Rule.t :=
  [ Rule.mk "always_fails" RuleLevelWarn;
    Rule.mk "flags_select" RuleLevelNotice;
    Rule.mk ai.SQLE00063 RuleLevelWarn;
    ghostRule ].

(** gh-ost threshold 10: [big] (size 100) is above it, [small] (size 10)
    is not; pt-osc is switched off. *)
Definition cnf : Config.t := Config.mk 0 (-1) 10 false false 0 false.

Definition fresh : MysqlDriverImpl.t unit :=
  MysqlDriverImpl.mk tt cnf rules NewAuditResults false false [].

(** The same session with pt-osc switched on from size 16. *)
Definition cnf_osc : Config.t := Config.mk 0 16 10 false false 0 false.

Definition fresh_osc : MysqlDriverImpl.t unit :=
  MysqlDriverImpl.mk tt cnf_osc rules NewAuditResults false false [].

(** The finding that the handler [always_fails] leaves in every audit. *)
Definition boom : AuditResult.t :=
  AuditResult.mk RuleLevelWarn "always_fails"
    (HandlerMessage "the rule could not be evaluated") (Some (ErrNew "boom")).

Definition syntax_error : error := ErrNew "You have an error in your SQL syntax".

(** The driver after the audit of [alter_small], and after the failed
    audit of the misspelt "SELEC" that follows it. *)
Definition after_small : MysqlDriverImpl.t unit :=
  Eval cbv in fst (Audit (world None (Ok None)) [alter_small] fresh).

Definition after_selec : MysqlDriverImpl.t unit :=
  Eval cbv in fst (audit (world None (Ok None)) "SELEC" after_small).

End SampleAudit.

(** More sessions for the examples: one whose pre-validation fails, a
    driver set up by applyConfig, and a database behind the driver. *)

Module SampleMore.
Import ast driverV2 rulepkg mysql.

Definition table_not_exist : error := ErrNew "table not exist".

Definition fails (ctx : unit) (rs : AuditResults.t) (node : Node)
  : unit * AuditResults.t * option error := (ctx, rs, Some table_not_exist).

(** The session of [SampleAudit.world] with a pre-validation that fails;
    [recoverable] says whether the error counts as a show-create-table
    parse error. *)
Definition invalid_world (recoverable : bool) : World.t :=
  World.mk unit Z (fun size => size)
    SampleAudit.ParseSql fails fails SampleAudit.passes
    (fun _ => recoverable)
    "ddl_ghost_min_size" "ddl_osc_min_size" "optimize_index_enabled"
    (fun name => Sample.lookup name SampleAudit.registry)
    (fun ctx _ _ => (ctx, []))
    (fun ctx table =>
       match Sample.lookup (TableName.Name table) SampleAudit.sizes with
       | Some size => (ctx, Ok size)
       | None => (ctx, Err (ErrNew "table not exist"))
       end)
    (fun _ _ => "db")
    (fun ctx _ => ctx)
    (fun _ _ _ => None)
    (fun ctx _ _ => (ctx, Ok None)).

(** The configuration that gives [SampleAudit.cnf] and [SampleAudit.rules]. *)
Definition configured : DriverConfig.t :=
  DriverConfig.mk (Some "db")
    (map (fun rule =>
            ConfiguredRule.mk rule
              (if String.eqb (Rule.Name rule) "ddl_ghost_min_size" then 10 else 0) 0)
         SampleAudit.rules).

Definition applied : MysqlDriverImpl.t unit :=
  applyConfig (SampleAudit.world None (Ok None))
    "dml_enable_explain_pre_check" "sql_is_executed" configured SampleAudit.fresh.

(** A driver without a gh-ost rule: the threshold stays at -1. *)
Definition ghostless_driver : MysqlDriverImpl.t unit :=
  MysqlDriverImpl.mk tt (Config.mk 0 (-1) (-1) false false 0 false)
    [Rule.mk "flags_select" RuleLevelNotice] NewAuditResults false false [].

(** The parser of [Sample], which also knows SHOW TABLES. *)
Definition show_tables : string := "SHOW TABLES".

Definition parser : util.Parser.t :=
  util.Parser.mk
    (fun sql =>
       if String.eqb sql show_tables then Ok (NOther show_tables)
       else Sample.ParseOneSql sql)
    (fun s => Ok (Sample.restoreSelect s))
    (fun u => Ok (Sample.restoreUnion u)).

Definition duplicate_column : error := ErrNew "Duplicate column name 'c'".

(** A database server: connections are numbered by the length of the
    record, results are texts, the ALTER of [small] fails, and every count
    is answered by 5. *)
Definition database (reachable : bool) : Database.t unit nat string :=
  Database.mk
    (fun _ => "db")
    (fun asked schema =>
       if reachable then inl (List.length asked)
       else inr (ErrNew "connection refused"))
    (fun asked conn query =>
       if String.eqb query SampleAudit.alter_small
       then (None, Some duplicate_column)
       else (Some ("ok: " ++ query), None))
    (fun asked conn queries => (Some (map (fun q => "ok: " ++ q) queries), None))
    (fun asked conn => None)
    (fun asked conn => (Some ["db"], None))
    "no rows"
    (fun asked conn sql => Ok [[executor.NullString.mk "5" true]])
    (fun ctx sql => (ctx, Ok [Sample.plan "range" 5]))
    parser.

(** ALTER TABLE T ADD UNIQUE KEY uk_a (a) *)
Definition add_uk_a : AlterTableSpec.t :=
  AlterTableSpec.mk AlterTableAddConstraint
    (Some (Constraint.mk ConstraintUniq "uk_a" [SampleAudit.key "a"])) "" "".

(** CREATE TABLE T (a INT, b INT, UNIQUE KEY IDX_UK_T_a_b (a, b)) *)
Definition table_well_named : CreateTableStmt.t :=
  CreateTableStmt.mk (TableName.mk "" "T")
    [Constraint.mk ConstraintUniq "IDX_UK_T_a_b"
       [SampleAudit.key "a"; SampleAudit.key "b"]].

Definition warn63 : Rule.t := Rule.mk ai.SQLE00063 RuleLevelWarn.

Definition warn41 : Rule.t := Rule.mk ai.SQLE00041 RuleLevelWarn.

(** An [IsAlterTableCommand] that compares the type of the part. *)
Definition isCommand (spec : AlterTableSpec.t) (tp : AlterTableType) : bool :=
  match AlterTableSpec.Tp spec, tp with
  | AlterTableAddConstraint, AlterTableAddConstraint
  | AlterTableRenameIndex, AlterTableRenameIndex => true
  | _, _ => false
  end.

Definition instance (offline connected : bool) : Instance.t unit nat :=
  Instance.mk
    (MysqlDriverImpl.mk tt SampleAudit.cnf SampleAudit.rules NewAuditResults
       false offline [])
    connected (if connected then Some 7%nat else None) [].

End SampleMore.

(* ================================================================== *)
(** ** Properties                                                       *)
(* ================================================================== *)

Example TrimRight_semicolons : TrimRight "select 1;;" ";" = "select 1".
Proof. reflexivity. Qed.

Example ParseInt_42 : ParseInt "42" = Ok 42.
Proof. reflexivity. Qed.

Example ParseInt_bad : ParseInt "4x" = Err (ErrSyntax "ParseInt" "4x").
Proof. reflexivity. Qed.

Section EstimatorExamples.
Import ast executor util Sample.

Example sample_insert3 :
  GetAffectedRowNum parser insert3 (answering "7") (explain_with [])
  = ([EvParseOneSql insert3], Ok 3).
Proof. reflexivity. Qed.

Example sample_update_limit :
  GetAffectedRowNum parser update_limit (answering "5") (explain_with [plan "range" 5])
  = ([EvParseOneSql update_limit;
      EvRestore (getSelectNodeFromUpdate update_limit_stmt);
      EvParseOneSql "SELECT COUNT(1) FROM `t` LIMIT 5";
      EvExplain "SELECT COUNT(1) FROM `t` LIMIT 5";
      EvQuery "SELECT COUNT(1) FROM `t` LIMIT 5"], Ok 5).
Proof. reflexivity. Qed.

Example sample_select_all_full_scan :
  GetAffectedRowNum parser select_all (answering "7") (explain_with [plan "ALL" 1234])
  = ([EvParseOneSql select_all;
      EvRestore (getSelectNodeFromSelect select_all_stmt);
      EvParseOneSql "SELECT COUNT(1) FROM `t`";
      EvExplain "SELECT COUNT(1) FROM `t`"], Ok 1234).
Proof. reflexivity. Qed.

Example sample_select_limit_wrapped :
  GetAffectedRowNum parser select_limit empty_answer (explain_with [plan "index" 10])
  = ([EvParseOneSql select_limit;
      EvParseOneSql "select count(*) from (SELECT a FROM t LIMIT 10,10) as t";
      EvExplain "select count(*) from (SELECT a FROM t LIMIT 10,10) as t";
      EvQuery "select count(*) from (SELECT a FROM t LIMIT 10,10) as t"], Ok 0).
Proof. reflexivity. Qed.

Example sample_select_comment_rejected :
  GetAffectedRowNum parser select_comment (answering "1") (explain_with [plan "ALL" 1])
  = ([EvParseOneSql select_comment;
      EvParseOneSql "select count(*) from (SELECT a FROM t LIMIT 1 -- first) as t"],
     Err (ErrCheckSql "select count(*) from (SELECT a FROM t LIMIT 1 -- first) as t"
            select_comment (ErrNew "You have an error in your SQL syntax"))).
Proof. reflexivity. Qed.

End EstimatorExamples.

(* ------------------------------------------------------------------ *)
(** *** int64 sums                                                      *)
(* ------------------------------------------------------------------ *)

Lemma wrap64_id (z : Z) : in_int64 z -> wrap64 z = z.
Proof.
  unfold in_int64, wrap64. intros H.
  rewrite Z.mod_small; lia.
Qed.

Lemma wrap64_add_l (a b : Z) : wrap64 (wrap64 a + b) = wrap64 (a + b).
Proof.
  unfold wrap64.
  replace (((a + 2 ^ 63) mod 2 ^ 64 - 2 ^ 63) + b + 2 ^ 63)
    with ((a + 2 ^ 63) mod 2 ^ 64 + b) by lia.
  replace (a + b + 2 ^ 63) with ((a + 2 ^ 63) + b) by lia.
  rewrite Z.add_mod_idemp_l by lia. reflexivity.
Qed.

(* ------------------------------------------------------------------ *)
(** *** The estimator, stage by stage                                   *)
(* ------------------------------------------------------------------ *)

Section EstimatorFacts.
Import ast executor util.
Variable P : Parser.t.

Lemma last_cons {A} (l : list A) (a d : A) : last (a :: l) d = last l a.
Proof.
  revert a d. induction l as [|b l IH]; intros a d; [reflexivity|].
  change (last (a :: b :: l) d) with (last (b :: l) d).
  now rewrite (IH b d), (IH b a).
Qed.

Lemma fold_add64 (l : list Z) (a : Z) :
  fold_left add64 l (wrap64 a) = wrap64 (a + fold_right Z.add 0 l).
Proof.
  revert a. induction l as [|x l IH]; intros a; simpl.
  - now rewrite Z.add_0_r.
  - unfold add64 at 2. rewrite wrap64_add_l, IH. f_equal. lia.
Qed.

Lemma scanRecords_from (recs : list ExplainRecord.t) (st : PlanScan) :
  fold_left scanRecord recs st
  = mkPlanScan (notUseIndex st || anyFullScan recs)
               (last (map ExplainRecord.Rows recs) (affetcCount st))
               (fold_left add64 (map ExplainRecord.Rows recs) (estimatedRows st)).
Proof.
  revert st. induction recs as [|r recs IH]; intros st.
  - destruct st. simpl. now rewrite orb_false_r.
  - simpl fold_left. rewrite IH.
    change (map ExplainRecord.Rows (r :: recs))
      with (ExplainRecord.Rows r :: map ExplainRecord.Rows recs).
    rewrite last_cons. unfold scanRecord. simpl. f_equal.
    fold (isFullScan r). destruct (isFullScan r); simpl;
      [now rewrite orb_true_r|reflexivity].
Qed.

Lemma sumRows_map (recs : list ExplainRecord.t) :
  fold_right Z.add 0 (map ExplainRecord.Rows recs) = sumRows recs.
Proof. induction recs as [|r recs IH]; simpl; [reflexivity|now rewrite IH]. Qed.

Lemma scanRecords_spec (recs : list ExplainRecord.t) :
  scanRecords recs
  = mkPlanScan (anyFullScan recs) (lastRows recs) (wrap64 (sumRows recs)).
Proof.
  unfold scanRecords. rewrite scanRecords_from. simpl.
  change 0 with (wrap64 0) at 2. rewrite fold_add64, sumRows_map. reflexivity.
Qed.

Lemma GetAffectedRowNum_unfold originSql conn explain :
  GetAffectedRowNum P originSql conn explain
  = match rewriteToCount P originSql with
    | (tr, Ok (inl n)) => (tr, Ok n)
    | (tr, Ok (inr (o, sql))) =>
        ((tr ++ trace (estimate P o sql conn explain))%list,
         outcome (estimate P o sql conn explain))
    | (tr, Err e) => (tr, Err e)
    | (tr, Panic) => (tr, Panic)
    end.
Proof.
  unfold GetAffectedRowNum, bind.
  destruct (rewriteToCount P originSql) as [tr [[n|[o sql]]|e|]]; try reflexivity.
  - unfold ret. now rewrite app_nil_r.
  - destruct (estimate P o sql conn explain); reflexivity.
Qed.

Lemma estimate_unfold o sql conn explain :
  estimate P o sql conn explain
  = match Parser.ParseOneSql P sql with
    | Ok node =>
        if IsSelectOnlyIncludeCountFunc node then
          match explain sql with
          | Ok recs =>
              if anyFullScan recs || (100000 <? wrap64 (sumRows recs))
              then ([EvParseOneSql sql; EvExplain sql], Ok (lastRows recs))
              else ([EvParseOneSql sql; EvExplain sql; EvQuery sql],
                    outcome (liveCount conn sql))
          | Err e => ([EvParseOneSql sql; EvExplain sql], Err (ErrExecutionPlan sql e))
          | Panic => ([EvParseOneSql sql; EvExplain sql], Panic)
          end
        else ([EvParseOneSql sql], Err (ErrCheckSql sql o (ErrNew "affectRowSql error")))
    | Err e => ([EvParseOneSql sql], Err (ErrCheckSql sql o e))
    | Panic => ([EvParseOneSql sql], Panic)
    end.
Proof.
  unfold estimate, checkSql, bind, call, wrapErr, ret, fail.
  destruct (Parser.ParseOneSql P sql) as [node|e|]; try reflexivity.
  destruct (IsSelectOnlyIncludeCountFunc node); simpl; try reflexivity.
  destruct (explain sql) as [recs|e|]; try reflexivity.
  rewrite scanRecords_spec. simpl.
  destruct (anyFullScan recs || (100000 <? wrap64 (sumRows recs))); try reflexivity.
  unfold liveCount, bind, call, wrapErr, ret, panic, outcome.
  destruct (Executor.QueryWithContext conn sql) as [[|[|c r] rows]|e|]; reflexivity.
Qed.

Lemma checkSql_unfold sql :
  checkSql P sql
  = ([EvParseOneSql sql],
     match Parser.ParseOneSql P sql with
     | Ok node =>
         if IsSelectOnlyIncludeCountFunc node then Ok tt
         else Err (ErrNew "affectRowSql error")
     | Err e => Err e
     | Panic => Panic
     end).
Proof.
  unfold checkSql, bind, call, ret, fail.
  destruct (Parser.ParseOneSql P sql) as [node|e|]; try reflexivity.
  destruct (IsSelectOnlyIncludeCountFunc node); reflexivity.
Qed.

Lemma In_trace_bind {A B} (m : M A) (k : A -> M B) (ev : Event) :
  In ev (trace (bind m k)) ->
  In ev (trace m) \/ exists a, outcome m = Ok a /\ In ev (trace (k a)).
Proof.
  unfold bind, trace, outcome. destruct m as [tr [a|e|]]; simpl; auto.
  destruct (k a) as [tr' r] eqn:K. simpl. intros H.
  apply in_app_or in H as [H|H]; [now left|right].
  exists a. rewrite K. auto.
Qed.

(** Walks through a computation, one collaborator call at a time. *)
Ltac walk H :=
  lazymatch type of H with
  | In _ (trace (bind _ _)) =>
      apply In_trace_bind in H; destruct H as [H | (? & _ & H)]; walk H
  | In _ (trace (call _ _)) => destruct H as [<-|[]]; reflexivity
  | In _ (trace (ret _)) => destruct H
  | In _ (trace (fail _)) => destruct H
  | In _ (trace (match ?x with _ => _ end)) => destruct x; walk H
  | In _ (trace (if ?x then _ else _)) => destruct x; walk H
  | _ => idtac
  end.

Lemma rewriteToCount_quiet originSql (ev : Event) :
  In ev (trace (rewriteToCount P originSql)) -> is_live ev = false.
Proof.
  unfold rewriteToCount, classify, buildAffectedRowSql. cbv zeta.
  intros H. walk H.
Qed.

(** What the validation accepts: a SELECT whose select list is one field,
    an aggregate named count. *)
Lemma IsSelectOnlyIncludeCountFunc_spec (node : Node) :
  IsSelectOnlyIncludeCountFunc node = true <->
  exists stmt field F Args,
    node = NSelect stmt
    /\ SelectStmt.Fields stmt = Some (FieldList.mk [field])
    /\ SelectField.Expr field = Some (AggregateFuncExpr F Args)
    /\ ToLower F = AggFuncCount.
Proof.
  split.
  - destruct node as [stmt| | | | | | | |]; try discriminate. simpl.
    destruct (SelectStmt.Fields stmt) as [[[|field [|f2 fs]]]|] eqn:HF;
      try discriminate. simpl.
    destruct (SelectField.Expr field) as [[| |F Args|]|] eqn:HE; try discriminate.
    intros H. apply String.eqb_eq in H. exists stmt, field, F, Args. auto.
  - intros (stmt & field & F & Args & -> & HF & HE & HL). simpl.
    rewrite HF. simpl. rewrite HE. now apply String.eqb_eq.
Qed.

Lemma split_after_quiet (tr rest pre post : list Event) (ev : Event) :
  (forall e, In e tr -> is_live e = false) ->
  (tr ++ rest)%list = (pre ++ ev :: post)%list ->
  is_live ev = true ->
  exists pre', pre = (tr ++ pre')%list /\ rest = (pre' ++ ev :: post)%list.
Proof.
  revert pre. induction tr as [|e tr IH]; intros pre Q E L.
  - exists pre. auto.
  - destruct pre as [|p pre]; simpl in E; injection E as -> E.
    + rewrite (Q ev) in L by now left. discriminate.
    + destruct (IH pre) as (pre' & -> & ->); auto.
      * intros e' I. apply Q. now right.
      * exists pre'. auto.
Qed.

(** C7: an INSERT with literal VALUES tuples and no subquery is answered
    with the number of its tuples right after the initial parse: nothing is
    restored, no plan is requested, and no query reaches the database. *)
Theorem GetAffectedRowNum_insert_values
    (originSql : string) (conn : Executor.t)
    (explain : string -> result (list ExplainRecord.t))
    (stmt : InsertStmt.t) (lists : list (list ExprNode)) :
  Parser.ParseOneSql P originSql = Ok (NInsert stmt) ->
  InsertStmt.Lists stmt = Some lists ->
  InsertStmt.Select stmt = None ->
  GetAffectedRowNum P originSql conn explain
  = ([EvParseOneSql originSql], Ok (Z.of_nat (List.length lists))).
Proof.
  intros HP HL HS.
  unfold GetAffectedRowNum, rewriteToCount, classify, bind, call, ret.
  rewrite HP. simpl. rewrite HL, HS. reflexivity.
Qed.

(** C8: when the rewritten count query is run live and the database
    answers with no row at all, GetAffectedRowNum returns 0 and no error. *)
Theorem GetAffectedRowNum_empty_result
    (originSql : string) (conn : Executor.t)
    (explain : string -> result (list ExplainRecord.t)) (sql : string) :
  In (EvQuery sql) (trace (GetAffectedRowNum P originSql conn explain)) ->
  Executor.QueryWithContext conn sql = Ok [] ->
  outcome (GetAffectedRowNum P originSql conn explain) = Ok 0.
Proof.
  intros HI HQ. rewrite GetAffectedRowNum_unfold in *.
  pose proof (rewriteToCount_quiet originSql (EvQuery sql)) as Quiet.
  destruct (rewriteToCount P originSql) as [tr [[n|[o sql']]|e|]];
    simpl in HI, Quiet; try (apply Quiet in HI; discriminate).
  unfold trace in HI. simpl in HI. simpl.
  apply in_app_or in HI as [HI|HI]; [apply Quiet in HI; discriminate|].
  rewrite estimate_unfold in *.
  destruct (Parser.ParseOneSql P sql') as [node|e|]; simpl in HI;
    try (destruct HI as [HI|[]]; discriminate).
  destruct (IsSelectOnlyIncludeCountFunc node); simpl in HI;
    try (destruct HI as [HI|[]]; discriminate).
  destruct (explain sql') as [recs|e|]; simpl in HI;
    try (destruct HI as [HI|[HI|[]]]; discriminate).
  destruct (anyFullScan recs || (100000 <? wrap64 (sumRows recs))); simpl in HI;
    try (destruct HI as [HI|[HI|[]]]; discriminate).
  destruct HI as [HI|[HI|[HI|[]]]]; try discriminate.
  injection HI as ->. simpl.
  unfold liveCount, bind, call, wrapErr, ret. rewrite HQ. reflexivity.
Qed.

(** C1: the counting statement is validated before anything goes to the
    live database.  If the check of the rewritten statement fails,
    GetAffectedRowNum returns an error and its trace holds no explain and
    no query; and every statement that does reach the database was parsed
    again just before, and its select list is exactly one count aggregate. *)
Theorem GetAffectedRowNum_validates_before_live
    (originSql : string) (conn : Executor.t)
    (explain : string -> result (list ExplainRecord.t)) :
  (forall (o sql : string) (e : error),
      outcome (rewriteToCount P originSql) = Ok (inr (o, sql)) ->
      outcome (checkSql P sql) = Err e ->
      outcome (GetAffectedRowNum P originSql conn explain) = Err (ErrCheckSql sql o e)
      /\ existsb is_live (trace (GetAffectedRowNum P originSql conn explain)) = false)
  /\
  (forall (pre post : list Event) (ev : Event),
      trace (GetAffectedRowNum P originSql conn explain) = (pre ++ ev :: post)%list ->
      is_live ev = true ->
      In (EvParseOneSql (event_sql ev)) pre
      /\ exists node,
           Parser.ParseOneSql P (event_sql ev) = Ok node
           /\ IsSelectOnlyIncludeCountFunc node = true).
Proof.
  split.
  - intros o sql e HR HC. rewrite GetAffectedRowNum_unfold.
    pose proof (rewriteToCount_quiet originSql) as Quiet.
    destruct (rewriteToCount P originSql) as [tr r]. simpl in HR, Quiet. subst r.
    rewrite estimate_unfold. rewrite checkSql_unfold in HC. simpl in HC.
    assert (Q : existsb is_live tr = false).
    { clear - Quiet. induction tr as [|x tr IH]; [reflexivity|]. simpl.
      rewrite (Quiet x) by now left. apply IH. intros ev I. apply Quiet. now right. }
    destruct (Parser.ParseOneSql P sql) as [node|e'|]; try discriminate.
    + destruct (IsSelectOnlyIncludeCountFunc node); try discriminate.
      injection HC as <-. simpl. split; [reflexivity|].
      unfold trace. simpl. rewrite existsb_app, Q. reflexivity.
    + injection HC as <-. simpl. split; [reflexivity|].
      unfold trace. simpl. rewrite existsb_app, Q. reflexivity.
  - intros pre post ev HT HL. rewrite GetAffectedRowNum_unfold in HT.
    pose proof (rewriteToCount_quiet originSql) as Quiet.
    destruct (rewriteToCount P originSql) as [tr [[n|[o sql]]|e|]];
      unfold trace in HT; simpl in HT, Quiet;
      try (rewrite (Quiet ev) in HL
             by (rewrite HT; apply in_or_app; right; now left);
           discriminate).
    destruct (split_after_quiet tr _ pre post ev Quiet HT HL) as (pre' & -> & HE).
    clear HT. rewrite estimate_unfold in HE.
    destruct (Parser.ParseOneSql P sql) as [node|e|] eqn:HP;
      [destruct (IsSelectOnlyIncludeCountFunc node) eqn:HC;
       [destruct (explain sql) as [recs|e|];
        [destruct (anyFullScan recs || (100000 <? wrap64 (sumRows recs)))|..]|]|..];
      simpl in HE;
      repeat (destruct pre' as [|? pre']; simpl in HE;
              [injection HE as <-; try discriminate HL|injection HE as <- HE]);
      try discriminate HE; try (destruct pre'; discriminate HE);
      simpl; (split; [apply in_or_app; right; simpl; auto|eauto]).
Qed.

(** C4: once the rewritten statement is validated, its plan is requested.
    If a plan row is a full table scan, or the int64 sum of the rows of the
    plan exceeds 100000, the answer is the row estimate of the plan (its
    last row) and no query is sent; otherwise the count query is run on the
    live connection and its first cell, read as a decimal, is the answer. *)
Theorem GetAffectedRowNum_plan_decision
    (originSql : string) (conn : Executor.t)
    (explain : string -> result (list ExplainRecord.t))
    (o sql : string) (recs : list ExplainRecord.t) :
  outcome (rewriteToCount P originSql) = Ok (inr (o, sql)) ->
  outcome (checkSql P sql) = Ok tt ->
  explain sql = Ok recs ->
  (anyFullScan recs = true \/ 100000 < wrap64 (sumRows recs) ->
     trace (GetAffectedRowNum P originSql conn explain)
     = (trace (rewriteToCount P originSql) ++ [EvParseOneSql sql; EvExplain sql])%list
     /\ outcome (GetAffectedRowNum P originSql conn explain) = Ok (lastRows recs))
  /\
  (anyFullScan recs = false /\ wrap64 (sumRows recs) <= 100000 ->
     trace (GetAffectedRowNum P originSql conn explain)
     = (trace (rewriteToCount P originSql)
        ++ [EvParseOneSql sql; EvExplain sql; EvQuery sql])%list
     /\ forall (cell : NullString.t) (rest : list NullString.t)
               (rows : list (list NullString.t)) (n : Z),
          Executor.QueryWithContext conn sql = Ok ((cell :: rest) :: rows) ->
          ParseInt (NullString.String_ cell) = Ok n ->
          outcome (GetAffectedRowNum P originSql conn explain) = Ok n).
Proof.
  intros HR HC HE. rewrite GetAffectedRowNum_unfold.
  destruct (rewriteToCount P originSql) as [tr r]. simpl in HR. subst r.
  rewrite estimate_unfold. rewrite checkSql_unfold in HC. simpl in HC.
  destruct (Parser.ParseOneSql P sql) as [node|e|]; try discriminate.
  destruct (IsSelectOnlyIncludeCountFunc node); try discriminate.
  rewrite HE. split.
  - intros H.
    assert (D : anyFullScan recs || (100000 <? wrap64 (sumRows recs)) = true).
    { destruct H as [->|H]; [reflexivity|].
      apply Z.ltb_lt in H. rewrite H. apply orb_true_r. }
    rewrite D. split; reflexivity.
  - intros [HA HS].
    assert (D : anyFullScan recs || (100000 <? wrap64 (sumRows recs)) = false).
    { rewrite HA. simpl. apply Z.ltb_ge. exact HS. }
    rewrite D. split; [reflexivity|].
    intros cell rest rows n HQ HN. simpl.
    unfold liveCount, bind, call, wrapErr, ret. rewrite HQ. simpl.
    rewrite HN. reflexivity.
Qed.

(** C3 (amended): a top-level SELECT with a GROUP BY (with or without
    HAVING) or a LIMIT is wrapped whole, trailing semicolons trimmed, as
    the derived table of a count, and so is the restored text of the union
    of an INSERT ... UNION; a SELECT without them, every UPDATE and every
    DELETE (also with a LIMIT), and an INSERT ... SELECT whose SELECT has
    neither GROUP BY nor LIMIT, are rewritten to a fresh SELECT COUNT(1)
    that reuses only the FROM, WHERE, ORDER BY and LIMIT clauses.  Nothing
    is said of an INSERT ... SELECT whose SELECT has a GROUP BY or a
    LIMIT. *)
Theorem rewriteToCount_policy (originSql : string) (node : Node) :
  Parser.ParseOneSql P originSql = Ok node ->
  match node with
  | NSelect stmt =>
      if isSome (SelectStmt.GroupBy stmt) || isSome (SelectStmt.Limit stmt)
      then rewriteToCount P originSql
           = ([EvParseOneSql originSql],
              Ok (inr (originSql, wrapAsDerivedTable (TrimRight originSql ";"))))
      else rewriteToCount P originSql
           = restored P originSql
               (countOver (SelectStmt.From stmt) (SelectStmt.Where stmt)
                          (SelectStmt.OrderBy stmt) None)
  | NUpdate stmt =>
      rewriteToCount P originSql
      = restored P originSql
          (countOver (UpdateStmt.TableRefs stmt) (UpdateStmt.Where stmt)
                     (UpdateStmt.Order stmt) (UpdateStmt.Limit stmt))
  | NDelete stmt =>
      rewriteToCount P originSql
      = restored P originSql
          (countOver (DeleteStmt.TableRefs stmt) (DeleteStmt.Where stmt)
                     (DeleteStmt.Order stmt) (DeleteStmt.Limit stmt))
  | NInsert stmt =>
      match InsertStmt.Lists stmt, InsertStmt.Select stmt with
      | None, Some (RSelect sel) =>
          SelectStmt.GroupBy sel = None ->
          SelectStmt.Limit sel = None ->
          rewriteToCount P originSql
          = restored P originSql
              (countOver (SelectStmt.From sel) (SelectStmt.Where sel)
                         (SelectStmt.OrderBy sel) None)
      | None, Some (RUnion union) =>
          rewriteToCount P originSql
          = ([EvParseOneSql originSql; EvRestoreUnion union],
             match Parser.restoreToSqlWithFlag P union with
             | Ok text => Ok (inr (text, wrapAsDerivedTable (TrimRight text ";")))
             | Err e => Err e
             | Panic => Panic
             end)
      | _, _ => True
      end
  | _ => True
  end.
Proof.
  intros HP.
  unfold rewriteToCount, classify, buildAffectedRowSql, restored, bind, call, ret.
  rewrite HP.
  destruct node as [s|u|i|u|d|a|ci|ct|t]; try exact I; simpl.
  - destruct s as [opts fields from wh gb hv ob lim]; simpl.
    destruct gb, hv, lim; simpl; try reflexivity;
      destruct from, wh, ob; simpl;
      (destruct (Parser.Restore P _); reflexivity).
  - destruct i as [tb lists sel]; simpl.
    destruct lists; [exact I|]. destruct sel as [[sel|un|t]|]; try exact I.
    + simpl. intros _ HL.
      destruct sel as [opts fields from wh gb hv ob lim]; simpl in HL; subst lim;
        simpl.
      destruct from, wh, ob; simpl;
        (destruct (Parser.Restore P _); reflexivity).
    + simpl. destruct (Parser.restoreToSqlWithFlag P un); reflexivity.
  - destruct u as [from asg wh ob lim]; simpl.
    destruct from, wh, ob, lim; simpl;
      (destruct (Parser.Restore P _); reflexivity).
  - destruct d as [from wh ob lim]; simpl.
    destruct from, wh, ob, lim; simpl;
      (destruct (Parser.Restore P _); reflexivity).
Qed.

End EstimatorFacts.

Section EstimatorWitnesses.
Import ast executor util Sample.

Lemma GetAffectedRowNum_insert_values_witness :
  GetAffectedRowNum parser insert3 (answering "7") (explain_with [])
  = ([EvParseOneSql insert3], Ok 3).
Proof.
  apply (GetAffectedRowNum_insert_values parser insert3 (answering "7") (explain_with [])
           (InsertStmt.mk (Some (tbl "t")) (Some [[int 1]; [int 2]; [int 3]]) None)
           [[int 1]; [int 2]; [int 3]]); reflexivity.
Defined.

Lemma GetAffectedRowNum_empty_result_witness :
  outcome (GetAffectedRowNum parser select_limit empty_answer
             (explain_with [plan "index" 10])) = Ok 0.
Proof.
  apply (GetAffectedRowNum_empty_result parser select_limit empty_answer
           (explain_with [plan "index" 10])
           "select count(*) from (SELECT a FROM t LIMIT 10,10) as t").
  - vm_compute. auto.
  - reflexivity.
Defined.

Lemma GetAffectedRowNum_validates_before_live_witness :
  outcome (GetAffectedRowNum parser select_comment (answering "1")
             (explain_with [plan "ALL" 1]))
  = Err (ErrCheckSql "select count(*) from (SELECT a FROM t LIMIT 1 -- first) as t"
           select_comment (ErrNew "You have an error in your SQL syntax"))
  /\ existsb is_live
       (trace (GetAffectedRowNum parser select_comment (answering "1")
                 (explain_with [plan "ALL" 1]))) = false.
Proof.
  apply (proj1 (GetAffectedRowNum_validates_before_live parser select_comment
                  (answering "1") (explain_with [plan "ALL" 1])));
    reflexivity.
Defined.

Lemma GetAffectedRowNum_plan_decision_witness :
  outcome (GetAffectedRowNum parser select_all (answering "7")
             (explain_with [plan "ALL" 1234])) = Ok 1234
  /\ outcome (GetAffectedRowNum parser select_where (answering "50")
                (explain_with [plan "ref" 50])) = Ok 50.
Proof.
  split.
  - apply (proj1 (GetAffectedRowNum_plan_decision parser select_all (answering "7")
                    (explain_with [plan "ALL" 1234])
                    select_all "SELECT COUNT(1) FROM `t`" [plan "ALL" 1234]
                    eq_refl eq_refl eq_refl)).
    left. reflexivity.
  - refine (proj2 (proj2 (GetAffectedRowNum_plan_decision parser select_where
                     (answering "50") (explain_with [plan "ref" 50])
                     select_where "SELECT COUNT(1) FROM `t` WHERE `x`=1" [plan "ref" 50]
                     eq_refl eq_refl eq_refl) _)
                  (NullString.mk "50" true) [] [] 50 eq_refl eq_refl).
    split; [reflexivity|]. vm_compute. discriminate.
Defined.

Lemma rewriteToCount_policy_witness :
  rewriteToCount parser select_limit
  = ([EvParseOneSql select_limit],
     Ok (inr (select_limit, "select count(*) from (SELECT a FROM t LIMIT 10,10) as t")))
  /\ rewriteToCount parser update_limit
     = ([EvParseOneSql update_limit;
         EvRestore (countOver (Some (tbl "t")) None None (Some (Limit.mk (int 5) None)))],
        Ok (inr (update_limit, "SELECT COUNT(1) FROM `t` LIMIT 5"))).
Proof.
  split.
  - exact (rewriteToCount_policy parser select_limit (NSelect select_limit_stmt) eq_refl).
  - exact (rewriteToCount_policy parser update_limit (NUpdate update_limit_stmt) eq_refl).
Defined.

(** C3 as stated fails: UPDATE t SET x=1 LIMIT 5 carries a LIMIT, the
    estimator accepts it, and its rewrite is the fresh
    SELECT COUNT(1) ... LIMIT 5, not the wrapped original. *)
Lemma update_with_limit_is_not_wrapped :
  Parser.ParseOneSql parser update_limit = Ok (NUpdate update_limit_stmt)
  /\ hasGroupByOrLimit (NUpdate update_limit_stmt) = true
  /\ outcome (rewriteToCount parser update_limit)
     = Ok (inr (update_limit, "SELECT COUNT(1) FROM `t` LIMIT 5"))
  /\ wrapAsDerivedTable (TrimRight update_limit ";")
     = "select count(*) from (UPDATE t SET x=1 LIMIT 5) as t"
  /\ ~ wraps_whenever_grouped_or_limited.
Proof.
  repeat split; try reflexivity.
  intros H.
  specialize (H parser update_limit (NUpdate update_limit_stmt) update_limit
                "SELECT COUNT(1) FROM `t` LIMIT 5" eq_refl eq_refl eq_refl).
  discriminate H.
Qed.

End EstimatorWitnesses.

(* ------------------------------------------------------------------ *)
(** *** The driver: which statements are audited                        *)
(* ------------------------------------------------------------------ *)

Section DriverFacts.
Import ast driverV2 rulepkg mysql.
Variable W : World.t.

Lemma audited_app (l1 l2 : list Event) :
  audited (l1 ++ l2) = (audited l1 ++ audited l2)%list.
Proof. apply flat_map_app. Qed.

Lemma silent_dret {A} (a : A) : silent W (dret W a).
Proof. intros i. reflexivity. Qed.

Lemma silent_dfail {A} (e : error) : silent W (@dfail W A e).
Proof. intros i. reflexivity. Qed.

Lemma silent_dpanic {A} : silent W (@dpanic W A).
Proof. intros i. reflexivity. Qed.

Lemma silent_lift {A} (r : result A) : silent W (lift W r).
Proof. intros i. reflexivity. Qed.

Lemma silent_gets {A} (f : Driver W -> A) : silent W (gets W f).
Proof. intros i. reflexivity. Qed.

Lemma silent_modify (f : Driver W -> Driver W) :
  (forall i, audited (MysqlDriverImpl.calls (f i))
             = audited (MysqlDriverImpl.calls i)) ->
  silent W (modify W f).
Proof. intros H i. apply H. Qed.

Lemma silent_dbind {A B} (m : D W A) (k : A -> D W B) :
  silent W m -> (forall a, silent W (k a)) -> silent W (dbind W m k).
Proof.
  intros Hm Hk i. unfold dbind. specialize (Hm i).
  destruct (m i) as [i' [a|e|]]; simpl in *; try exact Hm.
  rewrite Hk. exact Hm.
Qed.

Lemma silent_dwrapErr {A} (wrap : error -> error) (m : D W A) :
  silent W m -> silent W (dwrapErr W wrap m).
Proof.
  intros Hm i. unfold dwrapErr. specialize (Hm i).
  destruct (m i) as [i' [a|e|]]; exact Hm.
Qed.

Lemma silent_attempt {A} (m : D W A) : silent W m -> silent W (attempt W m).
Proof.
  intros Hm i. unfold attempt. specialize (Hm i).
  destruct (m i) as [i' [a|e|]]; exact Hm.
Qed.

Lemma silent_check f (node : Node) : silent W (check W f node).
Proof.
  intros i. unfold check.
  destruct (f (MysqlDriverImpl.Ctx i) (MysqlDriverImpl.result i) node) as [[ctx rs] err].
  reflexivity.
Qed.

Lemma silent_record_handler (rule : Rule.t) (err : option error) (i : Driver W) :
  audited (MysqlDriverImpl.calls (record W (EvHandler rule err) i))
  = audited (MysqlDriverImpl.calls i).
Proof.
  unfold record. cbn [MysqlDriverImpl.calls].
  rewrite audited_app. apply app_nil_r.
Qed.

Lemma silent_record_ghost (schema query : string) (dry : bool) (i : Driver W) :
  audited (MysqlDriverImpl.calls (record W (EvGhost schema query dry) i))
  = audited (MysqlDriverImpl.calls i).
Proof.
  unfold record. cbn [MysqlDriverImpl.calls].
  rewrite audited_app. apply app_nil_r.
Qed.

Create HintDb silent.

(** Proves that a method built from the pieces above is silent. *)
Ltac silence :=
  repeat first
    [ solve [auto 1 with silent nocore]
    | apply silent_dret | apply silent_dfail | apply silent_dpanic
    | apply silent_lift | apply silent_gets | apply silent_check
    | apply silent_dwrapErr | apply silent_attempt
    | apply silent_dbind; [|intros ?]
    | apply silent_modify; intros ?;
        first [ reflexivity | apply silent_record_ghost | apply silent_record_handler ]
    | match goal with
      | |- silent _ (match ?x with _ => _ end) => destruct x
      | |- silent _ (if ?b then _ else _) => destruct b
      end ].

Lemma silent_ParseSql (sql : string) : silent W (ParseSql W sql).
Proof. unfold ParseSql. silence. Qed.

Lemma silent_first (nodes : list Node) : silent W (first W nodes).
Proof. unfold first. silence. Qed.

#[local] Hint Resolve silent_ParseSql silent_first : silent.

Lemma silent_executeByGhost (query : string) (dry : bool) :
  silent W (executeByGhost W query dry).
Proof.
  unfold executeByGhost. silence.
Qed.

Lemma silent_onlineddlWithGhost (query : string) :
  silent W (onlineddlWithGhost W query).
Proof.
  unfold onlineddlWithGhost. silence.
  intros i. destruct (World.GetTableSize W _ _). reflexivity.
Qed.

#[local] Hint Resolve silent_executeByGhost silent_onlineddlWithGhost : silent.

Lemma silent_dispatchRule (node : Node) (g : option Rule.t) (rule : Rule.t) :
  silent W (dispatchRule W node g rule).
Proof.
  unfold dispatchRule, IsOfflineAudit, IsExecutedSQL. cbv zeta. silence.
  apply silent_modify. intros i.
  unfold record, setResult, setCtx. cbn [MysqlDriverImpl.calls].
  rewrite audited_app. apply app_nil_r.
Qed.

Lemma silent_ruleLoop (node : Node) (rules : list Rule.t) (g : option Rule.t) :
  silent W (ruleLoop W node g rules).
Proof.
  revert g. induction rules as [|rule rest IH]; intros g; simpl.
  - apply silent_dret.
  - apply silent_dbind; [apply silent_dispatchRule|intros g'; apply IH].
Qed.

Lemma silent_ruleDispatch (node : Node) : silent W (ruleDispatch W node).
Proof.
  unfold ruleDispatch. apply silent_dbind; [apply silent_gets|].
  intros rules. apply silent_ruleLoop.
Qed.

Lemma calls_fold_advices (reasons : list string) (i : Driver W) :
  MysqlDriverImpl.calls
    (fold_left
       (fun i reason =>
          setResult W (Add (MysqlDriverImpl.result i) RuleLevelNotice
                         (World.ConfigOptimizeIndexEnabled W) (AdviceReason reason)) i)
       reasons i)
  = MysqlDriverImpl.calls i.
Proof.
  revert i. induction reasons as [|r rs IH]; intros i; [reflexivity|].
  simpl. rewrite IH. reflexivity.
Qed.

Lemma silent_optimizePass (node : Node) : silent W (optimizePass W node).
Proof.
  unfold optimizePass. silence.
  - intros i. destruct (World.optimize W _ _ _). reflexivity.
  - apply silent_modify. intros i. now rewrite calls_fold_advices.
Qed.

Lemma silent_ghostDryRun (sql : string) (g : option Rule.t) :
  silent W (ghostDryRun W sql g).
Proof.
  unfold ghostDryRun, addResult. silence.
Qed.

Lemma silent_finish (node : Node) : silent W (finish W node).
Proof.
  unfold finish, addResult, IsExecutedSQL. silence.
  intros i. destruct (World.generateOSCCommandLine W _ _ _) as [ctx [c|e|]];
    try reflexivity.
  destruct (World.IsParseShowCreateTableContentErr W e); reflexivity.
Qed.

Lemma audited_dbind_silent {A B} (m : D W A) (k : A -> D W B) (i : Driver W) :
  (forall a, silent W (k a)) ->
  audited (MysqlDriverImpl.calls (fst (dbind W m k i)))
  = audited (MysqlDriverImpl.calls (fst (m i))).
Proof.
  intros Hk. unfold dbind.
  destruct (m i) as [i' [a|e|]]; [apply Hk|reflexivity|reflexivity].
Qed.

Lemma audited_preValidate (sql : string) (i : Driver W) :
  audited (MysqlDriverImpl.calls (fst (preValidate W sql i)))
  = (audited (MysqlDriverImpl.calls i) ++ [sql])%list.
Proof.
  unfold preValidate.
  change (dbind W (modify W (setResult W NewAuditResults)) ?k i)
    with (k tt (setResult W NewAuditResults i)).
  cbv beta.
  match goal with
  | |- context [dbind W (modify W (record W ?ev)) ?k ?j] =>
      change (dbind W (modify W (record W ev)) k j) with (k tt (record W ev j))
  end.
  cbv beta.
  match goal with
  | |- audited (MysqlDriverImpl.calls (fst (?m ?j))) = _ =>
      assert (S : silent W m)
  end.
  { unfold IsOfflineAudit, IsExecutedSQL, addResult. silence. }
  rewrite S. unfold record, setResult. cbn [MysqlDriverImpl.calls].
  rewrite audited_app. reflexivity.
Qed.

Lemma audited_audit (sql : string) (i : Driver W) :
  audited (MysqlDriverImpl.calls (fst (audit W sql i)))
  = (audited (MysqlDriverImpl.calls i) ++ [sql])%list.
Proof.
  unfold audit. rewrite audited_dbind_silent; [apply audited_preValidate|].
  intros node0.
  apply silent_dbind; [apply silent_ruleDispatch|intros g].
  apply silent_dbind; [apply silent_optimizePass|intros _].
  apply silent_dbind; [apply silent_ghostDryRun|intros _].
  apply silent_finish.
Qed.

Lemma auditEach_app (pre rest : list string) (acc rs : list AuditResults.t)
    (i i1 : Driver W) :
  auditEach W pre acc i = (i1, Return (Some rs) None) ->
  auditEach W (pre ++ rest) acc i = auditEach W rest rs i1.
Proof.
  revert acc i. induction pre as [|s pre IH]; intros acc i H; simpl in *.
  - now injection H as -> ->.
  - destruct (audit W s i) as [i' [r|e|]]; try discriminate. now apply IH.
Qed.

Lemma auditEach_audited (pre : list string) (acc rs : list AuditResults.t)
    (i i1 : Driver W) :
  auditEach W pre acc i = (i1, Return (Some rs) None) ->
  audited (MysqlDriverImpl.calls i1)
  = (audited (MysqlDriverImpl.calls i) ++ pre)%list.
Proof.
  revert acc i. induction pre as [|s pre IH]; intros acc i H; simpl in *.
  - injection H as -> _. now rewrite app_nil_r.
  - pose proof (audited_audit s i) as HA.
    destruct (audit W s i) as [i' [r|e|]]; try discriminate.
    rewrite (IH _ _ H). simpl in HA. rewrite HA, <- app_assoc. reflexivity.
Qed.

Lemma no_empty_sql (sqls : list string) :
  ~ In "" sqls -> existsb (String.eqb "") sqls = false.
Proof.
  intros H. destruct (existsb (String.eqb "") sqls) eqn:E; [|reflexivity].
  apply existsb_exists in E as (x & I & Q). apply String.eqb_eq in Q. now subst x.
Qed.

(** C10: if an element of the batch is the empty string, Audit returns the
    error "has empty sql" and no results, and the driver is left as it was:
    no statement of the batch is audited, also not those before the empty
    one. *)
Theorem Audit_rejects_empty_sql (sqls : list string) (i : Driver W) :
  In "" sqls ->
  Audit W sqls i = (i, Return None (Some (ErrNew "has empty sql"))).
Proof.
  intros H. unfold Audit.
  assert (E : existsb (String.eqb "") sqls = true).
  { apply existsb_exists. exists "". split; [exact H|reflexivity]. }
  now rewrite E.
Qed.

(** C6 (amended): when the audit of a statement of the batch fails, the
    statements after it are not audited, and Audit returns that error with
    no results at all; the results of the statements already audited are
    dropped. *)
Theorem Audit_stops_at_first_failure
    (pre post : list string) (s : string) (i i1 i2 : Driver W)
    (rs : list AuditResults.t) (e : error) :
  ~ In "" (pre ++ s :: post)%list ->
  Audit W pre i = (i1, Return (Some rs) None) ->
  audit W s i1 = (i2, Err e) ->
  Audit W (pre ++ s :: post)%list i = (i2, Return None (Some e))
  /\ audited (MysqlDriverImpl.calls i2)
     = (audited (MysqlDriverImpl.calls i) ++ pre ++ [s])%list.
Proof.
  intros HN HP HS. unfold Audit in *.
  rewrite (no_empty_sql _ HN).
  assert (HN' : ~ In "" pre).
  { intros I. apply HN. apply in_or_app. now left. }
  rewrite (no_empty_sql _ HN') in HP.
  split.
  - rewrite (auditEach_app _ _ _ _ _ _ HP). simpl. now rewrite HS.
  - pose proof (audited_audit s i1) as HA. rewrite HS in HA. simpl in HA.
    rewrite HA, (auditEach_audited _ _ _ _ _ HP), app_assoc. reflexivity.
Qed.

End DriverFacts.

Section AuditExamples.
Import ast driverV2 rulepkg mysql SampleAudit.

Example sample_audit_select :
  audit (world None (Ok None)) Sample.select_all fresh
  = (MysqlDriverImpl.mk tt cnf rules
       (AuditResults.mk
          [ AuditResult.mk RuleLevelWarn "always_fails"
              (HandlerMessage "the rule could not be evaluated") (Some (ErrNew "boom"));
            AuditResult.mk RuleLevelNotice "flags_select"
              (RuleMessage "flags_select") None ])
       false false
       [ EvAudit Sample.select_all;
         EvHandler (Rule.mk "always_fails" RuleLevelWarn) (Some (ErrNew "boom"));
         EvHandler (Rule.mk "flags_select" RuleLevelNotice) None;
         EvHandler (Rule.mk ai.SQLE00063 RuleLevelWarn) None ],
     Ok (AuditResults.mk
          [ AuditResult.mk RuleLevelWarn "always_fails"
              (HandlerMessage "the rule could not be evaluated") (Some (ErrNew "boom"));
            AuditResult.mk RuleLevelNotice "flags_select"
              (RuleMessage "flags_select") None ])).
Proof. reflexivity. Qed.

Example sample_audit_alter_big_dry_run_fails :
  snd (audit (world (Some (ErrNew "gh-ost: no replica")) (Ok None)) alter_big fresh)
  = Ok (AuditResults.mk
          [ AuditResult.mk RuleLevelWarn "always_fails"
              (HandlerMessage "the rule could not be evaluated") (Some (ErrNew "boom"));
            AuditResult.mk RuleLevelError "ddl_ghost_min_size"
              (GhostDryRunError 10
                 (ErrWrap (ErrNew "gh-ost: no replica") "dry-run gh-ost")) None ]).
Proof. reflexivity. Qed.

Example sample_audit_alter_small_no_ghost :
  snd (audit (world (Some (ErrNew "gh-ost: no replica")) (Ok None)) alter_small fresh)
  = Ok (AuditResults.mk
          [ AuditResult.mk RuleLevelWarn "always_fails"
              (HandlerMessage "the rule could not be evaluated") (Some (ErrNew "boom")) ]).
Proof. reflexivity. Qed.

Example sample_audit_rename_index :
  snd (audit (world None (Ok None)) rename_index fresh)
  = Ok (AuditResults.mk
          [ AuditResult.mk RuleLevelWarn "always_fails"
              (HandlerMessage "the rule could not be evaluated") (Some (ErrNew "boom"));
            AuditResult.mk RuleLevelWarn "SQLE00063" (RuleMessage "SQLE00063") None ]).
Proof. reflexivity. Qed.

Example sample_Audit_batch :
  snd (Audit (world None (Ok None)) [alter_small; "SELEC"; Sample.select_all] fresh)
  = Return None (Some (ErrNew "You have an error in your SQL syntax")).
Proof. reflexivity. Qed.

(** Without the gh-ost rule among the rules, [ghostRule] is nil when the
    dry run wants its name. *)
Example sample_dry_run_without_ghost_rule :
  snd (ghostDryRun (world None (Ok None)) alter_big None fresh) = Panic.
Proof. reflexivity. Qed.

Example sample_EqualFold :
  EqualFold (fun _ _ => false) "idx_uk_t_b" "IDX_UK_T_B" = true
  /\ EqualFold (fun _ _ => false) "IDX_UK_T_B" "IDX_UK_T_A" = false.
Proof. split; reflexivity. Qed.

End AuditExamples.

(* ------------------------------------------------------------------ *)
(** *** The driver: rule dispatch                                       *)
(* ------------------------------------------------------------------ *)

Section DispatchFacts.
Import ast driverV2 rulepkg mysql.
Variable W : World.t.

Lemma invoked_app (l1 l2 : list Event) :
  invoked (l1 ++ l2) = (invoked l1 ++ invoked l2)%list.
Proof. apply flat_map_app. Qed.

Lemma runs_ext (i j : Driver W) (node : Node) (rule : Rule.t) :
  MysqlDriverImpl.cnf j = MysqlDriverImpl.cnf i ->
  MysqlDriverImpl.isOfflineAudit j = MysqlDriverImpl.isOfflineAudit i ->
  runs W j node rule = runs W i node rule.
Proof. intros Hc Ho. unfold runs. now rewrite Hc, Ho. Qed.

Lemma dispatchRule_spec (node : Node) (g : option Rule.t) (rule : Rule.t)
    (i : Driver W) :
  turn_spec W node i [rule] (dispatchRule W node g rule i).
Proof.
  unfold turn_spec, dispatchRule, runs, IsOfflineAudit, IsExecutedSQL.
  unfold dbind, gets, modify, dret. cbv zeta. simpl filter.
  destruct (World.GetRuleHandlerFromAllRules W (Rule.Name rule)) as [h|] eqn:G.
  2:{ eexists _, [], []. simpl. rewrite !app_nil_r.
      repeat split; try reflexivity. intros ? ? []. }
  destruct (RuleHandler.Func h) as [f|].
  2:{ eexists _, [], []. simpl. rewrite !app_nil_r.
      repeat split; try reflexivity. intros ? ? []. }
  destruct (MysqlDriverImpl.isOfflineAudit i && negb (RuleHandler.IsAllowOfflineRule h node)).
  { eexists _, [], []. simpl. rewrite !app_nil_r.
    repeat split; try reflexivity. intros ? ? []. }
  destruct (Config.isExecutedSQL (MysqlDriverImpl.cnf i)
            && (RuleHandler.OnlyAuditNotExecutedSQL h
                || RuleHandler.IsDisableExecutedSQLRule h node)).
  { eexists _, [], []. simpl. rewrite !app_nil_r.
    repeat split; try reflexivity. intros ? ? []. }
  set (out := f _).
  destruct (HandlerOutcome.Err_ out) as [e|] eqn:E.
  - eexists _, [EvHandler rule (Some e)],
      (HandlerOutcome.Added out ++ [failureFinding W rule h e])%list.
    simpl. rewrite app_assoc.
    repeat split; try reflexivity.
    intros r e' [Q|[]]. injection Q as <- <-.
    exists h. split; [exact G|]. apply in_or_app. right. now left.
  - eexists _, [EvHandler rule None], (HandlerOutcome.Added out).
    simpl. repeat split; try reflexivity.
    intros r e' [Q|[]]. discriminate Q.
Qed.

Lemma ruleLoop_spec (node : Node) (rules : list Rule.t) (g : option Rule.t)
    (i : Driver W) :
  turn_spec W node i rules (ruleLoop W node g rules i).
Proof.
  revert g i. induction rules as [|rule rest IH]; intros g i.
  - exists g, [], []. simpl. rewrite !app_nil_r.
    repeat split; try reflexivity. intros ? ? [].
  - simpl ruleLoop. unfold dbind.
    destruct (dispatchRule_spec node g rule i)
      as (g1 & evs1 & added1 & R1 & C1 & A1 & F1 & O1 & I1 & E1).
    destruct (dispatchRule W node g rule i) as [i1 r1]. simpl in R1, C1, A1, F1, O1.
    subst r1.
    destruct (IH g1 i1) as (g2 & evs2 & added2 & R2 & C2 & A2 & F2 & O2 & I2 & E2).
    exists g2, (evs1 ++ evs2)%list, (added1 ++ added2)%list.
    repeat split.
    + exact R2.
    + rewrite C2, C1. apply eq_sym, app_assoc.
    + rewrite A2, A1. apply eq_sym, app_assoc.
    + now rewrite F2.
    + now rewrite O2.
    + rewrite invoked_app, I1, I2. simpl filter.
      rewrite (filter_ext _ _ (fun r => runs_ext i i1 node r F1 O1)).
      destruct (runs W i node rule); reflexivity.
    + intros r e H. apply in_app_or in H as [H|H].
      * destruct (E1 r e H) as (h & G & I). exists h. split; [exact G|].
        apply in_or_app. now left.
      * destruct (E2 r e H) as (h & G & I). exists h. split; [exact G|].
        apply in_or_app. now right.
Qed.

Lemma dispatchRule_ghostRule (node : Node) (g : option Rule.t) (rule : Rule.t)
    (i : Driver W) :
  snd (dispatchRule W node g rule i) = Ok (lastGhostRule W [rule] g).
Proof.
  unfold dispatchRule, lastGhostRule, IsOfflineAudit, IsExecutedSQL.
  unfold dbind, gets, modify, dret. cbv zeta. simpl fold_left.
  destruct (World.GetRuleHandlerFromAllRules W (Rule.Name rule)) as [h|];
    [|reflexivity].
  destruct (RuleHandler.Func h) as [f|]; [|reflexivity].
  destruct (MysqlDriverImpl.isOfflineAudit i
            && negb (RuleHandler.IsAllowOfflineRule h node)); [reflexivity|].
  destruct (Config.isExecutedSQL (MysqlDriverImpl.cnf i)
            && (RuleHandler.OnlyAuditNotExecutedSQL h
                || RuleHandler.IsDisableExecutedSQLRule h node)); [reflexivity|].
  destruct (HandlerOutcome.Err_ _); reflexivity.
Qed.

Lemma ruleLoop_ghostRule (node : Node) (rules : list Rule.t)
    (g : option Rule.t) (i : Driver W) :
  snd (ruleLoop W node g rules i) = Ok (lastGhostRule W rules g).
Proof.
  revert g i. induction rules as [|rule rest IH]; intros g i; [reflexivity|].
  simpl ruleLoop. unfold dbind.
  pose proof (dispatchRule_ghostRule node g rule i) as H.
  destruct (dispatchRule W node g rule i) as [i1 r1]. simpl in H. subst r1.
  apply IH.
Qed.

Lemma ruleLoop_app (node : Node) (pre post : list Rule.t) (g : option Rule.t)
    (i : Driver W) :
  ruleLoop W node g (pre ++ post) i
  = ruleLoop W node (lastGhostRule W pre g) post (fst (ruleLoop W node g pre i)).
Proof.
  revert g i. induction pre as [|rule rest IH]; intros g i; [reflexivity|].
  simpl app. simpl ruleLoop. unfold dbind.
  pose proof (dispatchRule_ghostRule node g rule i) as H.
  destruct (dispatchRule W node g rule i) as [i1 r1]. simpl in H. subst r1.
  rewrite IH. reflexivity.
Qed.

(** What the body of the loop does with a rule that passes the skip
    conditions: it calls the handler on the session context and the result
    set as they stand, keeps what the handler appended, and appends the
    finding of the failure when the handler returned an error. *)
Lemma dispatchRule_runs (node : Node) (g : option Rule.t) (rule : Rule.t)
    (j : Driver W) (handler : RuleHandler.t (World.Context W))
    (func : RuleHandlerInput.t (World.Context W)
            -> HandlerOutcome.t (World.Context W)) :
  runs W j node rule = true ->
  World.GetRuleHandlerFromAllRules W (Rule.Name rule) = Some handler ->
  RuleHandler.Func handler = Some func ->
  let out := func (RuleHandlerInput.mk (MysqlDriverImpl.Ctx j) rule
                     (MysqlDriverImpl.result j) node) in
  MysqlDriverImpl.calls (fst (dispatchRule W node g rule j))
  = (MysqlDriverImpl.calls j ++ [EvHandler rule (HandlerOutcome.Err_ out)])%list
  /\ AuditResults.Results (MysqlDriverImpl.result (fst (dispatchRule W node g rule j)))
     = (AuditResults.Results (MysqlDriverImpl.result j)
        ++ HandlerOutcome.Added out
        ++ match HandlerOutcome.Err_ out with
           | Some e => [failureFinding W rule handler e]
           | None => []
           end)%list.
Proof.
  intros HR HG HF out. unfold runs in HR. rewrite HG, HF in HR. simpl in HR.
  apply andb_prop in HR as [H1 H2]. apply negb_true_iff in H1, H2.
  unfold dispatchRule, IsOfflineAudit, IsExecutedSQL, dbind, gets, modify, dret.
  cbv zeta. rewrite HG, HF, H1, H2. fold out.
  destruct (HandlerOutcome.Err_ out) as [e|]; simpl; split; try reflexivity.
  - now rewrite <- app_assoc.
  - now rewrite app_nil_r.
Qed.

(** C5: during rule dispatch over one statement the loop always runs to
    its end, whatever the handlers return: every rule that passes the skip
    conditions has its handler called, in the order of the rules, on the
    session context and the result set that the rules before it have left;
    what that call appended is in the result set of the statement; and
    when that call returned an error, the result set of the statement holds
    a finding with the name and the level of the rule, carrying the error. *)
Theorem ruleDispatch_isolates_handler_failures (node : Node) (i : Driver W) :
  exists (i' : Driver W) (ghostRule : option Rule.t) (evs : list Event),
    ruleDispatch W node i = (i', Ok ghostRule)
    /\ MysqlDriverImpl.calls i' = (MysqlDriverImpl.calls i ++ evs)%list
    /\ invoked evs = filter (runs W i node) (MysqlDriverImpl.rules i)
    /\ forall (pre post : list Rule.t) (rule : Rule.t)
              (handler : RuleHandler.t (World.Context W))
              (func : RuleHandlerInput.t (World.Context W)
                      -> HandlerOutcome.t (World.Context W)),
         MysqlDriverImpl.rules i = (pre ++ rule :: post)%list ->
         runs W i node rule = true ->
         World.GetRuleHandlerFromAllRules W (Rule.Name rule) = Some handler ->
         RuleHandler.Func handler = Some func ->
         let j := fst (ruleLoop W node None pre i) in
         let out := func (RuleHandlerInput.mk (MysqlDriverImpl.Ctx j) rule
                            (MysqlDriverImpl.result j) node) in
         In (EvHandler rule (HandlerOutcome.Err_ out)) evs
         /\ incl (HandlerOutcome.Added out)
                 (AuditResults.Results (MysqlDriverImpl.result i'))
         /\ forall e : error,
              HandlerOutcome.Err_ out = Some e ->
              In (failureFinding W rule handler e)
                 (AuditResults.Results (MysqlDriverImpl.result i')).
Proof.
  unfold ruleDispatch, dbind, gets.
  destruct (ruleLoop_spec node (MysqlDriverImpl.rules i) None i)
    as (g & evs & added & R & C & A & _ & _ & I & _).
  destruct (ruleLoop W node None (MysqlDriverImpl.rules i) i) as [i' r] eqn:EL.
  simpl in R, C, A. subst r.
  exists i', g, evs. split; [reflexivity|]. split; [exact C|]. split; [exact I|].
  intros pre post rule handler func HD HR HG HF.
  set (j := fst (ruleLoop W node None pre i)).
  set (out := func (RuleHandlerInput.mk (MysqlDriverImpl.Ctx j) rule
                      (MysqlDriverImpl.result j) node)).
  rewrite HD, ruleLoop_app in EL. fold j in EL. simpl ruleLoop in EL.
  unfold dbind in EL.
  destruct (ruleLoop_spec node pre None i)
    as (g0 & evs0 & added0 & _ & C0 & _ & F0 & O0 & _ & _).
  fold j in C0, F0, O0.
  assert (HR' : runs W j node rule = true).
  { now rewrite (runs_ext i j node rule F0 O0). }
  destruct (dispatchRule_runs node (lastGhostRule W pre None) rule j handler func
              HR' HG HF) as [C1 A1].
  fold out in C1, A1.
  pose proof (dispatchRule_ghostRule node (lastGhostRule W pre None) rule j) as G1.
  destruct (dispatchRule W node (lastGhostRule W pre None) rule j) as [k r1].
  simpl in C1, A1, G1. subst r1.
  match type of EL with
  | ruleLoop _ _ ?g1 _ _ = _ =>
      destruct (ruleLoop_spec node post g1 k) as (g2 & evs2 & added2 & _ & C2 & A2 & _)
  end.
  rewrite EL in C2, A2. simpl in C2, A2.
  assert (HE : evs = (evs0 ++ [EvHandler rule (HandlerOutcome.Err_ out)] ++ evs2)%list).
  { apply (app_inv_head (MysqlDriverImpl.calls i)).
    rewrite <- C, C2, C1, C0, <- !app_assoc. reflexivity. }
  assert (HA : forall x,
            In x (HandlerOutcome.Added out
                  ++ match HandlerOutcome.Err_ out with
                     | Some e => [failureFinding W rule handler e]
                     | None => []
                     end)%list ->
            In x (AuditResults.Results (MysqlDriverImpl.result i'))).
  { intros x Hx. rewrite A2, A1. apply in_or_app. left.
    apply in_or_app. now right. }
  split; [|split].
  - rewrite HE. apply in_or_app. right. now left.
  - intros x Hx. apply HA. apply in_or_app. now left.
  - intros e HErr. apply HA. apply in_or_app. right. rewrite HErr. now left.
Qed.

(** The [ghostRule] that the dry run of gh-ost uses is the last rule of
    the audit named [ConfigDDLGhostMinSize], nil when there is none. *)
Lemma ruleDispatch_ghostRule (node : Node) (i : Driver W) :
  snd (ruleDispatch W node i) = Ok (lastGhostRule W (MysqlDriverImpl.rules i) None).
Proof. unfold ruleDispatch, dbind, gets. apply ruleLoop_ghostRule. Qed.

Lemma lastGhostRule_name (rules : list Rule.t) (g : option Rule.t) :
  (forall r, g = Some r -> Rule.Name r = World.ConfigDDLGhostMinSize W) ->
  forall r, lastGhostRule W rules g = Some r ->
            Rule.Name r = World.ConfigDDLGhostMinSize W.
Proof.
  revert g. induction rules as [|x rules IH]; intros g Hg r; simpl.
  - apply Hg.
  - apply IH. intros r'.
    destruct (Rule.Name x =? World.ConfigDDLGhostMinSize W)%string eqn:E.
    + intros Q. injection Q as <-. now apply String.eqb_eq.
    + apply Hg.
Qed.

Lemma lastGhostRule_some (rules : list Rule.t) (g : option Rule.t) :
  isSome g = true
  \/ (exists rule, In rule rules
                   /\ Rule.Name rule = World.ConfigDDLGhostMinSize W) ->
  isSome (lastGhostRule W rules g) = true.
Proof.
  revert g. induction rules as [|x rules IH]; intros g H; simpl.
  - destruct H as [H|(rule & [] & _)]. exact H.
  - apply IH.
    destruct (Rule.Name x =? World.ConfigDDLGhostMinSize W)%string eqn:E;
      [now left|].
    destruct H as [H|(rule & [I|I] & N)].
    + now left.
    + subst x. apply String.eqb_eq in N. congruence.
    + right. eauto.
Qed.

(** With the gh-ost rule among the rules of the audit, [ghostRule] is not
    nil after the loop. *)
Lemma lastGhostRule_found (rules : list Rule.t) :
  (exists rule, In rule rules
                /\ Rule.Name rule = World.ConfigDDLGhostMinSize W) ->
  exists rule, lastGhostRule W rules None = Some rule
               /\ Rule.Name rule = World.ConfigDDLGhostMinSize W.
Proof.
  intros H. pose proof (lastGhostRule_some rules None (or_intror H)) as S.
  destruct (lastGhostRule W rules None) as [rule|] eqn:E; [|discriminate].
  exists rule. split; [reflexivity|].
  apply (lastGhostRule_name rules None); [discriminate|exact E].
Qed.

End DispatchFacts.

(* ------------------------------------------------------------------ *)
(** *** The driver: the gh-ost decision and its dry run                 *)
(* ------------------------------------------------------------------ *)

Section GhostFacts.
Import ast driverV2 rulepkg mysql.
Variable W : World.t.

Lemma cnf_fold_advices (reasons : list string) (i : Driver W) :
  MysqlDriverImpl.cnf
    (fold_left
       (fun i reason =>
          setResult W (Add (MysqlDriverImpl.result i) RuleLevelNotice
                         (World.ConfigOptimizeIndexEnabled W) (AdviceReason reason)) i)
       reasons i)
  = MysqlDriverImpl.cnf i.
Proof.
  revert i. induction reasons as [|r rs IH]; intros i; [reflexivity|].
  simpl. rewrite IH. reflexivity.
Qed.

Lemma ruleDispatch_cnf (node : Node) (i : Driver W) :
  MysqlDriverImpl.cnf (fst (ruleDispatch W node i)) = MysqlDriverImpl.cnf i.
Proof.
  unfold ruleDispatch, dbind, gets.
  destruct (ruleLoop_spec W node (MysqlDriverImpl.rules i) None i)
    as (g & evs & added & _ & _ & _ & C & _).
  exact C.
Qed.

(** C2 (amended): for an ALTER TABLE statement audited with a configured
    threshold T and a resolved table size S (as converted to int64), the
    gh-ost path is taken iff S > T.  When it is taken, with the gh-ost rule
    among the rules of the audit, a failed dry run adds an error-level
    finding that carries the error, a successful one adds a finding at the
    level of the gh-ost rule, and in both cases the dry run does not end
    the audit: the audit goes on to its last stage, and returns the result
    set with the finding unless that stage fails. *)
Theorem ghost_decision_and_dry_run
    (sql : string) (stmt : AlterTableStmt.t) (rest : list Node) (i : Driver W)
    (ctx1 : World.Context W) (size : World.TableSize W) (g : Rule.t) :
  World.ParseSql W sql = Ok (NAlterTable stmt :: rest) ->
  Config.DDLGhostMinSize (MysqlDriverImpl.cnf i) <> -1 ->
  World.GetTableSize W (MysqlDriverImpl.Ctx i) (AlterTableStmt.Table stmt)
  = (ctx1, Ok size) ->
  let T := Config.DDLGhostMinSize (MysqlDriverImpl.cnf i) in
  let S := World.int64_of_size W size in
  let schema := World.GetSchemaName W ctx1 (AlterTableStmt.Table stmt) in
  let finding :=
    match World.ghostExecute W schema sql true with
    | Some err =>
        AuditResult.mk RuleLevelError (Rule.Name g)
          (GhostDryRunError T (ErrWrap err "dry-run gh-ost")) None
    | None =>
        AuditResult.mk (Rule.Level g) (Rule.Name g) (GhostDryRunNotice T) None
    end in
  onlineddlWithGhost W sql i = (setCtx W ctx1 i, Ok (T <? S))
  /\ (S <= T -> ghostDryRun W sql (Some g) i = (setCtx W ctx1 i, Ok tt))
  /\ (T < S ->
      ghostDryRun W sql (Some g) i
      = (setResult W
           (AuditResults.mk
              (AuditResults.Results (MysqlDriverImpl.result i) ++ [finding]))
           (record W (EvGhost schema sql true) (setCtx W ctx1 i)),
         Ok tt)
      /\ forall (ctx2 : World.Context W) (r : result (option string)),
           World.generateOSCCommandLine W ctx1 (MysqlDriverImpl.cnf i)
             (NAlterTable stmt) = (ctx2, r) ->
           oscAborts W r = false ->
           exists (i' : Driver W) (rs : AuditResults.t),
             dbind W (ghostDryRun W sql (Some g))
               (fun _ => finish W (NAlterTable stmt)) i = (i', Ok rs)
             /\ In finding (AuditResults.Results rs)).
Proof.
  intros HP HT HS T S schema finding.
  assert (HD : onlineddlWithGhost W sql i = (setCtx W ctx1 i, Ok (T <? S))).
  { unfold onlineddlWithGhost, dbind, gets, dwrapErr, ParseSql, lift, first, dret.
    fold T. destruct (T =? -1) eqn:E; [apply Z.eqb_eq in E; contradiction|].
    rewrite HP. simpl. rewrite HS. reflexivity. }
  assert (HG : forall b, (T <? S) = b ->
            ghostDryRun W sql (Some g) i
            = if b
              then (setResult W
                      (AuditResults.mk
                         (AuditResults.Results (MysqlDriverImpl.result i) ++ [finding]))
                      (record W (EvGhost schema sql true) (setCtx W ctx1 i)),
                    Ok tt)
              else (setCtx W ctx1 i, Ok tt)).
  { intros b Hb. unfold ghostDryRun.
    unfold dbind at 1. unfold dwrapErr. rewrite HD, Hb.
    destruct b; [|reflexivity].
    unfold executeByGhost, attempt, dbind, gets, modify, dwrapErr, ParseSql, lift,
      first, dret, dfail, addResult.
    rewrite HP. simpl. fold schema. subst finding.
    destruct (World.ghostExecute W schema sql true); reflexivity. }
  split; [exact HD|]. split.
  - intros H. apply (HG false). now apply Z.ltb_ge.
  - intros H. apply Z.ltb_lt in H. specialize (HG true H). cbv iota in HG.
    split; [exact HG|].
    intros ctx2 r HO HA. unfold dbind at 1. rewrite HG.
    unfold finish, dbind, gets, modify, dret, addResult, IsExecutedSQL. simpl.
    rewrite HO.
    assert (HA' : match r with
                  | Err e => World.IsParseShowCreateTableContentErr W e = true
                  | Panic => False
                  | Ok _ => True
                  end).
    { destruct r as [c|e|]; simpl in HA; try discriminate; auto.
      now apply negb_false_iff in HA. }
    clear HA.
    destruct r as [[cmd|]|e|]; try contradiction; try rewrite HA'; simpl;
      (destruct (Config.isExecutedSQL (MysqlDriverImpl.cnf i)); simpl;
       eexists _, _; (split; [reflexivity|]); simpl;
       repeat (apply in_or_app; first [now (right; left) | left])).
Qed.

(** Lines 430-459 are where [audit] ends up once the statement is parsed
    and pre-validated: rule dispatch and the index advisor return no
    error. *)
Lemma audit_after_preValidate (sql : string) (i i1 : Driver W) (node0 : Node) :
  preValidate W sql i = (i1, Ok node0) ->
  exists i3 : Driver W,
    audit W sql i
    = dbind W (ghostDryRun W sql (lastGhostRule W (MysqlDriverImpl.rules i1) None))
        (fun _ => finish W node0) i3
    /\ MysqlDriverImpl.cnf i3 = MysqlDriverImpl.cnf i1.
Proof.
  intros HP. unfold audit. unfold dbind at 1. rewrite HP.
  unfold dbind at 1.
  pose proof (ruleDispatch_ghostRule W node0 i1) as HG.
  pose proof (ruleDispatch_cnf node0 i1) as HC.
  destruct (ruleDispatch W node0 i1) as [i2 r2]. simpl in HG, HC. subst r2.
  unfold dbind at 1. unfold optimizePass, dbind, gets, modify, dret.
  destruct (Config.optimizeIndexEnabled (MysqlDriverImpl.cnf i2)).
  - destruct (World.optimize W (MysqlDriverImpl.Ctx i2) node0
                (Config.compositeIndexMaxColumn (MysqlDriverImpl.cnf i2)))
      as [ctx advices].
    eexists. split; [reflexivity|]. rewrite <- HC.
    simpl fst. rewrite cnf_fold_advices. reflexivity.
  - eexists. split; [reflexivity|]. exact HC.
Qed.

End GhostFacts.

(* ------------------------------------------------------------------ *)
(** *** Rule SQLE00063: renaming an index                               *)
(* ------------------------------------------------------------------ *)

Section Rule63Facts.
Import ast driverV2 rulepkg ai.
Variable Context : Type.
Variable env : Env.t Context.

Lemma equalFoldRunes_refl (reaches : Z -> Z -> bool) (l : list Z) :
  equalFoldRunes reaches l l = true.
Proof.
  induction l as [|r l IH]; [reflexivity|].
  simpl. unfold equalFoldRune. now rewrite Z.eqb_refl.
Qed.

Lemma EqualFold_refl (reaches : Z -> Z -> bool) (s : string) :
  EqualFold reaches s s = true.
Proof. apply equalFoldRunes_refl. Qed.

Lemma renameIndexLoop_spec (rule : Rule.t) (tableName oldIdxname newIdxname : string)
    (constraintUniqs : list Constraint.t) :
  renameIndexLoop Context env rule tableName oldIdxname newIdxname constraintUniqs
  = if existsb (misfits Context env tableName newIdxname) constraintUniqs
    then Some (AddResult rule SQLE00063)
    else None.
Proof.
  induction constraintUniqs as [|c cs IH]; [reflexivity|].
  simpl. rewrite EqualFold_refl. fold (misfits Context env tableName newIdxname c).
  destruct (misfits Context env tableName newIdxname c); [reflexivity|exact IH].
Qed.


End Rule63Facts.

(* ------------------------------------------------------------------ *)
(** *** The properties at work on the sample session                    *)
(* ------------------------------------------------------------------ *)

Section AuditWitnesses.
Import ast driverV2 rulepkg mysql SampleAudit.

Lemma Audit_rejects_empty_sql_witness :
  Audit (world None (Ok None)) [Sample.select_all; ""] fresh
  = (fresh, Return None (Some (ErrNew "has empty sql"))).
Proof.
  apply (Audit_rejects_empty_sql (world None (Ok None)) [Sample.select_all; ""] fresh).
  simpl. auto.
Defined.

Lemma Audit_stops_at_first_failure_witness :
  Audit (world None (Ok None)) [alter_small; "SELEC"; Sample.select_all] fresh
  = (after_selec, Return None (Some syntax_error))
  /\ audited (MysqlDriverImpl.calls after_selec) = [alter_small; "SELEC"].
Proof.
  apply (Audit_stops_at_first_failure (world None (Ok None))
           [alter_small] [Sample.select_all] "SELEC" fresh after_small after_selec
           [AuditResults.mk [boom]] syntax_error).
  - simpl. intros [H|[H|[H|[]]]]; discriminate H.
  - vm_compute. reflexivity.
  - vm_compute. reflexivity.
Defined.

Lemma ghost_decision_and_dry_run_witness :
  onlineddlWithGhost (world (Some (ErrNew "gh-ost: no replica")) (Ok None))
    alter_big fresh
  = (fresh, Ok true)
  /\ onlineddlWithGhost (world (Some (ErrNew "gh-ost: no replica")) (Ok None))
       alter_small fresh
     = (fresh, Ok false)
  /\ ghostDryRun (world (Some (ErrNew "gh-ost: no replica")) (Ok None))
       alter_big (Some ghostRule) fresh
     = (MysqlDriverImpl.mk tt cnf rules
          (AuditResults.mk
             [AuditResult.mk RuleLevelError "ddl_ghost_min_size"
                (GhostDryRunError 10
                   (ErrWrap (ErrNew "gh-ost: no replica") "dry-run gh-ost")) None])
          false false [EvGhost "db" alter_big true],
        Ok tt)
  /\ ghostDryRun (world None (Ok None)) alter_big (Some ghostRule) fresh
     = (MysqlDriverImpl.mk tt cnf rules
          (AuditResults.mk
             [AuditResult.mk RuleLevelNormal "ddl_ghost_min_size"
                (GhostDryRunNotice 10) None])
          false false [EvGhost "db" alter_big true],
        Ok tt).
Proof.
  assert (T : Config.DDLGhostMinSize (MysqlDriverImpl.cnf fresh) <> -1)
    by (simpl; lia).
  split; [|split; [|split]].
  - exact (proj1 (ghost_decision_and_dry_run
                    (world (Some (ErrNew "gh-ost: no replica")) (Ok None))
                    alter_big alter_big_stmt [] fresh tt 100 ghostRule
                    eq_refl T eq_refl)).
  - exact (proj1 (ghost_decision_and_dry_run
                    (world (Some (ErrNew "gh-ost: no replica")) (Ok None))
                    alter_small alter_small_stmt [] fresh tt 10 ghostRule
                    eq_refl T eq_refl)).
  - refine (proj1 (proj2 (proj2 (ghost_decision_and_dry_run
                    (world (Some (ErrNew "gh-ost: no replica")) (Ok None))
                    alter_big alter_big_stmt [] fresh tt 100 ghostRule
                    eq_refl T eq_refl)) _)).
    simpl. lia.
  - refine (proj1 (proj2 (proj2 (ghost_decision_and_dry_run
                    (world None (Ok None))
                    alter_big alter_big_stmt [] fresh tt 100 ghostRule
                    eq_refl T eq_refl)) _)).
    simpl. lia.
Defined.


(** C2 as stated fails: with a table above the threshold and a successful
    dry run, the audit still returns an error when the pt-osc command line
    cannot be generated. *)
Lemma dry_run_then_osc_failure_aborts :
  snd (audit (world None (Err (ErrNew "get create table stmt"))) alter_big fresh_osc)
  = Err (ErrNew "get create table stmt")
  /\ In (EvGhost "db" alter_big true)
        (MysqlDriverImpl.calls
           (fst (audit (world None (Err (ErrNew "get create table stmt")))
                   alter_big fresh_osc)))
  /\ ~ dry_run_audit_always_returns (world None (Err (ErrNew "get create table stmt"))).
Proof.
  split; [reflexivity|].
  assert (I : In (EvGhost "db" alter_big true)
                (MysqlDriverImpl.calls
                   (fst (audit (world None (Err (ErrNew "get create table stmt")))
                           alter_big fresh_osc)))).
  { vm_compute. repeat (first [left; reflexivity | right]). }
  split; [exact I|].
  intros H. destruct (H alter_big "db" fresh_osc eq_refl I) as [rs Hrs].
  vm_compute in Hrs. discriminate Hrs.
Qed.

(** C6 as stated fails: the first statement of the batch is audited and
    has a result, the second does not parse, and Audit returns the error
    with nil, not with the result of the first. *)
Lemma failed_batch_returns_no_results :
  Audit (world None (Ok None)) [alter_small] fresh
  = (after_small, Return (Some [AuditResults.mk [boom]]) None)
  /\ audit (world None (Ok None)) "SELEC" after_small = (after_selec, Err syntax_error)
  /\ Audit (world None (Ok None)) [alter_small; "SELEC"] fresh
     = (after_selec, Return None (Some syntax_error))
  /\ ~ partial_results_on_failure (world None (Ok None)).
Proof.
  assert (H1 : Audit (world None (Ok None)) [alter_small] fresh
               = (after_small, Return (Some [AuditResults.mk [boom]]) None))
    by (vm_compute; reflexivity).
  assert (H2 : audit (world None (Ok None)) "SELEC" after_small
               = (after_selec, Err syntax_error))
    by (vm_compute; reflexivity).
  assert (H3 : Audit (world None (Ok None)) [alter_small; "SELEC"] fresh
               = (after_selec, Return None (Some syntax_error)))
    by (vm_compute; reflexivity).
  repeat split; auto.
  intros H.
  assert (N : ~ In "" ([alter_small] ++ ["SELEC"])%list).
  { simpl. intros [Q|[Q|[]]]; discriminate Q. }
  specialize (H [alter_small] [] "SELEC" fresh after_small after_selec
                [AuditResults.mk [boom]] syntax_error N H1 H2).
  simpl app in H. rewrite H3 in H. discriminate H.
Qed.

End AuditWitnesses.

(* ================================================================== *)
(** ** Further properties                                               *)
(* ================================================================== *)

(* ------------------------------------------------------------------ *)
(** *** IsIndex                                                         *)
(* ------------------------------------------------------------------ *)

Section IsIndexFacts.
Import ast util.
Variable L : string -> string.

Lemma inColumnMap_In (columnMap : list string) (name : string) :
  inColumnMap columnMap name = true <-> In name columnMap.
Proof.
  unfold inColumnMap. rewrite existsb_exists. split.
  - intros (x & I & E). apply String.eqb_eq in E. now subst.
  - intros I. exists name. split; [exact I|apply String.eqb_refl].
Qed.

Lemma matchCount_le (columnMap : list string) (keys : list IndexPartSpecification.t) :
  (matchCount L columnMap keys <= List.length keys)%nat.
Proof.
  induction keys as [|k ks IH]; simpl; [lia|].
  destruct (inColumnMap columnMap (keyL L k)); simpl; lia.
Qed.

(** The keys counted are in the map. *)
Lemma matchCount_incl (columnMap : list string) (keys : list IndexPartSpecification.t) :
  incl (firstn (matchCount L columnMap keys) (map (keyL L) keys)) columnMap.
Proof.
  induction keys as [|k ks IH]; simpl; [intros x []|].
  destruct (inColumnMap columnMap (keyL L k)) eqn:E; simpl; [|intros x []].
  intros x [<-|I]; [now apply inColumnMap_In|now apply IH].
Qed.

(** Counting goes at least as far as the keys are in the map. *)
Lemma matchCount_ge (columnMap : list string) (keys : list IndexPartSpecification.t)
    (n : nat) :
  (n <= List.length keys)%nat ->
  incl (firstn n (map (keyL L) keys)) columnMap ->
  (n <= matchCount L columnMap keys)%nat.
Proof.
  revert n. induction keys as [|k ks IH]; intros n Hn Hi; simpl in *; [lia|].
  destruct n as [|n]; [lia|]. simpl in Hi.
  assert (E : inColumnMap columnMap (keyL L k) = true).
  { apply inColumnMap_In. apply Hi. now left. }
  rewrite E. apply le_n_S, IH; [lia|].
  intros x I. apply Hi. now right.
Qed.

Lemma NoDup_firstn {A} (n : nat) (l : list A) : NoDup l -> NoDup (firstn n l).
Proof.
  revert n. induction l as [|a l IH]; intros n H; destruct n; simpl;
    try constructor.
  - inversion H as [|? ? Ha Hl]; subst. intros I. apply Ha.
    revert I. clear. revert n. induction l as [|b l IH]; intros n I;
      destruct n; simpl in *; try contradiction.
    destruct I as [->|I]; [now left|right; eauto].
  - inversion H; subst. now apply IH.
Qed.

Lemma matchCount_leading (columnMap : list string) (constraint : Constraint.t) :
  NoDup (map (keyL L) (Constraint.Keys constraint)) ->
  (List.length columnMap <= List.length (Constraint.Keys constraint))%nat ->
  (matchCount L columnMap (Constraint.Keys constraint) = List.length columnMap
   <-> leadingColumns L columnMap constraint).
Proof.
  intros ND Hlen. unfold leadingColumns.
  set (keys := Constraint.Keys constraint) in *.
  set (N := List.length columnMap) in *.
  pose proof (matchCount_incl columnMap keys) as HI.
  pose proof (matchCount_le columnMap keys) as HL.
  split.
  - intros E. split; [exact Hlen|]. rewrite E in HI. intros name. split.
    + revert name. apply NoDup_length_incl; [now apply NoDup_firstn| |exact HI].
      rewrite length_firstn, length_map. fold keys. lia.
    + apply HI.
  - intros [_ H].
    assert (G : (N <= matchCount L columnMap keys)%nat).
    { apply matchCount_ge; [exact Hlen|]. intros x I. now apply H. }
    assert (U : (matchCount L columnMap keys <= N)%nat).
    { pose proof (NoDup_incl_length (NoDup_firstn (matchCount L columnMap keys) _ ND) HI)
        as Q.
      rewrite length_firstn, length_map in Q. fold keys in Q. unfold N. lia. }
    lia.
Qed.

Lemma IsIndex_loop_exists (columnMap : list string) (constraints : list Constraint.t) :
  IsIndex_loop L columnMap constraints = true
  <-> exists constraint,
        In constraint constraints
        /\ (List.length columnMap <= List.length (Constraint.Keys constraint))%nat
        /\ matchCount L columnMap (Constraint.Keys constraint) = List.length columnMap.
Proof.
  induction constraints as [|c cs IH]; simpl.
  - split; [discriminate|intros (c & [] & _)].
  - destruct (Nat.ltb_spec (List.length (Constraint.Keys c)) (List.length columnMap))
      as [Lt|Ge].
    + rewrite IH. split.
      * intros (x & I & H). exists x. split; [now right|exact H].
      * intros (x & [<-|I] & H1 & H2); [lia|]. exists x. auto.
    + destruct (Nat.eqb_spec (matchCount L columnMap (Constraint.Keys c))
                  (List.length columnMap)) as [E|NE].
      * split; [|reflexivity]. intros _. exists c. split; [now left|auto].
      * rewrite IH. split.
        -- intros (x & I & H). exists x. split; [now right|exact H].
        -- intros (x & [<-|I] & H1 & H2); [contradiction|]. exists x. auto.
Qed.

(** X1: for constraints whose key columns are all different, IsIndex
    answers true exactly when the column set is not empty and is the set of
    the leading key columns of one of the constraints. *)
Theorem IsIndex_leading_columns
    (columnMap : list string) (constraints : list Constraint.t) :
  (forall constraint, In constraint constraints ->
                      NoDup (map (keyL L) (Constraint.Keys constraint))) ->
  (IsIndex L columnMap constraints = true
   <-> columnMap <> []
       /\ exists constraint,
            In constraint constraints /\ leadingColumns L columnMap constraint).
Proof.
  intros ND. unfold IsIndex.
  destruct columnMap as [|c0 cols].
  - simpl. split; [discriminate|intros [H _]; now contradiction H].
  - simpl Nat.eqb. cbv iota. rewrite IsIndex_loop_exists. split.
    + intros (c & I & Hlen & E). split; [discriminate|].
      exists c. split; [exact I|]. now apply matchCount_leading; auto.
    + intros (_ & c & I & H). exists c. split; [exact I|].
      split; [apply H|]. apply matchCount_leading; auto. apply H.
Qed.

(** X2: IsIndex looks at the constraints one by one: over two lists put
    together it is the disjunction of its answers over each; and it is
    false for an empty column set and for no constraint at all. *)
Theorem IsIndex_app
    (columnMap : list string) (constraints more : list Constraint.t) :
  IsIndex L columnMap (constraints ++ more)
  = IsIndex L columnMap constraints || IsIndex L columnMap more
  /\ IsIndex L [] constraints = false
  /\ IsIndex L columnMap [] = false.
Proof.
  split; [|split].
  - unfold IsIndex. destruct (Nat.eqb (List.length columnMap) 0); [reflexivity|].
    induction constraints as [|c cs IH]; simpl; [reflexivity|].
    destruct (Nat.ltb _ _); [exact IH|].
    destruct (Nat.eqb _ _); [reflexivity|exact IH].
  - reflexivity.
  - unfold IsIndex. destruct (Nat.eqb _ _); reflexivity.
Qed.

End IsIndexFacts.

Section IsIndexWitness.
Import ast util SampleAudit.

Lemma IsIndex_leading_columns_witness :
  ["b"; "a"] <> []
  /\ exists constraint,
       In constraint [Constraint.mk ConstraintIndex "k" [key "A"; key "b"; key "c"]]
       /\ leadingColumns ToLower ["b"; "a"] constraint.
Proof.
  apply (IsIndex_leading_columns ToLower ["b"; "a"]
           [Constraint.mk ConstraintIndex "k" [key "A"; key "b"; key "c"]]).
  - intros c [<-|[]]. simpl.
    repeat constructor; simpl; intuition discriminate.
  - reflexivity.
Defined.

End IsIndexWitness.

(* ------------------------------------------------------------------ *)
(** *** The estimator: what goes to the database, and how it fails      *)
(* ------------------------------------------------------------------ *)

Section EstimatorMore.
Import ast executor util.
Variable P : Parser.t.

Lemma liveCalls_app (l1 l2 : list Event) :
  liveCalls (l1 ++ l2) = (liveCalls l1 ++ liveCalls l2)%list.
Proof. apply filter_app. Qed.

Lemma rewriteToCount_liveCalls (originSql : string) :
  liveCalls (trace (rewriteToCount P originSql)) = [].
Proof.
  pose proof (rewriteToCount_quiet P originSql) as Q.
  unfold liveCalls. induction (trace (rewriteToCount P originSql)) as [|ev tr IH];
    [reflexivity|].
  simpl. rewrite (Q ev) by now left. apply IH. intros e I. apply Q. now right.
Qed.

(** X3: GetAffectedRowNum sends the database at most one EXPLAIN and at
    most one query, in that order, both for the rewritten statement; there
    is no query without the plan before it. *)
Theorem GetAffectedRowNum_live_calls
    (originSql : string) (conn : Executor.t)
    (explain : string -> result (list ExplainRecord.t)) :
  liveCalls (trace (GetAffectedRowNum P originSql conn explain)) = []
  \/ exists o sql,
       outcome (rewriteToCount P originSql) = Ok (inr (o, sql))
       /\ (liveCalls (trace (GetAffectedRowNum P originSql conn explain))
           = [EvExplain sql]
           \/ liveCalls (trace (GetAffectedRowNum P originSql conn explain))
              = [EvExplain sql; EvQuery sql]).
Proof.
  rewrite GetAffectedRowNum_unfold.
  pose proof (rewriteToCount_liveCalls originSql) as Q.
  destruct (rewriteToCount P originSql) as [tr [[n|[o sql]]|e|]];
    unfold trace in *; simpl in *; auto.
  rewrite liveCalls_app, Q, estimate_unfold. simpl.
  destruct (Parser.ParseOneSql P sql) as [node|e|]; simpl; auto.
  destruct (IsSelectOnlyIncludeCountFunc node); simpl; auto.
  right. exists o, sql. split; [reflexivity|].
  destruct (explain sql) as [recs|e|]; simpl; auto.
  destruct (anyFullScan recs || (100000 <? wrap64 (sumRows recs))); simpl; auto.
Qed.

(** X4: once the rewritten statement is validated, every later failure
    names it: a failing EXPLAIN gives the execution-plan error and no query
    is sent; a failing count query gives the affected-rows error; a first
    cell that is not a decimal int64 gives the error of ParseInt; and a
    first row without a cell makes the function panic. *)
Theorem GetAffectedRowNum_failures
    (originSql : string) (conn : Executor.t)
    (explain : string -> result (list ExplainRecord.t)) (o sql : string) :
  outcome (rewriteToCount P originSql) = Ok (inr (o, sql)) ->
  outcome (checkSql P sql) = Ok tt ->
  (forall e, explain sql = Err e ->
     GetAffectedRowNum P originSql conn explain
     = ((trace (rewriteToCount P originSql)
         ++ [EvParseOneSql sql; EvExplain sql])%list,
        Err (ErrExecutionPlan sql e)))
  /\ (forall recs,
        explain sql = Ok recs ->
        anyFullScan recs = false ->
        wrap64 (sumRows recs) <= 100000 ->
        (forall e, Executor.QueryWithContext conn sql = Err e ->
           outcome (GetAffectedRowNum P originSql conn explain)
           = Err (ErrAffectedRows sql e))
        /\ (forall cell rest rows e,
              Executor.QueryWithContext conn sql = Ok ((cell :: rest) :: rows) ->
              ParseInt (NullString.String_ cell) = Err e ->
              outcome (GetAffectedRowNum P originSql conn explain) = Err e)
        /\ (forall rows,
              Executor.QueryWithContext conn sql = Ok ([] :: rows) ->
              outcome (GetAffectedRowNum P originSql conn explain) = Panic)).
Proof.
  intros HR HC. rewrite GetAffectedRowNum_unfold.
  destruct (rewriteToCount P originSql) as [tr r]. simpl in HR. subst r.
  rewrite estimate_unfold. rewrite checkSql_unfold in HC. simpl in HC.
  destruct (Parser.ParseOneSql P sql) as [node|e|]; try discriminate.
  destruct (IsSelectOnlyIncludeCountFunc node); try discriminate.
  split.
  - intros e HE. rewrite HE. reflexivity.
  - intros recs HE HA HS. rewrite HE, HA.
    assert (D : (100000 <? wrap64 (sumRows recs)) = false) by now apply Z.ltb_ge.
    rewrite D. simpl.
    unfold liveCount, bind, call, wrapErr, ret, panic.
    repeat split.
    + intros e HQ. now rewrite HQ.
    + intros cell rest rows e HQ HN. rewrite HQ. simpl. now rewrite HN.
    + intros rows HQ. now rewrite HQ.
Qed.

Lemma TrimRight_semicolons_spec (s : string) :
  exists k, s = TrimRight s ";" ++ semicolons k
            /\ lastByte (TrimRight s ";") <> Some ";"%char.
Proof.
  induction s as [|a s (k & E & Hl)].
  - exists O. split; [reflexivity|discriminate].
  - simpl. destruct (TrimRight s ";") as [|b t] eqn:T.
    + simpl in E. destruct (Ascii.eqb a ";") eqn:A; simpl.
      * apply Ascii.eqb_eq in A. subst a.
        exists (S k). split; [simpl; now f_equal|discriminate].
      * exists k. split; [simpl; now f_equal|].
        intros Q. injection Q as ->. now rewrite Ascii.eqb_refl in A.
    + exists k. split; [simpl; now f_equal|exact Hl].
Qed.

(** X5: when the statement cannot be converted, the counting statement
    is the wrapper around the original text without its trailing
    semicolons: all of them are dropped, and nothing else. *)
Theorem buildAffectedRowSql_wraps_trimmed
    (newNode : option SelectStmt.t) (originSql : string) :
  exists (body : string) (k : nat),
    buildAffectedRowSql P newNode true originSql
    = ret ("select count(*) from (" ++ body ++ ") as t")
    /\ originSql = body ++ semicolons k
    /\ lastByte body <> Some ";"%char.
Proof.
  destruct (TrimRight_semicolons_spec originSql) as (k & E & Hl).
  exists (TrimRight originSql ";"), k. split; [reflexivity|]. split; assumption.
Qed.

End EstimatorMore.

Section EstimatorMoreWitnesses.
Import ast executor util Sample.

Lemma GetAffectedRowNum_failures_witness :
  GetAffectedRowNum parser select_all (answering "7")
    (fun _ => Err (ErrNew "connection refused"))
  = ([EvParseOneSql select_all;
      EvRestore (getSelectNodeFromSelect select_all_stmt);
      EvParseOneSql "SELECT COUNT(1) FROM `t`";
      EvExplain "SELECT COUNT(1) FROM `t`"],
     Err (ErrExecutionPlan "SELECT COUNT(1) FROM `t`" (ErrNew "connection refused"))).
Proof.
  exact (proj1 (GetAffectedRowNum_failures parser select_all (answering "7")
                  (fun _ => Err (ErrNew "connection refused"))
                  select_all "SELECT COUNT(1) FROM `t`" eq_refl eq_refl)
               (ErrNew "connection refused") eq_refl).
Defined.

End EstimatorMoreWitnesses.

(* ------------------------------------------------------------------ *)
(** *** Rule SQLE00063: the other branches                              *)
(* ------------------------------------------------------------------ *)

Section Rule63More.
Import ast driverV2 rulepkg ai.
Variable Context : Type.
Variable env : Env.t Context.

Lemma checkSpec_cases (ctx : Context) (rule : Rule.t) (table : TableName.t)
    (spec : AlterTableSpec.t) :
  snd (checkSpec Context env ctx rule table spec) = None
  \/ snd (checkSpec Context env ctx rule table spec) = Some []
  \/ snd (checkSpec Context env ctx rule table spec)
     = Some [AddResult rule SQLE00063].
Proof.
  unfold checkSpec.
  destruct (AlterTableSpec.Tp spec); simpl; auto.
  - destruct (AlterTableSpec.Constraint spec) as [c|]; simpl; auto.
    destruct (ConstraintType_eqb _ _); simpl; auto.
    destruct (isIndexNameViolate _ _ _ _ _); simpl; auto.
  - destruct (Env.GetCreateTableStmt env ctx table) as [ctx' [ct|e]]; simpl; auto.
    destruct (Env.GetTableConstraints env _ _) as [|c cs]; [simpl; auto|].
    rewrite renameIndexLoop_spec.
    destruct (existsb _ _); simpl; auto.
Qed.

Lemma specsLoop_cases (rule : Rule.t) (table : TableName.t)
    (specs : list AlterTableSpec.t) (ctx : Context) :
  snd (specsLoop Context env ctx rule table specs) = []
  \/ snd (specsLoop Context env ctx rule table specs) = [AddResult rule SQLE00063].
Proof.
  revert ctx. induction specs as [|spec rest IH]; intros ctx; simpl; auto.
  destruct (checkSpec_cases ctx rule table spec) as [H|[H|H]];
    destruct (checkSpec Context env ctx rule table spec) as [ctx' [added|]];
    simpl in H; try discriminate; try (injection H as ->); simpl; auto.
Qed.

Lemma createTableLoop_spec (rule : Rule.t) (tableName : string)
    (constraints : list Constraint.t) :
  createTableLoop Context env rule tableName constraints
  = if existsb (misnamed Context env tableName) constraints
    then [AddResult rule SQLE00063] else [].
Proof.
  induction constraints as [|c cs IH]; [reflexivity|]. simpl.
  fold (misnamed Context env tableName c).
  destruct (misnamed Context env tableName c); [reflexivity|exact IH].
Qed.

(** X6: whatever the statement, RuleSQLE00063 returns no error and adds
    at most one finding, the one of SQLE00063 at the level of the rule;
    and for every statement but ALTER TABLE it returns the session context
    it was given. *)
Theorem RuleSQLE00063_outcome (input : RuleHandlerInput.t Context) :
  HandlerOutcome.Err_ (RuleSQLE00063 Context env input) = None
  /\ (HandlerOutcome.Added (RuleSQLE00063 Context env input) = []
      \/ HandlerOutcome.Added (RuleSQLE00063 Context env input)
         = [AddResult (RuleHandlerInput.Rule input) SQLE00063])
  /\ match RuleHandlerInput.Node input with
     | NAlterTable _ => True
     | _ => HandlerOutcome.Ctx (RuleSQLE00063 Context env input)
            = RuleHandlerInput.Ctx input
     end.
Proof.
  destruct input as [ctx rule res node]. unfold RuleSQLE00063. simpl.
  destruct node as [s|u|i|u|d|a|ci|ct|t]; simpl; auto.
  - pose proof (specsLoop_cases rule (AlterTableStmt.Table a)
                  (AlterTableStmt.Specs a) ctx) as H.
    destruct (specsLoop Context env ctx rule _ _) as [ctx' added]. simpl in *. auto.
  - destruct (CreateIndexStmt.KeyType ci); simpl; auto.
    destruct (isIndexNameViolate _ _ _ _ _); simpl; auto.
  - rewrite createTableLoop_spec. destruct (existsb _ _); simpl; auto.
Qed.

Lemma specsLoop_add_only (rule : Rule.t) (table : TableName.t)
    (specs : list AlterTableSpec.t) (ctx : Context) :
  forallb (fun spec => negb (isRenameIndex spec)) specs = true ->
  specsLoop Context env ctx rule table specs
  = (ctx, if existsb (misnamedAdd Context env (TableName.Name table)) specs
          then [AddResult rule SQLE00063] else []).
Proof.
  induction specs as [|spec rest IH]; intros H; [reflexivity|].
  simpl in H. apply andb_true_iff in H as [H1 H2].
  simpl. unfold checkSpec, misnamedAdd, isRenameIndex, misnamed in *.
  destruct (AlterTableSpec.Tp spec); simpl in *; try discriminate;
    try (apply IH; exact H2).
  destruct (AlterTableSpec.Constraint spec) as [c|]; simpl; [|apply IH; exact H2].
  destruct (ConstraintType_eqb _ _); simpl; [|apply IH; exact H2].
  destruct (isIndexNameViolate _ _ _ _ _); simpl; [reflexivity|apply IH; exact H2].
Qed.

(** X7: for an ALTER TABLE without RENAME INDEX the rule reports the
    statement exactly when one of its ADD CONSTRAINT parts adds a unique
    constraint whose name is not IDX_UK_<table>_<columns>; it never asks
    the session for the table and returns the context it was given. *)
Theorem RuleSQLE00063_alter_without_rename
    (ctx : Context) (rule : Rule.t) (res : AuditResults.t)
    (table : TableName.t) (specs : list AlterTableSpec.t) :
  forallb (fun spec => negb (isRenameIndex spec)) specs = true ->
  RuleSQLE00063 Context env
    (RuleHandlerInput.mk ctx rule res (NAlterTable (AlterTableStmt.mk table specs)))
  = HandlerOutcome.mk ctx
      (if existsb (misnamedAdd Context env (TableName.Name table)) specs
       then [AddResult rule SQLE00063] else [])
      None.
Proof.
  intros H. unfold RuleSQLE00063. simpl.
  now rewrite (specsLoop_add_only rule table specs ctx H).
Qed.

(** X8: when a RENAME INDEX part is reached and the table cannot be
    resolved, or has no unique constraint, the rule returns at once without
    a finding: the parts that follow it are not looked at, whatever they
    add. *)
Theorem RuleSQLE00063_rename_ends_the_check
    (ctx ctx' : Context) (rule : Rule.t) (res : AuditResults.t)
    (table : TableName.t) (spec : AlterTableSpec.t) (rest : list AlterTableSpec.t) :
  AlterTableSpec.Tp spec = AlterTableRenameIndex ->
  (exists err, Env.GetCreateTableStmt env ctx table = (ctx', inr err))
  \/ (exists createTable,
        Env.GetCreateTableStmt env ctx table = (ctx', inl createTable)
        /\ Env.GetTableConstraints env (CreateTableStmt.Constraints createTable)
             [ConstraintUniq] = []) ->
  RuleSQLE00063 Context env
    (RuleHandlerInput.mk ctx rule res
       (NAlterTable (AlterTableStmt.mk table (spec :: rest))))
  = HandlerOutcome.mk ctx' [] None.
Proof.
  intros HT H. unfold RuleSQLE00063. simpl. unfold checkSpec. rewrite HT.
  destruct H as [(err & ->)|(ct & -> & HC)]; [reflexivity|].
  rewrite HC. reflexivity.
Qed.

Lemma expectedName_fits (tableName : string) (cols : list string) :
  isIndexNameViolate Context env (expectedName tableName cols) tableName cols = false.
Proof.
  unfold isIndexNameViolate, expectedName. now rewrite EqualFold_refl.
Qed.

(** X9: names of the expected form are never reported: not for a CREATE
    TABLE all of whose unique constraints carry IDX_UK_<table>_<columns>,
    not for a CREATE UNIQUE INDEX of that name; and a CREATE INDEX that is
    not unique is never reported, whatever its name. *)
Theorem RuleSQLE00063_accepts_expected_names
    (ctx : Context) (rule : Rule.t) (res : AuditResults.t) :
  (forall stmt : CreateTableStmt.t,
      (forall constraint,
          In constraint
             (Env.GetTableConstraints env (CreateTableStmt.Constraints stmt)
                [ConstraintUniq]) ->
          Constraint.Name constraint
          = expectedName (TableName.Name (CreateTableStmt.Table stmt))
              (indexedColsOf (Constraint.Keys constraint))) ->
      RuleSQLE00063 Context env (RuleHandlerInput.mk ctx rule res (NCreateTable stmt))
      = HandlerOutcome.mk ctx [] None)
  /\ (forall stmt : CreateIndexStmt.t,
        CreateIndexStmt.KeyType stmt <> IndexKeyTypeUnique
        \/ CreateIndexStmt.IndexName stmt
           = expectedName (TableName.Name (CreateIndexStmt.Table stmt))
               (indexedColsOf (CreateIndexStmt.IndexPartSpecifications stmt)) ->
        RuleSQLE00063 Context env (RuleHandlerInput.mk ctx rule res (NCreateIndex stmt))
        = HandlerOutcome.mk ctx [] None).
Proof.
  split.
  - intros stmt H. unfold RuleSQLE00063. simpl. rewrite createTableLoop_spec.
    destruct (existsb _ _) eqn:E; [|reflexivity].
    apply existsb_exists in E as (c & I & M). unfold misnamed in M.
    rewrite (H c I), expectedName_fits in M. discriminate.
  - intros stmt H. unfold RuleSQLE00063. simpl.
    destruct (CreateIndexStmt.KeyType stmt) eqn:K; try reflexivity.
    destruct H as [H|H]; [now contradiction H|].
    now rewrite H, expectedName_fits.
Qed.

End Rule63More.

(* ------------------------------------------------------------------ *)
(** *** The driver: what an audit keeps                                 *)
(* ------------------------------------------------------------------ *)

Section PreserveFacts.
Import ast driverV2 rulepkg mysql.
Variable W : World.t.
Variable R : Driver W -> Driver W -> Prop.
Hypothesis R_refl : forall i, R i i.
Hypothesis R_trans : forall i j k, R i j -> R j k -> R i k.
Hypothesis R_setCtx : forall ctx i, R i (setCtx W ctx i).
Hypothesis R_setResult : forall rs i, R i (setResult W rs i).
Hypothesis R_invalid : forall i, R i (setHasInvalidSql W true i).
Hypothesis R_audit : forall sql i, R i (record W (EvAudit sql) i).
Hypothesis R_handler : forall rule err i, R i (record W (EvHandler rule err) i).

Lemma preserves_dret {A} (a : A) : preserves W R (dret W a).
Proof. intros i. apply R_refl. Qed.

Lemma preserves_dfail {A} (e : error) : preserves W R (@dfail W A e).
Proof. intros i. apply R_refl. Qed.

Lemma preserves_dpanic {A} : preserves W R (@dpanic W A).
Proof. intros i. apply R_refl. Qed.

Lemma preserves_lift {A} (r : result A) : preserves W R (lift W r).
Proof. intros i. apply R_refl. Qed.

Lemma preserves_gets {A} (f : Driver W -> A) : preserves W R (gets W f).
Proof. intros i. apply R_refl. Qed.

Lemma preserves_modify (f : Driver W -> Driver W) :
  (forall i, R i (f i)) -> preserves W R (modify W f).
Proof. intros H i. apply H. Qed.

Lemma preserves_dbind {A B} (m : D W A) (k : A -> D W B) :
  preserves W R m -> (forall a, preserves W R (k a)) -> preserves W R (dbind W m k).
Proof.
  intros Hm Hk i. unfold dbind. specialize (Hm i).
  destruct (m i) as [i' [a|e|]]; simpl in *; try exact Hm.
  eapply R_trans; [exact Hm|apply Hk].
Qed.

Lemma preserves_dwrapErr {A} (wrap : error -> error) (m : D W A) :
  preserves W R m -> preserves W R (dwrapErr W wrap m).
Proof.
  intros Hm i. unfold dwrapErr. specialize (Hm i).
  destruct (m i) as [i' [a|e|]]; exact Hm.
Qed.

Lemma preserves_attempt {A} (m : D W A) :
  preserves W R m -> preserves W R (attempt W m).
Proof.
  intros Hm i. unfold attempt. specialize (Hm i).
  destruct (m i) as [i' [a|e|]]; exact Hm.
Qed.

Lemma preserves_addResult (level : RuleLevel) (name : string) (msg : Message) :
  preserves W R (addResult W level name msg).
Proof. apply preserves_modify. intros i. apply R_setResult. Qed.

Lemma preserves_check f (node : Node) : preserves W R (check W f node).
Proof.
  intros i. unfold check.
  destruct (f (MysqlDriverImpl.Ctx i) (MysqlDriverImpl.result i) node)
    as [[ctx rs] err]. simpl.
  eapply R_trans; [apply R_setCtx|apply R_setResult].
Qed.

Create HintDb keep.

(** Proves that a method built from the pieces above stays within [R]. *)
Ltac keep :=
  repeat first
    [ solve [auto 1 with keep nocore]
    | apply preserves_dret | apply preserves_dfail | apply preserves_dpanic
    | apply preserves_lift | apply preserves_gets | apply preserves_check
    | apply preserves_addResult
    | apply preserves_dwrapErr | apply preserves_attempt
    | apply preserves_dbind; [|intros ?]
    | match goal with
      | |- preserves _ _ (match ?x with _ => _ end) => destruct x
      | |- preserves _ _ (if ?b then _ else _) => destruct b
      end ].

Lemma preserves_ParseSql (sql : string) : preserves W R (ParseSql W sql).
Proof. unfold ParseSql. keep. Qed.

Lemma preserves_first (nodes : list Node) : preserves W R (first W nodes).
Proof. unfold first. keep. Qed.

#[local] Hint Resolve preserves_ParseSql preserves_first : keep.

Lemma preserves_onlineddlWithGhost (query : string) :
  preserves W R (onlineddlWithGhost W query).
Proof.
  unfold onlineddlWithGhost. keep.
  all: intros i; destruct (World.GetTableSize W _ _); simpl; apply R_setCtx.
Qed.

Lemma preserves_dispatchRule (node : Node) (g : option Rule.t) (rule : Rule.t) :
  preserves W R (dispatchRule W node g rule).
Proof.
  unfold dispatchRule, IsOfflineAudit, IsExecutedSQL. cbv zeta. keep.
  all: apply preserves_modify; intros i;
    first [ apply R_setResult
          | eapply R_trans; [apply R_setCtx|];
            eapply R_trans; [apply R_setResult|]; apply R_handler ].
Qed.

Lemma preserves_ruleLoop (node : Node) (rules : list Rule.t) (g : option Rule.t) :
  preserves W R (ruleLoop W node g rules).
Proof.
  revert g. induction rules as [|rule rest IH]; intros g; simpl.
  - apply preserves_dret.
  - apply preserves_dbind; [apply preserves_dispatchRule|intros g'; apply IH].
Qed.

Lemma preserves_ruleDispatch (node : Node) : preserves W R (ruleDispatch W node).
Proof.
  unfold ruleDispatch. apply preserves_dbind; [apply preserves_gets|].
  intros rules. apply preserves_ruleLoop.
Qed.

Lemma preserves_preValidate (sql : string) : preserves W R (preValidate W sql).
Proof.
  unfold preValidate, IsOfflineAudit, IsExecutedSQL. keep.
  all: apply preserves_modify; intros i;
    first [apply R_setResult | apply R_audit | apply R_invalid].
Qed.

Lemma R_fold_advices (reasons : list string) (i : Driver W) :
  R i (fold_left
         (fun i reason =>
            setResult W (Add (MysqlDriverImpl.result i) RuleLevelNotice
                           (World.ConfigOptimizeIndexEnabled W) (AdviceReason reason)) i)
         reasons i).
Proof.
  revert i. induction reasons as [|r rs IH]; intros i; [apply R_refl|].
  simpl. eapply R_trans; [apply R_setResult|apply IH].
Qed.

Lemma preserves_optimizePass (node : Node) : preserves W R (optimizePass W node).
Proof.
  unfold optimizePass. keep.
  all: first [ apply preserves_modify; intros i; apply R_fold_advices
             | intros i; destruct (World.optimize W _ _ _); simpl; apply R_setCtx ].
Qed.

Lemma preserves_finish (node : Node) : preserves W R (finish W node).
Proof.
  unfold finish, IsExecutedSQL. keep.
  all: first
    [ apply preserves_modify; intros i; apply R_setCtx
    | intros i; destruct (World.generateOSCCommandLine W _ _ _) as [ctx [c|e|]];
      simpl; try apply R_setCtx;
      destruct (World.IsParseShowCreateTableContentErr W e); apply R_setCtx ].
Qed.

(** With the runs of gh-ost allowed too, the whole audit stays within [R]. *)
Hypothesis R_ghost : forall schema query dry i, R i (record W (EvGhost schema query dry) i).

Lemma preserves_executeByGhost (query : string) (dry : bool) :
  preserves W R (executeByGhost W query dry).
Proof.
  unfold executeByGhost. keep.
  all: apply preserves_modify; intros i; apply R_ghost.
Qed.

Lemma preserves_ghostDryRun (sql : string) (g : option Rule.t) :
  preserves W R (ghostDryRun W sql g).
Proof.
  unfold ghostDryRun.
  pose proof preserves_onlineddlWithGhost. pose proof preserves_executeByGhost.
  keep; auto.
Qed.

Lemma preserves_audit (sql : string) : preserves W R (audit W sql).
Proof.
  unfold audit.
  apply preserves_dbind; [apply preserves_preValidate|intros node0].
  apply preserves_dbind; [apply preserves_ruleDispatch|intros g].
  apply preserves_dbind; [apply preserves_optimizePass|intros _].
  apply preserves_dbind; [apply preserves_ghostDryRun|intros _].
  apply preserves_finish.
Qed.

Lemma preserves_auditEach (sqls : list string) (acc : list AuditResults.t)
    (i : Driver W) :
  R i (fst (auditEach W sqls acc i)).
Proof.
  revert acc i. induction sqls as [|sql rest IH]; intros acc i; simpl;
    [apply R_refl|].
  pose proof (preserves_audit sql i) as H.
  destruct (audit W sql i) as [i' [r|e|]]; simpl in H; try exact H.
  eapply R_trans; [exact H|apply IH].
Qed.

Lemma preserves_Audit (sqls : list string) (i : Driver W) :
  R i (fst (Audit W sqls i)).
Proof.
  unfold Audit. destruct (existsb _ sqls); [apply R_refl|apply preserves_auditEach].
Qed.

End PreserveFacts.

(* ------------------------------------------------------------------ *)
(** *** The driver: invariants and outcomes of an audit                 *)
(* ------------------------------------------------------------------ *)

Section AuditInvariants.
Import ast driverV2 rulepkg mysql.
Variable W : World.t.

Lemma ghosts_app (l1 l2 : list Event) :
  ghosts (l1 ++ l2) = (ghosts l1 ++ ghosts l2)%list.
Proof. apply filter_app. Qed.

(** Settles a side condition about the fields that a setter leaves alone. *)
Ltac by_fields :=
  intros; unfold stable, ghostless, handlerless, setCtx, setResult,
    setHasInvalidSql, record in *;
  cbn [MysqlDriverImpl.cnf MysqlDriverImpl.rules MysqlDriverImpl.isOfflineAudit
       MysqlDriverImpl.HasInvalidSql MysqlDriverImpl.calls] in *;
  rewrite ?ghosts_app, ?invoked_app, ?app_nil_r; simpl;
  intuition congruence.

(** X10: an audit of a batch never changes the configuration, the rules
    or the offline flag of the driver, and never clears [HasInvalidSql]:
    once a statement has been found invalid, the flag stays set for the
    statements after it. *)
Theorem Audit_keeps_configuration (sqls : list string) (i : Driver W) :
  stable W i (fst (Audit W sqls i)).
Proof. apply preserves_Audit; by_fields. Qed.


Lemma auditEach_outcome (sqls : list string) (acc : list AuditResults.t)
    (i : Driver W) :
  (exists pre post,
     sqls = (pre ++ post)%list
     /\ audited (MysqlDriverImpl.calls (fst (auditEach W sqls acc i)))
        = (audited (MysqlDriverImpl.calls i) ++ pre)%list)
  /\ match snd (auditEach W sqls acc i) with
     | Return (Some rs) None =>
         List.length rs = (List.length acc + List.length sqls)%nat
         /\ audited (MysqlDriverImpl.calls (fst (auditEach W sqls acc i)))
            = (audited (MysqlDriverImpl.calls i) ++ sqls)%list
     | Return None (Some _) => True
     | Return _ _ => False
     | Panicked => True
     end.
Proof.
  revert acc i. induction sqls as [|sql rest IH]; intros acc i.
  - simpl. split.
    + exists [], []. split; [reflexivity|]. now rewrite app_nil_r.
    + split; [lia|]. now rewrite app_nil_r.
  - simpl auditEach.
    pose proof (audited_audit W sql i) as HA.
    destruct (audit W sql i) as [i' [r|e|]]; simpl in HA.
    + destruct (IH (acc ++ [r])%list i') as [(pre & post & Q & A) O]. split.
      * exists (sql :: pre), post. split; [simpl; now f_equal|].
        rewrite A, HA, <- app_assoc. reflexivity.
      * destruct (snd (auditEach W rest (acc ++ [r]) i')) as [[rs|] [e|]|]; auto.
        destruct O as [L A']. split.
        -- rewrite L, length_app. simpl. lia.
        -- rewrite A', HA, <- app_assoc. reflexivity.
    + split; [|exact I]. exists [sql], rest. split; [reflexivity|exact HA].
    + split; [|exact I]. exists [sql], rest. split; [reflexivity|exact HA].
Qed.

(** X11: Audit hands back either results and no error, or an error and no
    results (or it panics); never both, never neither.  In every case the
    statements handed to [audit] are a prefix of the batch, in order; when
    results come back, every statement of the batch was audited, once, and
    there is one result per statement. *)
Theorem Audit_outcome (sqls : list string) (i : Driver W) :
  (exists pre post,
     sqls = (pre ++ post)%list
     /\ audited (MysqlDriverImpl.calls (fst (Audit W sqls i)))
        = (audited (MysqlDriverImpl.calls i) ++ pre)%list)
  /\ match snd (Audit W sqls i) with
     | Return (Some rs) None =>
         List.length rs = List.length sqls
         /\ audited (MysqlDriverImpl.calls (fst (Audit W sqls i)))
            = (audited (MysqlDriverImpl.calls i) ++ sqls)%list
         /\ ~ In "" sqls
     | Return None (Some _) => True
     | Return _ _ => False
     | Panicked => True
     end.
Proof.
  unfold Audit. destruct (existsb (String.eqb "") sqls) eqn:E.
  - simpl. split; [|exact I]. exists [], sqls. split; [reflexivity|].
    now rewrite app_nil_r.
  - destruct (auditEach_outcome sqls [] i) as [P O]. split; [exact P|].
    destruct (snd (auditEach W sqls [] i)) as [[rs|] [e|]|]; auto.
    destruct O as [L A]. repeat split; auto.
    intros H. assert (T : existsb (String.eqb "") sqls = true).
    { apply existsb_exists. exists "". split; [exact H|reflexivity]. }
    congruence.
Qed.


(** X12: when the pre-validation of a parsed statement returns an error,
    the audit goes one of two ways.  A show-create-table parse error is
    recorded as a warn-level finding "pre_check_err", the plan check is
    skipped, [HasInvalidSql] is set, and the audit goes on with the rules.
    Any other error ends the audit at once with that error: no rule handler
    is invoked, and [HasInvalidSql] is left as it was, also when the
    validation had already added findings. *)
Theorem audit_pre_check_error
    (sql : string) (node : Node) (rest : list Node) (i : Driver W)
    (ctx : World.Context W) (rs : AuditResults.t) (e : error) :
  World.ParseSql W sql = Ok (node :: rest) ->
  checkInvalidOf W i (MysqlDriverImpl.Ctx i) NewAuditResults node
  = (ctx, rs, Some e) ->
  if World.IsParseShowCreateTableContentErr W e
  then preValidate W sql i
       = (MysqlDriverImpl.mk ctx (MysqlDriverImpl.cnf i) (MysqlDriverImpl.rules i)
            (Add rs RuleLevelWarn "pre_check_err" CheckInvalidErrorFormat)
            true (MysqlDriverImpl.isOfflineAudit i)
            (MysqlDriverImpl.calls i ++ [EvAudit sql])%list,
          Ok node)
  else audit W sql i
       = (MysqlDriverImpl.mk ctx (MysqlDriverImpl.cnf i) (MysqlDriverImpl.rules i)
            rs (MysqlDriverImpl.HasInvalidSql i) (MysqlDriverImpl.isOfflineAudit i)
            (MysqlDriverImpl.calls i ++ [EvAudit sql])%list,
          Err e).
Proof.
  intros HP HC.
  assert (HV : preValidate W sql i
               = if World.IsParseShowCreateTableContentErr W e
                 then (MysqlDriverImpl.mk ctx (MysqlDriverImpl.cnf i)
                         (MysqlDriverImpl.rules i)
                         (Add rs RuleLevelWarn "pre_check_err" CheckInvalidErrorFormat)
                         true (MysqlDriverImpl.isOfflineAudit i)
                         (MysqlDriverImpl.calls i ++ [EvAudit sql])%list,
                       Ok node)
                 else (MysqlDriverImpl.mk ctx (MysqlDriverImpl.cnf i)
                         (MysqlDriverImpl.rules i) rs (MysqlDriverImpl.HasInvalidSql i)
                         (MysqlDriverImpl.isOfflineAudit i)
                         (MysqlDriverImpl.calls i ++ [EvAudit sql])%list,
                       Err e)).
  { unfold checkInvalidOf in HC.
    unfold preValidate, dbind, modify, ParseSql, lift, first, dret, dfail,
      IsOfflineAudit, IsExecutedSQL, gets, addResult.
    rewrite HP. cbn [setResult record MysqlDriverImpl.isOfflineAudit
                     MysqlDriverImpl.cnf MysqlDriverImpl.Ctx MysqlDriverImpl.result
                     MysqlDriverImpl.rules MysqlDriverImpl.HasInvalidSql
                     MysqlDriverImpl.calls].
    destruct (MysqlDriverImpl.isOfflineAudit i
              || Config.isExecutedSQL (MysqlDriverImpl.cnf i));
      unfold check, record, setResult;
      cbn [MysqlDriverImpl.Ctx MysqlDriverImpl.result];
      rewrite HC;
      (destruct (World.IsParseShowCreateTableContentErr W e); [|reflexivity]);
      unfold Add, HasResult; simpl;
      destruct (AuditResults.Results rs); reflexivity. }
  destruct (World.IsParseShowCreateTableContentErr W e); [exact HV|].
  unfold audit. unfold dbind at 1. now rewrite HV.
Qed.

Lemma runs_eligible (i : Driver W) (node : Node) (rule : Rule.t) :
  runs W i node rule = true -> eligible W i node rule.
Proof.
  unfold runs, eligible.
  destruct (World.GetRuleHandlerFromAllRules W (Rule.Name rule)) as [h|];
    [|discriminate].
  destruct (RuleHandler.Func h) as [f|] eqn:F; [|discriminate]. simpl.
  intros H. apply andb_prop in H as [H1 H2].
  apply negb_true_iff in H1, H2.
  exists h, f. split; [reflexivity|]. split; [exact F|]. split.
  - intros O. rewrite O in H1. simpl in H1. now apply negb_false_iff in H1.
  - intros X. rewrite X in H2. simpl in H2. now apply orb_false_iff in H2.
Qed.

Lemma tail_handlerless (node : Node) (sql : string) (g : option Rule.t) :
  preserves W (handlerless W)
    (dbind W (optimizePass W node)
       (fun _ => dbind W (ghostDryRun W sql g) (fun _ => finish W node))).
Proof.
  apply preserves_dbind; [by_fields| |intros _].
  - apply preserves_optimizePass; by_fields.
  - apply preserves_dbind; [by_fields| |intros _].
    + apply preserves_ghostDryRun; by_fields.
    + apply preserves_finish; by_fields.
Qed.

(** X13: the rule handlers that the audit of one statement invokes are
    exactly the rules of the driver that pass the skip conditions for the
    first parsed statement, in the order of the rules; none is invoked when
    parsing or pre-validation ends the audit, and no later stage invokes
    one.  A rule passes only if it has a registered handler with a
    function, which allows offline use when the driver audits offline, and
    which is neither limited to SQL not yet executed nor disabled for the
    statement when the driver audits executed SQL. *)
Theorem audit_invokes_eligible_rules (sql : string) (i : Driver W) :
  invoked (MysqlDriverImpl.calls (fst (audit W sql i)))
  = (invoked (MysqlDriverImpl.calls i)
     ++ match snd (preValidate W sql i) with
        | Ok node => filter (runs W i node) (MysqlDriverImpl.rules i)
        | _ => []
        end)%list
  /\ forall node rule,
       In rule (filter (runs W i node) (MysqlDriverImpl.rules i)) ->
       In rule (MysqlDriverImpl.rules i) /\ eligible W i node rule.
Proof.
  split.
  - unfold audit. unfold dbind at 1.
    assert (HP : handlerless W i (fst (preValidate W sql i))).
    { apply preserves_preValidate; by_fields. }
    destruct (preValidate W sql i) as [i1 [node|e|]];
      cbn [fst snd] in *; destruct HP as (C1 & R1 & O1 & I1);
      try (now rewrite app_nil_r).
    unfold dbind at 1. unfold ruleDispatch at 1. unfold dbind at 1, gets at 1.
    destruct (ruleLoop_spec W node (MysqlDriverImpl.rules i1) None i1)
      as (g & evs & added & R & C & A & F & O & I & E).
    destruct (ruleLoop W node None (MysqlDriverImpl.rules i1) i1) as [i2 r2].
    cbn [fst snd] in *. subst r2.
    pose proof (tail_handlerless node sql g i2) as (_ & _ & _ & T).
    rewrite T, C, invoked_app, I, I1, R1.
    f_equal. apply filter_ext. intros r. now apply runs_ext.
  - intros node rule H. apply filter_In in H as [H1 H2].
    split; [exact H1|now apply runs_eligible].
Qed.

Lemma ghostDryRun_off (sql : string) (g : option Rule.t) (i : Driver W) :
  Config.DDLGhostMinSize (MysqlDriverImpl.cnf i) = -1 ->
  ghostDryRun W sql g i = (i, Ok tt).
Proof.
  intros H. unfold ghostDryRun, onlineddlWithGhost, dbind, dwrapErr, gets.
  rewrite H. reflexivity.
Qed.

Lemma audit_ghostless (sql : string) (i : Driver W) :
  Config.DDLGhostMinSize (MysqlDriverImpl.cnf i) = -1 ->
  ghostless W i (fst (audit W sql i)).
Proof.
  intros H. unfold audit, dbind.
  assert (H1 : ghostless W i (fst (preValidate W sql i))).
  { apply preserves_preValidate; by_fields. }
  destruct (preValidate W sql i) as [i1 [node|e|]]; cbn [fst] in *; try exact H1.
  assert (H2 : ghostless W i1 (fst (ruleDispatch W node i1))).
  { apply preserves_ruleDispatch; by_fields. }
  destruct (ruleDispatch W node i1) as [i2 [g|e|]]; cbn [fst] in *;
    try (by_fields).
  assert (H3 : ghostless W i2 (fst (optimizePass W node i2))).
  { apply preserves_optimizePass; by_fields. }
  destruct (optimizePass W node i2) as [i3 [[]|e|]]; cbn [fst] in *;
    try (by_fields).
  rewrite ghostDryRun_off by (destruct H1, H2, H3; congruence).
  assert (H4 : ghostless W i3 (fst (finish W node i3))).
  { apply preserves_finish; by_fields. }
  destruct (finish W node i3) as [i4 [r|e|]]; cbn [fst] in *; by_fields.
Qed.

Lemma auditEach_ghostless (sqls : list string) (acc : list AuditResults.t)
    (i : Driver W) :
  Config.DDLGhostMinSize (MysqlDriverImpl.cnf i) = -1 ->
  ghostless W i (fst (auditEach W sqls acc i)).
Proof.
  revert acc i. induction sqls as [|sql rest IH]; intros acc i H; simpl.
  - by_fields.
  - pose proof (audit_ghostless sql i H) as HA.
    destruct (audit W sql i) as [i' [r|e|]]; cbn [fst] in *; try exact HA.
    assert (H' : Config.DDLGhostMinSize (MysqlDriverImpl.cnf i') = -1)
      by (destruct HA; congruence).
    specialize (IH (acc ++ [r])%list i' H'). by_fields.
Qed.

(** X14: with the gh-ost threshold at -1, which is what a driver has when
    its configuration names no gh-ost rule, the audit of a batch never
    runs gh-ost, not even dry, whatever the statements are. *)
Theorem Audit_without_ghost_threshold (sqls : list string) (i : Driver W) :
  Config.DDLGhostMinSize (MysqlDriverImpl.cnf i) = -1 ->
  ghosts (MysqlDriverImpl.calls (fst (Audit W sqls i)))
  = ghosts (MysqlDriverImpl.calls i).
Proof.
  intros H. unfold Audit. destruct (existsb _ sqls); [reflexivity|].
  now destruct (auditEach_ghostless sqls [] i H).
Qed.

End AuditInvariants.

(* ------------------------------------------------------------------ *)
(** *** The driver: what applyConfig sets up                            *)
(* ------------------------------------------------------------------ *)

Section ConfigureFacts.
Import ast driverV2 rulepkg mysql.
Variable W : World.t.
Variable ConfigDMLExplainPreCheckEnable : string.
Variable ConfigSQLIsExecuted : string.

Lemma applyRule_ghost (cnf : Config.t) (rule : ConfiguredRule.t) :
  Config.DDLGhostMinSize
    (applyRule W ConfigDMLExplainPreCheckEnable ConfigSQLIsExecuted cnf rule)
  = if String.eqb (Rule.Name (ConfiguredRule.Rule_ rule)) (World.ConfigDDLGhostMinSize W)
    then ConfiguredRule.SingleParamInt rule
    else Config.DDLGhostMinSize cnf.
Proof.
  unfold applyRule. cbv zeta.
  repeat match goal with
         | |- context [if ?b then _ else _] => destruct b
         end; reflexivity.
Qed.

Lemma fold_applyRule_ghost (rules : list ConfiguredRule.t) (cnf : Config.t)
    (found : option ConfiguredRule.t) :
  Config.DDLGhostMinSize cnf = thresholdOf found ->
  Config.DDLGhostMinSize
    (fold_left (applyRule W ConfigDMLExplainPreCheckEnable ConfigSQLIsExecuted)
       rules cnf)
  = thresholdOf (lastNamed (World.ConfigDDLGhostMinSize W) rules found).
Proof.
  revert cnf found. induction rules as [|rule rest IH]; intros cnf found H.
  - exact H.
  - simpl. apply IH. rewrite applyRule_ghost. unfold thresholdOf in *.
    destruct (String.eqb _ _); [reflexivity|exact H].
Qed.

Lemma lastGhostRule_map (rules : list ConfiguredRule.t)
    (found : option ConfiguredRule.t) :
  lastGhostRule W (map ConfiguredRule.Rule_ rules)
    (option_map ConfiguredRule.Rule_ found)
  = option_map ConfiguredRule.Rule_
      (lastNamed (World.ConfigDDLGhostMinSize W) rules found).
Proof.
  revert found. induction rules as [|rule rest IH]; intros found; [reflexivity|].
  unfold lastGhostRule, lastNamed in *. simpl.
  destruct (String.eqb _ _); [apply (IH (Some rule))|apply IH].
Qed.

Lemma applyConfig_threshold (cfg : DriverConfig.t) (inspect : Driver W) :
  let i :=
    applyConfig W ConfigDMLExplainPreCheckEnable ConfigSQLIsExecuted cfg inspect in
  let found := lastNamed (World.ConfigDDLGhostMinSize W) (DriverConfig.Rules cfg) None in
  Config.DDLGhostMinSize (MysqlDriverImpl.cnf i) = thresholdOf found
  /\ lastGhostRule W (MysqlDriverImpl.rules i) None
     = option_map ConfiguredRule.Rule_ found.
Proof.
  split.
  - apply (fold_applyRule_ghost _ _ None). reflexivity.
  - apply (lastGhostRule_map _ None).
Qed.

Lemma applyConfig_rule_present (cfg : DriverConfig.t) (inspect : Driver W) :
  let i :=
    applyConfig W ConfigDMLExplainPreCheckEnable ConfigSQLIsExecuted cfg inspect in
  Config.DDLGhostMinSize (MysqlDriverImpl.cnf i) <> -1 ->
  exists rule, lastGhostRule W (MysqlDriverImpl.rules i) None = Some rule
               /\ Rule.Name rule = World.ConfigDDLGhostMinSize W.
Proof.
  intros i N. destruct (applyConfig_threshold cfg inspect) as [T G].
  cbv zeta in T, G. fold i in T, G. rewrite T in N. rewrite G.
  destruct (lastNamed _ _ _) as [rule|] eqn:F; [|now contradiction N].
  exists (ConfiguredRule.Rule_ rule). split; [reflexivity|].
  apply (lastGhostRule_name W (MysqlDriverImpl.rules i) None); [discriminate|].
  rewrite G. reflexivity.
Qed.

(** X15: after applyConfig the gh-ost threshold of the driver is the
    parameter of the last configured rule named [ConfigDDLGhostMinSize], and
    -1 when no rule has that name; and that same rule is the one that the
    loop of [audit] leaves in [ghostRule].  So whenever the threshold is not
    -1, [ghostRule] is not nil during the dry run. *)
Theorem applyConfig_ghost_rule (cfg : DriverConfig.t) (inspect : Driver W) :
  let i :=
    applyConfig W ConfigDMLExplainPreCheckEnable ConfigSQLIsExecuted cfg inspect in
  let found := lastNamed (World.ConfigDDLGhostMinSize W) (DriverConfig.Rules cfg) None in
  Config.DDLGhostMinSize (MysqlDriverImpl.cnf i) = thresholdOf found
  /\ lastGhostRule W (MysqlDriverImpl.rules i) None
     = option_map ConfiguredRule.Rule_ found
  /\ (Config.DDLGhostMinSize (MysqlDriverImpl.cnf i) <> -1 ->
      exists rule, lastGhostRule W (MysqlDriverImpl.rules i) None = Some rule
                   /\ Rule.Name rule = World.ConfigDDLGhostMinSize W).
Proof.
  intros i found.
  destruct (applyConfig_threshold cfg inspect) as [T G].
  split; [exact T|]. split; [exact G|].
  apply applyConfig_rule_present.
Qed.

(** X16: in a driver set up by applyConfig (and in any later state with
    the same configuration and rules), whenever the gh-ost decision says
    yes for a statement, the dry run that [audit] makes next returns
    normally and adds exactly one finding, under the name
    [ConfigDDLGhostMinSize]: the [ghostRule] it reads is never nil. *)
Theorem configured_dry_run_finds_its_rule
    (cfg : DriverConfig.t) (inspect i : Driver W) (sql : string) :
  MysqlDriverImpl.cnf i
  = MysqlDriverImpl.cnf
      (applyConfig W ConfigDMLExplainPreCheckEnable ConfigSQLIsExecuted cfg inspect) ->
  MysqlDriverImpl.rules i
  = MysqlDriverImpl.rules
      (applyConfig W ConfigDMLExplainPreCheckEnable ConfigSQLIsExecuted cfg inspect) ->
  snd (onlineddlWithGhost W sql i) = Ok true ->
  let r := ghostDryRun W sql (lastGhostRule W (MysqlDriverImpl.rules i) None) i in
  exists finding,
    snd r = Ok tt
    /\ AuditResults.Results (MysqlDriverImpl.result (fst r))
       = (AuditResults.Results (MysqlDriverImpl.result i) ++ [finding])%list
    /\ AuditResult.RuleName finding = World.ConfigDDLGhostMinSize W.
Proof.
  intros HC HR HD r.
  pose proof (applyConfig_rule_present cfg inspect) as HG.
  cbv zeta in HG. rewrite <- HC, <- HR in HG.
  assert (E : exists finding i',
            r = (i', Ok tt)
            /\ AuditResults.Results (MysqlDriverImpl.result i')
               = (AuditResults.Results (MysqlDriverImpl.result i) ++ [finding])%list
            /\ AuditResult.RuleName finding = World.ConfigDDLGhostMinSize W).
  { subst r. unfold ghostDryRun. unfold dbind at 1. unfold dwrapErr.
    destruct (onlineddlWithGhost W sql i) as [i1 d] eqn:ED. simpl in HD. subst d.
    unfold onlineddlWithGhost, dbind, gets, dwrapErr, ParseSql, lift, first, dret in ED.
    destruct (Config.DDLGhostMinSize (MysqlDriverImpl.cnf i) =? -1) eqn:ET;
      [discriminate|].
    apply Z.eqb_neq in ET. destruct (HG ET) as (rule & -> & HN).
    destruct (World.ParseSql W sql) as [[|node0 rest]|e|] eqn:EP; try discriminate.
    destruct node0; try discriminate.
    destruct (World.GetTableSize W (MysqlDriverImpl.Ctx i) (AlterTableStmt.Table stmt))
      as [ctx1 [size|e|]] eqn:ES; try discriminate.
    injection ED as <- _.
    unfold executeByGhost, attempt, dbind, gets, modify, dwrapErr, ParseSql, lift,
      first, dret, dfail, addResult.
    rewrite EP. simpl.
    destruct (World.ghostExecute W _ sql true); simpl;
      eexists _, _; (split; [reflexivity|]); (split; [reflexivity|]); exact HN. }
  destruct E as (finding & i' & -> & HA & HN).
  exists finding. repeat split; assumption.
Qed.

End ConfigureFacts.

(* ------------------------------------------------------------------ *)
(** *** The driver and its connection                                   *)
(* ------------------------------------------------------------------ *)

Section ConnectionFacts.
Import ast driverV2 rulepkg mysql.
Variable W : World.t.
Variables Conn Result : Type.
Variable DB : Database.t (World.Context W) Conn Result.

Lemma ExecBatch_loop_offline (queries : list string) (acc : list (option Result))
    (s : St W Conn) :
  MysqlDriverImpl.isOfflineAudit (Instance.impl s) = true ->
  ExecBatch_loop W Conn Result DB queries acc s
  = (s, Gives (acc ++ map (fun _ => None) queries)%list None).
Proof.
  intros H. revert acc. induction queries as [|q rest IH]; intros acc; simpl.
  - now rewrite app_nil_r.
  - unfold Exec. rewrite H. rewrite IH, <- app_assoc. reflexivity.
Qed.

(** X17: a driver that audits offline never touches the database: Exec,
    Tx, Ping, Schemas and EstimateSQLAffectRows return nil and no error and
    leave the driver as it was, without connecting and without the gh-ost
    decision; ExecBatch returns one nil result per statement. *)
Theorem offline_driver_asks_nothing
    (s : St W Conn) (query : string) (queries : list string) :
  MysqlDriverImpl.isOfflineAudit (Instance.impl s) = true ->
  Exec W Conn Result DB query s = (s, Gives None None)
  /\ ExecBatch W Conn Result DB queries s
     = (s, Gives (map (fun _ => None) queries) None)
  /\ Tx W Conn Result DB queries s = (s, Gives None None)
  /\ Ping W Conn Result DB s = (s, Gives tt None)
  /\ Schemas W Conn Result DB s = (s, Gives None None)
  /\ EstimateSQLAffectRows W Conn Result DB query s = (s, Gives None None).
Proof.
  intros H. unfold Exec, ExecBatch, Tx, Ping, Schemas, EstimateSQLAffectRows.
  rewrite H, (ExecBatch_loop_offline queries [] s H). repeat split.
Qed.

(** What the gh-ost decision needs to say yes. *)
Lemma onlineddlWithGhost_yes (query : string) (i : Driver W) :
  snd (onlineddlWithGhost W query i) = Ok true ->
  exists stmt rest ctx1,
    World.ParseSql W query = Ok (NAlterTable stmt :: rest)
    /\ onlineddlWithGhost W query i = (setCtx W ctx1 i, Ok true).
Proof.
  unfold onlineddlWithGhost, dbind, gets, dwrapErr, ParseSql, lift, first, dret.
  destruct (Config.DDLGhostMinSize (MysqlDriverImpl.cnf i) =? -1);
    [discriminate|].
  destruct (World.ParseSql W query) as [[|node0 rest]|e|]; try discriminate.
  destruct node0; try discriminate.
  destruct (World.GetTableSize W (MysqlDriverImpl.Ctx i) (AlterTableStmt.Table stmt))
    as [ctx1 [size|e|]]; try discriminate.
  simpl. intros H. injection H as H. exists stmt, rest, ctx1.
  split; [reflexivity|]. now rewrite H.
Qed.


Lemma ExecBatch_loop_app (pre rest : list string) (acc rs : list (option Result))
    (s s1 : St W Conn) :
  ExecBatch_loop W Conn Result DB pre acc s = (s1, Gives rs None) ->
  ExecBatch_loop W Conn Result DB (pre ++ rest) acc s
  = ExecBatch_loop W Conn Result DB rest rs s1
  /\ List.length rs = (List.length acc + List.length pre)%nat.
Proof.
  revert acc s. induction pre as [|q pre IH]; intros acc s H; simpl in *.
  - injection H as -> ->. split; [reflexivity|lia].
  - destruct (Exec W Conn Result DB q s) as [s' [v [e|]|]]; try discriminate.
    destruct (IH _ _ H) as [E L]. split; [exact E|].
    rewrite L, length_app. simpl. lia.
Qed.

(** X19: when a statement of a batch fails, ExecBatch stops there and,
    unlike Audit, hands back the results so far together with the error:
    one result for every statement before the failing one, then what Exec
    returned for the failing one; the error names the statement and its
    cause, and the statements after it are not executed. *)
Theorem ExecBatch_keeps_partial_results
    (pre post : list string) (sql : string) (s s1 s2 : St W Conn)
    (rs : list (option Result)) (v : option Result) (e : error) :
  ExecBatch W Conn Result DB pre s = (s1, Gives rs None) ->
  Exec W Conn Result DB sql s1 = (s2, Gives v (Some e)) ->
  ExecBatch W Conn Result DB (pre ++ sql :: post) s
  = (s2, Gives (rs ++ [v])%list (Some (ExecSqlFailed sql e)))
  /\ List.length rs = List.length pre.
Proof.
  intros HP HE. unfold ExecBatch in *.
  destruct (ExecBatch_loop_app pre (sql :: post) [] rs s s1 HP) as [E L].
  split; [|exact L]. rewrite E. simpl. now rewrite HE.
Qed.

Lemma connects_app (l1 l2 : list (DbEvent Conn)) :
  connects Conn (l1 ++ l2) = (connects Conn l1 + connects Conn l2)%nat.
Proof. unfold connects. now rewrite filter_app, length_app. Qed.

(** The attempts to connect that are still to come: one for a driver that
    is not connected, none for one that is. *)
Lemma Exec_connects (query : string) (s : St W Conn) :
  let budget (t : St W Conn) := if Instance.isConnected t then O else 1%nat in
  let s' := fst (Exec W Conn Result DB query s) in
  match snd (Exec W Conn Result DB query s) with
  | Gives _ None =>
      (connects Conn (Instance.asked s') + budget s'
       <= connects Conn (Instance.asked s) + budget s)%nat
  | _ =>
      (connects Conn (Instance.asked s')
       <= connects Conn (Instance.asked s) + budget s)%nat
  end.
Proof.
  cbv zeta. unfold Exec.
  destruct (MysqlDriverImpl.isOfflineAudit (Instance.impl s)); [simpl; lia|].
  destruct (onlineddlWithGhost W query (Instance.impl s)) as [i1 [[|]|e|]];
    try (simpl; lia).
  - destruct (executeByGhost W query true i1) as [i2 [[]|e|]]; try (simpl; lia).
    destruct (executeByGhost W query false i2) as [i3 [[]|e|]]; simpl; lia.
  - unfold getDbConn. cbn [setImpl Instance.isConnected Instance.asked
                           Instance.impl Instance.dbConn].
    destruct (Instance.isConnected s) eqn:C.
    + destruct (Instance.dbConn s) as [c|]; [|simpl; rewrite ?C; lia].
      destruct (Database.Exec DB _ c query) as [v [e|]]; simpl;
        rewrite ?C, connects_app; unfold connects at 2; simpl; lia.
    + destruct (Database.NewExecutor DB _ _) as [c|e].
      * destruct (Database.Exec DB _ c query) as [v [e|]]; simpl;
          rewrite !connects_app; unfold connects at 2 3; simpl; lia.
      * simpl. rewrite ?C, connects_app. unfold connects at 2. simpl. lia.
Qed.

Lemma ExecBatch_loop_connects (queries : list string) (acc : list (option Result))
    (s : St W Conn) :
  (connects Conn (Instance.asked (fst (ExecBatch_loop W Conn Result DB queries acc s)))
   <= connects Conn (Instance.asked s)
      + if Instance.isConnected s then O else 1)%nat.
Proof.
  revert acc s. induction queries as [|q rest IH]; intros acc s; simpl; [lia|].
  pose proof (Exec_connects q s) as H. cbv zeta in H.
  destruct (Exec W Conn Result DB q s) as [s' [v [e|]|]]; simpl in *; try exact H.
  specialize (IH (acc ++ [v])%list s'). lia.
Qed.

(** X20: a batch connects at most once.  However many statements
    ExecBatch executes, and whichever of them go through gh-ost, it asks
    for a new connection at most once, and not at all when the driver is
    already connected: a connection that could not be opened ends the
    batch, and one that was opened is kept. *)
Theorem ExecBatch_connects_at_most_once (queries : list string) (s : St W Conn) :
  (connects Conn (Instance.asked (fst (ExecBatch W Conn Result DB queries s)))
   <= connects Conn (Instance.asked s)
      + if Instance.isConnected s then O else 1)%nat.
Proof. apply ExecBatch_loop_connects. Qed.

(** X21: getDbConn and closeDbConn act once.  After getDbConn has
    returned without error, calling it again returns the same connection
    and asks nothing; a failed attempt leaves the driver unconnected with
    the connection it had; and after closeDbConn a second closeDbConn does
    nothing. *)
Theorem connection_opened_and_closed_once (s s1 : St W Conn) :
  (forall conn, getDbConn W Conn Result DB s = (s1, (conn, None)) ->
     getDbConn W Conn Result DB s1 = (s1, (conn, None))
     /\ Instance.isConnected s1 = true /\ Instance.dbConn s1 = conn)
  /\ (forall conn err, getDbConn W Conn Result DB s = (s1, (conn, Some err)) ->
       Instance.isConnected s1 = false
       /\ Instance.dbConn s1 = Instance.dbConn s
       /\ connects Conn (Instance.asked s1) = S (connects Conn (Instance.asked s)))
  /\ (closeDbConn W Conn s = (s1, Ok tt) ->
      closeDbConn W Conn s1 = (s1, Ok tt) /\ Instance.isConnected s1 = false).
Proof.
  unfold getDbConn, closeDbConn. repeat split.
  - destruct (Instance.isConnected s) eqn:C.
    + injection H as <- <-. now rewrite C.
    + destruct (Database.NewExecutor DB _ _); [|discriminate].
      injection H as <- <-. reflexivity.
  - destruct (Instance.isConnected s) eqn:C.
    + now injection H as <- <-.
    + destruct (Database.NewExecutor DB _ _); [|discriminate].
      now injection H as <- <-.
  - destruct (Instance.isConnected s) eqn:C.
    + now injection H as <- <-.
    + destruct (Database.NewExecutor DB _ _); [|discriminate].
      now injection H as <- <-.
  - destruct (Instance.isConnected s) eqn:C; [discriminate|].
    destruct (Database.NewExecutor DB _ _); [discriminate|].
    injection H as <- _ _. exact C.
  - destruct (Instance.isConnected s) eqn:C; [discriminate|].
    destruct (Database.NewExecutor DB _ _); [discriminate|].
    now injection H as <- _ _.
  - destruct (Instance.isConnected s) eqn:C; [discriminate|].
    destruct (Database.NewExecutor DB _ _); [discriminate|].
    injection H as <- _ _. simpl. rewrite connects_app.
    unfold connects at 2. simpl. lia.
  - destruct (Instance.isConnected s) eqn:C.
    + destruct (Instance.dbConn s); [|discriminate]. now injection H as <-.
    + injection H as <-. now rewrite C.
  - destruct (Instance.isConnected s) eqn:C.
    + destruct (Instance.dbConn s); [|discriminate]. now injection H as <-.
    + now injection H as <-.
Qed.

End ConnectionFacts.

(* ------------------------------------------------------------------ *)
(** *** The estimator and the driver: unsupported statements            *)
(* ------------------------------------------------------------------ *)

Section UnsupportedFacts.
Import ast executor util.
Variable P : Parser.t.
(** The parser library does not hand out the sentinel of package util. *)
Hypothesis Restore_not_unsupported :
  forall n e, Parser.Restore P n = Err e -> Is_ErrUnsupportedSqlType e = false.
Hypothesis restoreToSqlWithFlag_not_unsupported :
  forall u e, Parser.restoreToSqlWithFlag P u = Err e ->
              Is_ErrUnsupportedSqlType e = false.

Lemma estimate_not_unsupported o sql conn explain (e : error) :
  outcome (estimate P o sql conn explain) = Err e ->
  Is_ErrUnsupportedSqlType e = false.
Proof.
  rewrite estimate_unfold.
  destruct (Parser.ParseOneSql P sql) as [node|e'|]; simpl;
    try (intros H; injection H as <-; reflexivity); try discriminate.
  destruct (IsSelectOnlyIncludeCountFunc node); simpl;
    try (intros H; injection H as <-; reflexivity).
  destruct (explain sql) as [recs|e'|]; simpl;
    try (intros H; injection H as <-; reflexivity); try discriminate.
  destruct (anyFullScan recs || (100000 <? wrap64 (sumRows recs))); simpl;
    try discriminate.
  unfold liveCount, bind, call, wrapErr, ret, panic, outcome.
  destruct (Executor.QueryWithContext conn sql) as [[|[|c r] rows]|e'|]; simpl;
    try (intros H; injection H as <-; reflexivity); try discriminate.
  unfold ParseInt.
  repeat match goal with
         | |- context [match ?x with _ => _ end] => destruct x
         end; simpl;
    try (intros H; injection H as <-; reflexivity); try discriminate.
Qed.

Lemma outcome_bind_err {A B} (m : M A) (k : A -> M B) (e : error) :
  outcome (bind m k) = Err e ->
  outcome m = Err e \/ exists a, outcome m = Ok a /\ outcome (k a) = Err e.
Proof.
  unfold bind, outcome. destruct m as [tr [a|e'|]]; simpl.
  - intros H. right. exists a. split; [reflexivity|].
    destruct (k a). exact H.
  - intros H. injection H as ->. now left.
  - discriminate.
Qed.

Lemma classify_not_unsupported (node : Node) (originSql : string) (e : error) :
  supported node = true ->
  outcome (classify P node originSql) = Err e ->
  Is_ErrUnsupportedSqlType e = false.
Proof.
  intros S. destruct node; try discriminate; unfold classify, ret, fail;
    try discriminate.
  simpl in S.
  destruct (InsertStmt.Lists stmt) as [lists|], (InsertStmt.Select stmt)
    as [[sel|u|other]|]; simpl in S; try discriminate; simpl; try discriminate.
  pose proof (restoreToSqlWithFlag_not_unsupported u) as U.
  destruct (Parser.restoreToSqlWithFlag P u) as [o|e1|]; simpl;
    try discriminate.
  intros H. injection H as <-. now apply U.
Qed.

Lemma buildAffectedRowSql_not_unsupported newNode cannot o (e : error) :
  outcome (buildAffectedRowSql P newNode cannot o) = Err e ->
  Is_ErrUnsupportedSqlType e = false.
Proof.
  unfold buildAffectedRowSql, ret, fail, call.
  destruct cannot; [discriminate|].
  destruct newNode as [n|]; simpl.
  - apply Restore_not_unsupported.
  - intros H. injection H as <-. reflexivity.
Qed.

Lemma GetAffectedRowNum_error_of_supported
    (originSql : string) (conn : Executor.t)
    (explain : string -> result (list ExplainRecord.t)) (node : Node) (e : error) :
  Parser.ParseOneSql P originSql = Ok node ->
  supported node = true ->
  outcome (GetAffectedRowNum P originSql conn explain) = Err e ->
  Is_ErrUnsupportedSqlType e = false.
Proof.
  intros HP S H. unfold GetAffectedRowNum in H.
  apply outcome_bind_err in H as [H|([n|[o sql]] & _ & H)].
  - unfold rewriteToCount in H.
    apply outcome_bind_err in H as [H|(node' & HN & H)].
    { unfold call, outcome in H. simpl in H. congruence. }
    unfold call, outcome in HN. simpl in HN. rewrite HP in HN.
    injection HN as <-.
    apply outcome_bind_err in H as [H|(c & _ & H)].
    { now apply (classify_not_unsupported node originSql). }
    destruct c as [n|newNode cannot o]; [discriminate|].
    apply outcome_bind_err in H as [H|(sql & _ & H)]; [|discriminate].
    now apply (buildAffectedRowSql_not_unsupported newNode cannot o).
  - discriminate.
  - now apply (estimate_not_unsupported o sql conn explain).
Qed.

Lemma GetAffectedRowNum_of_unsupported
    (originSql : string) (conn : Executor.t)
    (explain : string -> result (list ExplainRecord.t)) (node : Node) :
  Parser.ParseOneSql P originSql = Ok node ->
  supported node = false ->
  GetAffectedRowNum P originSql conn explain
  = ([EvParseOneSql originSql], Err ErrUnsupportedSqlType).
Proof.
  intros HP S.
  unfold GetAffectedRowNum, rewriteToCount, classify, bind, call, ret, fail.
  rewrite HP.
  destruct node; try discriminate; try reflexivity.
  simpl in S.
  destruct (InsertStmt.Lists stmt), (InsertStmt.Select stmt);
    simpl in S; try discriminate; reflexivity.
Qed.

(** X22: GetAffectedRowNum answers with ErrUnsupportedSqlType exactly for
    the statements outside its type switch: for a parsed statement that is
    not a SELECT, UPDATE or DELETE, nor an INSERT with either a VALUES list
    or a subquery, the sentinel comes back right after the parse, and
    nothing else is asked; for every other parsed statement no error of the
    function is that sentinel, whatever goes wrong later. *)
Theorem GetAffectedRowNum_refuses_unsupported
    (originSql : string) (conn : Executor.t)
    (explain : string -> result (list ExplainRecord.t)) (node : Node) :
  Parser.ParseOneSql P originSql = Ok node ->
  if supported node
  then forall e, outcome (GetAffectedRowNum P originSql conn explain) = Err e ->
                 Is_ErrUnsupportedSqlType e = false
  else GetAffectedRowNum P originSql conn explain
       = ([EvParseOneSql originSql], Err ErrUnsupportedSqlType).
Proof.
  intros HP. destruct (supported node) eqn:S.
  - intros e. now apply (GetAffectedRowNum_error_of_supported _ _ _ node).
  - now apply (GetAffectedRowNum_of_unsupported _ _ _ node).
Qed.

End UnsupportedFacts.

Section EstimateFacts.
Import ast driverV2 rulepkg mysql.
Variable W : World.t.
Variables Conn Result : Type.
Variable DB : Database.t (World.Context W) Conn Result.

Lemma liveEstimates_app (l1 l2 : list (DbEvent Conn)) :
  liveEstimates Conn (l1 ++ l2)
  = (liveEstimates Conn l1 ++ liveEstimates Conn l2)%list.
Proof. apply flat_map_app. Qed.

(** X23: EstimateSQLAffectRows tells an unsupported statement from a
    failure.  Once the driver has its connection and the statement parses:
    for a statement outside the type switch of the estimator the answer is
    a result that carries the message of ErrUnsupportedSqlType, with count
    0 and no error, and neither a plan nor a query was asked of the
    database; for every other statement the answer is either a count
    without message, or an error that wraps its cause as "get affected row
    num failed", never a result with a message. *)
Theorem EstimateSQLAffectRows_unsupported
    (sql : string) (s s1 : St W Conn) (conn : option Conn) (node : Node) :
  MysqlDriverImpl.isOfflineAudit (Instance.impl s) = false ->
  getDbConn W Conn Result DB s = (s1, (conn, None)) ->
  util.Parser.ParseOneSql (Database.Parser_ DB) sql = Ok node ->
  (forall n e, util.Parser.Restore (Database.Parser_ DB) n = Err e ->
               Is_ErrUnsupportedSqlType e = false) ->
  (forall u e, util.Parser.restoreToSqlWithFlag (Database.Parser_ DB) u = Err e ->
               Is_ErrUnsupportedSqlType e = false) ->
  let r := EstimateSQLAffectRows W Conn Result DB sql s in
  if util.supported node
  then match snd r with
       | Gives (Some rows) None => EstimatedAffectRows.ErrMessage rows = None
       | Gives None (Some e) =>
           exists cause, e = ErrWrap cause "get affected row num failed"
       | Gives _ _ => False
       | Panics => True
       end
  else snd r
       = Gives (Some (EstimatedAffectRows.mk 0 (Some ErrUnsupportedSqlType))) None
       /\ liveEstimates Conn (Instance.asked (fst r))
          = liveEstimates Conn (Instance.asked s1)
       /\ MysqlDriverImpl.Ctx (Instance.impl (fst r))
          = MysqlDriverImpl.Ctx (Instance.impl s1).
Proof.
  intros HO HG HP HR HU r. subst r. unfold EstimateSQLAffectRows.
  rewrite HO, HG.
  destruct (util.supported node) eqn:S.
  - pose proof (fun e =>
        GetAffectedRowNum_error_of_supported (Database.Parser_ DB) HR HU sql
          (executorOf W Conn Result DB (Instance.asked s1) conn)
          (fun q => snd (Database.GetExecutionPlan DB
                           (MysqlDriverImpl.Ctx (Instance.impl s1)) q))
          node e HP S) as H.
    destruct (util.GetAffectedRowNum _ _ _ _) as [tr [n|e|]]; simpl; auto.
    rewrite (H e eq_refl). simpl. now exists e.
  - rewrite (GetAffectedRowNum_of_unsupported (Database.Parser_ DB) sql _ _ node HP S).
    simpl. rewrite liveEstimates_app. simpl.
    rewrite app_nil_r. repeat split.
Qed.

End EstimateFacts.

(* ------------------------------------------------------------------ *)
(** *** The driver: how it is made                                      *)
(* ------------------------------------------------------------------ *)

Section ConstructFacts.
Import ast driverV2 rulepkg mysql.
Variable W : World.t.
Variables Conn Result : Type.
Variable DB : Database.t (World.Context W) Conn Result.
Variable ConfigDMLExplainPreCheckEnable : string.
Variable ConfigSQLIsExecuted : string.
Variable NewContext : option Conn -> World.Context W.
Variable SetCurrentSchema : World.Context W -> string -> World.Context W.

(** X24: NewInspect makes an offline driver exactly when the
    configuration has no data source, and then it asks nothing of the
    executor; with a data source it connects once, at construction: a
    failure to connect comes back wrapped as "new executor in inspect" and
    no driver is made, and a driver that is made is connected, so that no
    batch it executes later opens another connection. *)
Theorem NewInspect_connects_at_construction
    (cfg : DriverConfig.t) (queries : list string) :
  match NewInspect W Conn Result DB ConfigDMLExplainPreCheckEnable
          ConfigSQLIsExecuted NewContext SetCurrentSchema cfg with
  | Ok s =>
      MysqlDriverImpl.isOfflineAudit (Instance.impl s)
      = negb (Instance.isConnected s)
      /\ (Instance.isConnected s = true <-> DriverConfig.DSN cfg <> None)
      /\ connects Conn (Instance.asked s)
         = (if Instance.isConnected s then 1 else 0)%nat
      /\ (connects Conn (Instance.asked (fst (ExecBatch W Conn Result DB queries s)))
          <= connects Conn (Instance.asked s))%nat
  | Err e =>
      exists databaseName cause,
        DriverConfig.DSN cfg = Some databaseName
        /\ Database.NewExecutor DB [] databaseName = inr cause
        /\ e = ErrWrap cause "new executor in inspect"
  | Panic => False
  end.
Proof.
  unfold NewInspect, initializeInspectWithConn, initializeInspectWithoutConn.
  destruct (DriverConfig.DSN cfg) as [databaseName|] eqn:D.
  - destruct (Database.NewExecutor DB [] databaseName) as [conn|err] eqn:N.
    + cbn [Instance.impl Instance.isConnected Instance.asked applyConfig
           MysqlDriverImpl.isOfflineAudit]. rewrite D.
      repeat split; try discriminate.
      pose proof (ExecBatch_loop_connects W Conn Result DB queries []
                    (Instance.mk
                       (applyConfig W ConfigDMLExplainPreCheckEnable
                          ConfigSQLIsExecuted cfg
                          (blank W (SetCurrentSchema (NewContext (Some conn))
                                      databaseName)))
                       true (Some conn) [EvNewExecutor databaseName])) as H.
      cbn [Instance.isConnected Instance.asked] in H. unfold ExecBatch. lia.
    + exists databaseName, err. repeat split. exact N.
  - cbn [Instance.impl Instance.isConnected Instance.asked applyConfig
         MysqlDriverImpl.isOfflineAudit]. rewrite D.
    split; [reflexivity|]. split; [split; [discriminate|now intros H]|].
    split; [reflexivity|].
    unfold ExecBatch. rewrite ExecBatch_loop_offline; [simpl; lia|].
    simpl. now rewrite D.
Qed.

(** X25: NewInspectWithExecutor never returns an error, but it panics
    when it is given a connection and a configuration without data source.
    Given a connection and a data source it makes a connected driver that
    holds that connection and is not offline; given no connection it makes
    an unconnected driver without connection, offline exactly when there is
    no data source.  In no case is anything asked of the executor. *)
Theorem NewInspectWithExecutor_cases (cfg : DriverConfig.t) (conn : option Conn) :
  let made := NewInspectWithExecutor W Conn ConfigDMLExplainPreCheckEnable
                ConfigSQLIsExecuted NewContext SetCurrentSchema cfg conn in
  match conn, DriverConfig.DSN cfg with
  | Some c, None => made = Panic
  | Some c, Some _ =>
      exists s, made = Ok s
                /\ Instance.isConnected s = true
                /\ Instance.dbConn s = Some c
                /\ MysqlDriverImpl.isOfflineAudit (Instance.impl s) = false
                /\ Instance.asked s = []
  | None, dsn =>
      exists s, made = Ok s
                /\ Instance.isConnected s = false
                /\ Instance.dbConn s = None
                /\ MysqlDriverImpl.isOfflineAudit (Instance.impl s)
                   = negb (isSome dsn)
                /\ Instance.asked s = []
  end.
Proof.
  unfold NewInspectWithExecutor, initializeInspectWithConn,
    initializeInspectWithoutConn. cbv zeta.
  destruct conn as [c|], (DriverConfig.DSN cfg) as [databaseName|] eqn:D;
    try reflexivity; eexists; (split; [reflexivity|]); simpl; rewrite D;
    repeat split.
Qed.

End ConstructFacts.

(* ------------------------------------------------------------------ *)
(** *** The driver: rules replaced after configuration                  *)
(* ------------------------------------------------------------------ *)

Section SetRulesFacts.
Import ast driverV2 rulepkg mysql.
Variable W : World.t.

Lemma lastGhostRule_none (rules : list Rule.t) :
  (forall rule, In rule rules -> Rule.Name rule <> World.ConfigDDLGhostMinSize W) ->
  lastGhostRule W rules None = None.
Proof.
  unfold lastGhostRule. induction rules as [|rule rest IH]; intros H;
    [reflexivity|].
  simpl. destruct (String.eqb _ _) eqn:E.
  - apply String.eqb_eq in E. now destruct (H rule (or_introl eq_refl)).
  - apply IH. intros r I. apply H. now right.
Qed.

Lemma onlineddlWithGhost_ext (sql : string) (i j : Driver W) :
  MysqlDriverImpl.cnf j = MysqlDriverImpl.cnf i ->
  MysqlDriverImpl.Ctx j = MysqlDriverImpl.Ctx i ->
  snd (onlineddlWithGhost W sql j) = snd (onlineddlWithGhost W sql i).
Proof.
  intros HC HX.
  unfold onlineddlWithGhost, dbind, gets, dwrapErr, ParseSql, lift, first, dret.
  rewrite HC.
  destruct (Config.DDLGhostMinSize (MysqlDriverImpl.cnf i) =? -1); [reflexivity|].
  destruct (World.ParseSql W sql) as [[|node0 rest]|e|]; try reflexivity.
  destruct node0; try reflexivity. simpl. rewrite HX.
  destruct (World.GetTableSize W (MysqlDriverImpl.Ctx i) (AlterTableStmt.Table stmt))
    as [ctx1 [size|e|]]; reflexivity.
Qed.

(** X29: SetRules replaces the rules and keeps the configuration, so the
    gh-ost threshold outlives the gh-ost rule.  When the new rules hold no
    rule named [ConfigDDLGhostMinSize] and the gh-ost decision says yes for
    a statement, gh-ost is still run dry, and the audit then panics where
    it reads the name of the nil [ghostRule]. *)
Theorem SetRules_can_lose_the_ghost_rule
    (rules : list Rule.t) (i : Driver W) (sql : string) :
  (forall rule, In rule rules -> Rule.Name rule <> World.ConfigDDLGhostMinSize W) ->
  snd (onlineddlWithGhost W sql i) = Ok true ->
  let i' := SetRules W rules i in
  let r := ghostDryRun W sql (lastGhostRule W (MysqlDriverImpl.rules i') None) i' in
  MysqlDriverImpl.cnf i' = MysqlDriverImpl.cnf i
  /\ snd r = Panic
  /\ exists schema,
       MysqlDriverImpl.calls (fst r)
       = (MysqlDriverImpl.calls i ++ [EvGhost schema sql true])%list.
Proof.
  intros HN HD i' r. split; [reflexivity|].
  assert (E : exists schema i1,
            r = (i1, Panic)
            /\ MysqlDriverImpl.calls i1
               = (MysqlDriverImpl.calls i ++ [EvGhost schema sql true])%list).
  { assert (HD' : snd (onlineddlWithGhost W sql i') = Ok true).
    { rewrite <- HD. now apply onlineddlWithGhost_ext. }
    destruct (onlineddlWithGhost_yes W sql i' HD') as (stmt & rest & ctx1 & HP & HG).
    subst r. change (MysqlDriverImpl.rules i') with rules.
    rewrite (lastGhostRule_none rules HN).
    unfold ghostDryRun. unfold dbind at 1. unfold dwrapErr.
    rewrite HG.
    unfold executeByGhost, attempt, dbind, gets, modify, dwrapErr, ParseSql, lift,
      first, dret, dfail, dpanic.
    rewrite HP. simpl.
    destruct (World.ghostExecute W _ sql true); simpl; eexists _, _;
      (split; [reflexivity|]); reflexivity. }
  destruct E as (schema & i1 & -> & HC). split; [reflexivity|].
  exists schema. exact HC.
Qed.

End SetRulesFacts.

(* ------------------------------------------------------------------ *)
(** *** The driver: quoted table names                                  *)
(* ------------------------------------------------------------------ *)

Section NameFacts.
Import ast mysql.
Variable W : World.t.

Lemma append_assoc (a b c : string) : a ++ b ++ c = (a ++ b) ++ c.
Proof. induction a as [|x a IH]; [reflexivity|]. simpl. now rewrite IH. Qed.

Lemma ReplaceByte_app (a b : string) (old : ascii) (new : string) :
  ReplaceByte (a ++ b) old new = ReplaceByte a old new ++ ReplaceByte b old new.
Proof.
  induction a as [|c a IH]; [reflexivity|]. simpl.
  destruct (Ascii.eqb c old); rewrite IH; [|reflexivity].
  apply append_assoc.
Qed.

Lemma ReplaceByte_dotless (s new : string) :
  dotless s = true -> ReplaceByte s "."%char new = s.
Proof.
  unfold dotless. rewrite negb_true_iff.
  induction s as [|c s IH]; [reflexivity|]. cbn [mem_byte ReplaceByte].
  rewrite (Ascii.eqb_sym "."%char c).
  destruct (Ascii.eqb c "."%char); [discriminate|].
  cbn [orb]. intros H. now rewrite IH.
Qed.

(** X26: getTableNameWithQuote quotes the table name, and the schema when
    the session knows one: for a schema and a name without dots the answer
    is `name` or `schema`.`name`.  It quotes every dot, also one inside a
    name: a table named a.b without schema and the table b of schema a get
    the same quoted name. *)
Theorem getTableNameWithQuote_spec (ctx : World.Context W) (stmt : TableName.t) :
  (dotless (World.GetSchemaName W ctx stmt) = true ->
   dotless (TableName.Name stmt) = true ->
   getTableNameWithQuote W ctx stmt
   = if String.eqb (World.GetSchemaName W ctx stmt) ""
     then "`" ++ TableName.Name stmt ++ "`"
     else "`" ++ World.GetSchemaName W ctx stmt ++ "`.`" ++ TableName.Name stmt ++ "`")
  /\ (forall other : TableName.t,
        World.GetSchemaName W ctx stmt = "" ->
        World.GetSchemaName W ctx other <> "" ->
        TableName.Name stmt
        = World.GetSchemaName W ctx other ++ "." ++ TableName.Name other ->
        getTableNameWithQuote W ctx stmt = getTableNameWithQuote W ctx other).
Proof.
  split.
  - intros HS HN. unfold getTableNameWithQuote, getTableName. cbv zeta.
    destruct (String.eqb (World.GetSchemaName W ctx stmt) "").
    + now rewrite ReplaceByte_dotless.
    + rewrite ReplaceByte_app, (ReplaceByte_dotless _ _ HS).
      change ("." ++ TableName.Name stmt) with (String "."%char (TableName.Name stmt)).
      cbn [ReplaceByte]. rewrite Ascii.eqb_refl, (ReplaceByte_dotless _ _ HN).
      rewrite <- !append_assoc. reflexivity.
  - intros other HS HO HN. unfold getTableNameWithQuote, getTableName. cbv zeta.
    rewrite HS. simpl.
    destruct (String.eqb (World.GetSchemaName W ctx other) "") eqn:E.
    + apply String.eqb_eq in E. contradiction.
    + now rewrite HN.
Qed.

End NameFacts.

(* ------------------------------------------------------------------ *)
(** *** Rule SQLE00041: the prefix of unique index names                *)
(* ------------------------------------------------------------------ *)

Section Rule41Facts.
Import ast driverV2 rulepkg ai.
Variable Context : Type.
Variable env : Env.t Context.
Variable IsAlterTableCommand : AlterTableSpec.t -> AlterTableType -> bool.
Variable DefaultSingleParamKeyName : string.

Lemma createTableLoop41_spec (requiredPrefix : string)
    (constraints : list Constraint.t) :
  createTableLoop41 requiredPrefix constraints
  = existsb (unprefixed requiredPrefix) constraints.
Proof.
  induction constraints as [|c cs IH]; [reflexivity|]. simpl. unfold unprefixed.
  destruct (isUniq (Constraint.Tp c)); simpl; [|exact IH].
  destruct (HasPrefix (Constraint.Name c) requiredPrefix); simpl;
    [exact IH|reflexivity].
Qed.

Lemma renamedLoop_spec (requiredPrefix : string)
    (renameto_map : list (string * string)) (constraints : list Constraint.t) :
  renamedLoop requiredPrefix renameto_map constraints
  = existsb (badlyRenamed requiredPrefix renameto_map) constraints.
Proof.
  induction constraints as [|c cs IH]; [reflexivity|]. simpl. unfold badlyRenamed.
  destruct (renamedTo renameto_map (Constraint.Name c)) as [n|]; simpl; [|exact IH].
  destruct (HasPrefix n requiredPrefix); simpl; [exact IH|reflexivity].
Qed.

(** X27: outside ALTER TABLE, RuleSQLE00041 looks at names as follows.
    Without its parameter it returns an error for every statement and adds
    nothing.  With the prefix, a CREATE TABLE is reported exactly when one
    of its constraints of type unique or unique index has a name that does
    not start with the prefix.  A CREATE INDEX is reported exactly when the
    index is a plain one (key type none) and its name does not start with
    the prefix: the name of a CREATE UNIQUE INDEX is never examined. *)
Theorem RuleSQLE00041_create
    (ctx : Context) (rule : Rule.t) (res : AuditResults.t) (requiredPrefix : string) :
  (forall node,
      RuleSQLE00041 Context env IsAlterTableCommand DefaultSingleParamKeyName None
        (RuleHandlerInput.mk ctx rule res node)
      = Some (HandlerOutcome.mk ctx []
                (Some (ErrNew ("param " ++ DefaultSingleParamKeyName ++ " not found")))))
  /\ (forall stmt : CreateTableStmt.t,
        RuleSQLE00041 Context env IsAlterTableCommand DefaultSingleParamKeyName
          (Some requiredPrefix) (RuleHandlerInput.mk ctx rule res (NCreateTable stmt))
        = Some (HandlerOutcome.mk ctx
                  (if existsb (unprefixed requiredPrefix)
                        (CreateTableStmt.Constraints stmt)
                   then [AddResult rule SQLE00041] else [])
                  None))
  /\ (forall stmt : CreateIndexStmt.t,
        RuleSQLE00041 Context env IsAlterTableCommand DefaultSingleParamKeyName
          (Some requiredPrefix) (RuleHandlerInput.mk ctx rule res (NCreateIndex stmt))
        = Some (HandlerOutcome.mk ctx
                  (match CreateIndexStmt.KeyType stmt with
                   | IndexKeyTypeNone =>
                       if HasPrefix (CreateIndexStmt.IndexName stmt) requiredPrefix
                       then [] else [AddResult rule SQLE00041]
                   | _ => []
                   end)
                  None)).
Proof.
  repeat split.
  - intros stmt. unfold RuleSQLE00041. simpl. rewrite createTableLoop41_spec.
    destruct (existsb _ _); reflexivity.
  - intros stmt. unfold RuleSQLE00041. simpl.
    destruct (CreateIndexStmt.KeyType stmt); try reflexivity.
    destruct (HasPrefix _ _); reflexivity.
Qed.

Lemma scanSpecs_renames (requiredPrefix : string) (specs : list AlterTableSpec.t)
    (renameto_map : list (string * string)) :
  (forall spec, In spec specs ->
     IsAlterTableCommand spec AlterTableAddConstraint = false
     /\ IsAlterTableCommand spec AlterTableRenameIndex = true) ->
  scanSpecs IsAlterTableCommand requiredPrefix specs renameto_map
  = Renames (renamesOf specs ++ renameto_map)%list.
Proof.
  revert renameto_map. induction specs as [|spec rest IH]; intros m H;
    [reflexivity|].
  destruct (H spec (or_introl eq_refl)) as [HA HR].
  simpl. rewrite HA, HR, IH by (intros s I; apply H; now right).
  unfold renamesOf. simpl. now rewrite <- app_assoc.
Qed.

(** X28: for an ALTER TABLE made of RENAME INDEX parts only,
    RuleSQLE00041 resolves the existing table and reports the statement
    exactly when one of the table's constraints of type unique or unique
    index is renamed to a name that does not start with the prefix, where
    of several renames of one index only the last counts; the renaming of
    any other index is not examined.  When the table cannot be resolved the
    error comes back as the error of the rule, without a finding. *)
Theorem RuleSQLE00041_rename_index
    (ctx ctx' : Context) (rule : Rule.t) (res : AuditResults.t)
    (requiredPrefix : string) (table : TableName.t)
    (spec : AlterTableSpec.t) (rest : list AlterTableSpec.t)
    (r : CreateTableStmt.t + error) :
  (forall s, In s (spec :: rest) ->
     IsAlterTableCommand s AlterTableAddConstraint = false
     /\ IsAlterTableCommand s AlterTableRenameIndex = true) ->
  Env.GetCreateTableStmt env ctx table = (ctx', r) ->
  RuleSQLE00041 Context env IsAlterTableCommand DefaultSingleParamKeyName
    (Some requiredPrefix)
    (RuleHandlerInput.mk ctx rule res
       (NAlterTable (AlterTableStmt.mk table (spec :: rest))))
  = Some
      match r with
      | inr err => HandlerOutcome.mk ctx' [] (Some err)
      | inl createTableStmt =>
          HandlerOutcome.mk ctx'
            (if existsb (badlyRenamed requiredPrefix (renamesOf (spec :: rest)))
                  (Env.GetTableConstraints env
                     (CreateTableStmt.Constraints createTableStmt)
                     [ConstraintUniqIndex; ConstraintUniq])
             then [AddResult rule SQLE00041] else [])
            None
      end.
Proof.
  intros H HG. unfold RuleSQLE00041.
  cbn [RuleHandlerInput.Node RuleHandlerInput.Ctx RuleHandlerInput.Rule
       AlterTableStmt.Specs AlterTableStmt.Table].
  rewrite (scanSpecs_renames requiredPrefix (spec :: rest) [] H), app_nil_r.
  destruct (renamesOf (spec :: rest)) as [|entry m] eqn:E.
  { unfold renamesOf in E. simpl in E. now destruct (rev _) in E. }
  rewrite HG. destruct r as [ct|err]; [|reflexivity].
  rewrite renamedLoop_spec. destruct (existsb _ _); reflexivity.
Qed.

End Rule41Facts.

(* ------------------------------------------------------------------ *)
(** *** The further properties at work                                  *)
(* ------------------------------------------------------------------ *)

Section MoreWitnesses.
Import ast driverV2 rulepkg mysql SampleAudit SampleMore.

Lemma RuleSQLE00063_alter_without_rename_witness :
  ai.RuleSQLE00063 unit aiEnv
    (RuleHandlerInput.mk tt warn63 NewAuditResults
       (NAlterTable (AlterTableStmt.mk (TableName.mk "" "T") [add_uk_a])))
  = HandlerOutcome.mk tt [AddResult warn63 ai.SQLE00063] None.
Proof.
  exact (RuleSQLE00063_alter_without_rename unit aiEnv tt warn63 NewAuditResults
           (TableName.mk "" "T") [add_uk_a] eq_refl).
Defined.

Lemma RuleSQLE00063_rename_ends_the_check_witness :
  ai.RuleSQLE00063 unit aiEnv
    (RuleHandlerInput.mk tt warn63 NewAuditResults
       (NAlterTable (AlterTableStmt.mk (TableName.mk "" "missing")
                       [rename_index_spec; add_uk_a])))
  = HandlerOutcome.mk tt [] None.
Proof.
  apply (RuleSQLE00063_rename_ends_the_check unit aiEnv tt tt warn63 NewAuditResults
           (TableName.mk "" "missing") rename_index_spec [add_uk_a]).
  - reflexivity.
  - left. exists (ErrNew "table not exist"). reflexivity.
Defined.

Lemma RuleSQLE00063_accepts_expected_names_witness :
  ai.RuleSQLE00063 unit aiEnv
    (RuleHandlerInput.mk tt warn63 NewAuditResults (NCreateTable table_well_named))
  = HandlerOutcome.mk tt [] None.
Proof.
  apply (proj1 (RuleSQLE00063_accepts_expected_names unit aiEnv tt warn63
                  NewAuditResults) table_well_named).
  simpl. intros constraint [<-|[]]. reflexivity.
Defined.

Lemma audit_pre_check_error_witness :
  preValidate (invalid_world true) Sample.select_all fresh
  = (MysqlDriverImpl.mk tt cnf rules
       (Add NewAuditResults RuleLevelWarn "pre_check_err" CheckInvalidErrorFormat)
       true false [EvAudit Sample.select_all],
     Ok (NSelect Sample.select_all_stmt)).
Proof.
  exact (audit_pre_check_error (invalid_world true) Sample.select_all
           (NSelect Sample.select_all_stmt) [] fresh tt NewAuditResults
           table_not_exist eq_refl eq_refl).
Defined.

Lemma Audit_without_ghost_threshold_witness :
  ghosts (MysqlDriverImpl.calls
            (fst (Audit (world None (Ok None)) [Sample.select_all; alter_big]
                    ghostless_driver)))
  = [].
Proof.
  exact (Audit_without_ghost_threshold (world None (Ok None))
           [Sample.select_all; alter_big] ghostless_driver eq_refl).
Defined.

Lemma configured_dry_run_finds_its_rule_witness :
  exists finding,
    snd (ghostDryRun (world None (Ok None)) alter_big (Some ghostRule) applied) = Ok tt
    /\ AuditResults.Results
         (MysqlDriverImpl.result
            (fst (ghostDryRun (world None (Ok None)) alter_big (Some ghostRule) applied)))
       = [finding]
    /\ AuditResult.RuleName finding = "ddl_ghost_min_size".
Proof.
  exact (configured_dry_run_finds_its_rule (world None (Ok None))
           "dml_enable_explain_pre_check" "sql_is_executed" configured fresh
           applied alter_big eq_refl eq_refl eq_refl).
Defined.

Lemma offline_driver_asks_nothing_witness :
  ExecBatch (world None (Ok None)) nat string (database true)
    [alter_small; alter_big] (instance true false)
  = (instance true false, Gives [None; None] None).
Proof.
  exact (proj1 (proj2 (offline_driver_asks_nothing (world None (Ok None)) nat string
                         (database true) (instance true false) alter_big
                         [alter_small; alter_big] eq_refl))).
Defined.


Lemma ExecBatch_keeps_partial_results_witness :
  ExecBatch (world None (Ok None)) nat string (database true)
    [Sample.select_all; alter_small; alter_big] (instance false false)
  = (fst (Exec (world None (Ok None)) nat string (database true) alter_small
            (fst (Exec (world None (Ok None)) nat string (database true)
                    Sample.select_all (instance false false)))),
     Gives [Some "ok: SELECT * FROM t"; None]
       (Some (ExecSqlFailed alter_small duplicate_column))).
Proof.
  exact (proj1 (ExecBatch_keeps_partial_results (world None (Ok None)) nat string
                  (database true) [Sample.select_all] [alter_big] alter_small
                  (instance false false) _ _ [Some "ok: SELECT * FROM t"] None
                  duplicate_column eq_refl eq_refl)).
Defined.

Lemma GetAffectedRowNum_refuses_unsupported_witness :
  util.GetAffectedRowNum parser show_tables (Sample.answering "5")
    (Sample.explain_with [Sample.plan "range" 5])
  = ([util.EvParseOneSql show_tables], Err ErrUnsupportedSqlType).
Proof.
  apply (GetAffectedRowNum_refuses_unsupported parser
           (fun n e H => ltac:(discriminate H)) (fun u e H => ltac:(discriminate H))
           show_tables (Sample.answering "5")
           (Sample.explain_with [Sample.plan "range" 5]) (NOther show_tables)).
  reflexivity.
Defined.

Lemma EstimateSQLAffectRows_unsupported_witness :
  snd (EstimateSQLAffectRows (world None (Ok None)) nat string (database true)
         show_tables (instance false false))
  = Gives (Some (EstimatedAffectRows.mk 0 (Some ErrUnsupportedSqlType))) None.
Proof.
  refine (proj1 (EstimateSQLAffectRows_unsupported (world None (Ok None)) nat string
                   (database true) show_tables (instance false false) _ (Some O)
                   (NOther show_tables) eq_refl eq_refl eq_refl _ _)).
  - intros n e H. discriminate H.
  - intros u e H. discriminate H.
Defined.

Lemma RuleSQLE00041_rename_index_witness :
  ai.RuleSQLE00041 unit aiEnv isCommand "first_key" (Some "uniq_")
    (RuleHandlerInput.mk tt warn41 NewAuditResults (NAlterTable rename_index_stmt))
  = Some (HandlerOutcome.mk tt [AddResult warn41 ai.SQLE00041] None).
Proof.
  apply (RuleSQLE00041_rename_index unit aiEnv isCommand "first_key" tt tt warn41
           NewAuditResults "uniq_" (TableName.mk "" "T") rename_index_spec []
           (inl table_T)).
  - intros s [<-|[]]. split; reflexivity.
  - reflexivity.
Defined.

Lemma SetRules_can_lose_the_ghost_rule_witness :
  snd (ghostDryRun (world None (Ok None)) alter_big None
         (SetRules (world None (Ok None)) [] fresh))
  = Panic.
Proof.
  refine (proj1 (proj2 (SetRules_can_lose_the_ghost_rule (world None (Ok None))
                          [] fresh alter_big _ eq_refl))).
  intros rule [].
Defined.

(** The first rule of the sample session fails on every statement; its
    failure is in the result set, and so is what the rule after it found. *)
Lemma ruleDispatch_isolates_handler_failures_witness :
  In boom
     (AuditResults.Results
        (MysqlDriverImpl.result
           (fst (ruleDispatch (world None (Ok None))
                   (NSelect Sample.select_all_stmt) fresh))))
  /\ In (AddResult (Rule.mk "flags_select" RuleLevelNotice) "flags_select")
        (AuditResults.Results
           (MysqlDriverImpl.result
              (fst (ruleDispatch (world None (Ok None))
                      (NSelect Sample.select_all_stmt) fresh)))).
Proof.
  destruct (ruleDispatch_isolates_handler_failures (world None (Ok None))
              (NSelect Sample.select_all_stmt) fresh)
    as (i' & g & evs & E & _ & _ & H).
  rewrite E. cbn [fst]. split.
  - refine (proj2 (proj2 (H [] (tl rules) (Rule.mk "always_fails" RuleLevelWarn)
                            always_fails _ eq_refl eq_refl eq_refl eq_refl))
              (ErrNew "boom") eq_refl).
  - refine (proj1 (proj2 (H [Rule.mk "always_fails" RuleLevelWarn] (tl (tl rules))
                            (Rule.mk "flags_select" RuleLevelNotice)
                            flags_select _ eq_refl eq_refl eq_refl eq_refl))
              _ _).
    left. reflexivity.
Defined.

End MoreWitnesses.
